(** * Task models of the Agent2Agent protocol (a2a_multiagent/models/task.py)

    The module declares pydantic models and one string enumeration, and
    defines no function of its own: what a model does is what
    [BaseModel.__init__] does with the declared fields.  The embedding
    therefore has three layers:

    - Python values and the object store (instances, lists and dicts are
      objects reached through references; strings, integers, bytes and
      datetimes are immutable immediates);
    - the validators pydantic (2.x, default lax mode) attaches to the
      annotations used by the module, and [BaseModel.__init__] itself;
    - the field tables of the seven classes, read off task.py line by line.

    The values considered are None, bools, integers, strings, bytes,
    datetimes, and references to lists, to dicts with string keys and to
    instances of the seven classes.  Floats, tuples, sets and other Python
    values are not represented.

    The wall clock ([datetime.now]) and the operating system's random
    source ([os.urandom], behind [uuid4]) are oracles of the world state:
    nothing is assumed about the values they produce. *)

From Stdlib Require Import ZArith.
From Stdlib.Strings Require Import Byte Ascii String.
From stdpp Require Import base option list gmap strings.

Local Open Scope string_scope.

(** ** Values and objects *)

Definition loc := positive.

(** A [datetime] is kept abstract as a count of microseconds; only its
    identity matters to the module. *)
Definition datetime := Z.

(** The classes declared with [class X(BaseModel)] (task.py 28-92). *)
Inductive Class :=
| TextPart | Message | TaskStatus | Task
| TaskIdParams | TaskQueryParams | TaskSendParams.

Global Instance Class_eq_dec : EqDecision Class.
Proof. solve_decision. Defined.

(** [Part = TextPart] (task.py 33). *)
Definition Part : Class := TextPart.

(** [class TaskQueryParams(TaskIdParams)] is the only inheritance. *)
Definition issubclass (c d : Class) : bool :=
  match c, d with
  | TaskQueryParams, TaskIdParams => true
  | _, _ => bool_decide (c = d)
  end.

(** The fields of each class in the order of their declaration, which is
    the order of an instance's [__dict__] (task.py 29-30, 42-43, 51-54,
    62-64, 73-74, 80, 85-92). *)
Definition declared_fields (c : Class) : list string :=
  match c with
  | TextPart => ["type"; "text"]
  | Message => ["role"; "parts"]
  | TaskStatus => ["state"; "timestamp"]
  | Task => ["id"; "status"; "history"]
  | TaskIdParams => ["id"; "metadata"]
  | TaskQueryParams => ["id"; "metadata"; "historyLength"]
  | TaskSendParams => ["id"; "sessionId"; "message"; "historyLength"; "metadata"]
  end.

Global Instance byte_eq_dec : EqDecision byte := Byte.byte_eq_dec.

Inductive Val :=
| VNone
| VBool (b : bool)
| VInt (n : Z)
| VStr (s : string)
| VBytes (b : list byte)
| VDatetime (t : datetime)
| VRef (l : loc).

Global Instance Val_eq_dec : EqDecision Val.
Proof. solve_decision. Defined.

(** Heap objects.  The dicts of the model are those whose keys are all
    [str]; a dict with a key of another type is not an object of the
    model.  An instance carries its class and its [__dict__]. *)
Inductive Obj :=
| OList (items : list Val)
| ODict (d : gmap string Val)
| OInst (c : Class) (attrs : gmap string Val)
| OTuple (items : list Val).

(** ** The world: object store, wall clock, random source *)

Record World := mkWorld {
  heap : gmap loc Obj;
  clock : nat → datetime;     (* successive readings of the wall clock *)
  clock_reads : nat;          (* readings taken so far *)
  entropy : nat → byte;       (* the bytes os.urandom hands out *)
  entropy_drawn : nat         (* bytes drawn so far *)
}.

Definition set_heap (h : gmap loc Obj) (w : World) : World :=
  mkWorld h (clock w) (clock_reads w) (entropy w) (entropy_drawn w).

(** Computations thread the world. *)
Definition M (A : Type) : Type := World → A * World.

Global Instance M_ret : MRet M := λ A a w, (a, w).
Global Instance M_bind : MBind M :=
  λ A B k m w, let (a, w') := m w in k a w'.

(** Object creation: a location the store does not use yet. *)
Definition alloc (o : Obj) : M loc :=
  λ w, let l := fresh (dom (heap w)) in (l, set_heap (<[l := o]> (heap w)) w).

Definition deref (l : loc) : M (option Obj) := λ w, (heap w !! l, w).

Fixpoint alloc_all (os : list Obj) : M (list loc) :=
  match os with
  | [] => mret []
  | o :: os' => l ← alloc o; ls ← alloc_all os'; mret (l :: ls)
  end.

(** Iterating an instance, [iter(obj)]: the (name, value) pairs of its
    fields, in declaration order. *)
Definition instance_items (c : Class) (attrs : gmap string Val) : list Obj :=
  omap (λ n, v ← attrs !! n; Some (OTuple [VStr n; v])) (declared_fields c).

(** [datetime.now()]: the next reading of the clock. *)
Definition datetime_now : M datetime :=
  λ w, (clock w (clock_reads w),
        mkWorld (heap w) (clock w) (S (clock_reads w)) (entropy w) (entropy_drawn w)).

(** [os.urandom(n)]: the next [n] bytes of the random source. *)
Definition os_urandom (n : nat) : M (list byte) :=
  λ w, ((λ i, entropy w (entropy_drawn w + i)%nat) <$> seq 0 n,
        mkWorld (heap w) (clock w) (clock_reads w) (entropy w) (entropy_drawn w + n)).

(** ** uuid4().hex (CPython's uuid module) *)

(** [int.from_bytes(b, 'big')]. *)
Definition int_from_bytes (bs : list byte) : Z :=
  foldl (λ acc b, acc * 256 + Z.of_N (Byte.to_N b))%Z 0%Z bs.

(** [UUID.__init__(bytes=..., version=4)]: variant set to RFC 4122, version
    nibble set to 4. *)
Definition UUID_version4 (i : Z) : Z :=
  let i := Z.land i (Z.lnot (Z.shiftl 0xc000 48)) in
  let i := Z.lor i (Z.shiftl 0x8000 48) in
  let i := Z.land i (Z.lnot (Z.shiftl 0xf000 64)) in
  Z.lor i (Z.shiftl 4 76).

Definition hex_digit (d : Z) : ascii :=
  if (d <? 10)%Z then ascii_of_N (Z.to_N (48 + d)) else ascii_of_N (Z.to_N (87 + d)).

(** The [k] low nibbles of [i], most significant first. *)
Fixpoint hex_digits (k : nat) (i : Z) : string :=
  match k with
  | O => ""
  | S k' => String (hex_digit (Z.land (Z.shiftr i (4 * Z.of_nat k')) 15)) (hex_digits k' i)
  end.

(** ['%032x' % i] for [0 <= i < 2^128] (wider values would print more than
    32 digits; a UUID never holds one). *)
Definition UUID_hex (i : Z) : string := hex_digits 32 i.

(** The 122 bits of a version-4 UUID that come from the random source, and
    the six that are fixed. *)
Definition random_bits (i : Z) : Z :=
  Z.land i (Z.lnot (Z.lor (Z.shiftl 0xc000 48) (Z.shiftl 0xf000 64))).

Definition fixed_bits : Z := Z.lor (Z.shiftl 0x8000 48) (Z.shiftl 4 76).

Definition is_hex_char (c : ascii) : bool :=
  bool_decide (c ∈ list_ascii_of_string "0123456789abcdef").

Definition uuid4_hex : M Val :=
  bs ← os_urandom 16;
  mret (VStr (UUID_hex (UUID_version4 (int_from_bytes bs)))).


(** ** Validation results *)

(** Where in the input an error sits: attribute names and list indices, as
    in the [loc] tuples of pydantic's error reports. *)
Inductive LocItem :=
| Attr (name : string)
| Idx (i : nat).

Definition ErrorLoc := list LocItem.

(** A construction either yields a value or raises the single error kind
    of the module, a [ValidationError] listing every offending location. *)
Inductive Result (A : Type) :=
| Ok (a : A)
| ValidationError (errors : list ErrorLoc).

Arguments Ok {A} a.
Arguments ValidationError {A} errors.

(** One error at the location being validated. *)
Definition invalid {A} : Result A := ValidationError [[]].

Definition at_loc {A} (i : LocItem) (r : Result A) : Result A :=
  match r with
  | Ok a => Ok a
  | ValidationError es => ValidationError ((i ::.) <$> es)
  end.

(** Both results are needed; the errors of both sides are reported. *)
Definition both {A B C} (f : A → B → C) (r1 : Result A) (r2 : Result B) : Result C :=
  match r1, r2 with
  | Ok a, Ok b => Ok (f a b)
  | Ok _, ValidationError es => ValidationError es
  | ValidationError es, Ok _ => ValidationError es
  | ValidationError es1, ValidationError es2 => ValidationError (es1 ++ es2)
  end.

(** ** Lax-mode readers of pydantic-core *)

Definition in_range (lo hi b : N) : bool := ((lo <=? b) && (b <=? hi))%N.

Definition continuation (b : N) : bool := in_range 0x80 0xBF b.

(** Second byte of a three-byte sequence: no overlong forms, no surrogates. *)
Definition second_of_3 (b0 b1 : N) : bool :=
  if (b0 =? 0xE0)%N then in_range 0xA0 0xBF b1
  else if (b0 =? 0xED)%N then in_range 0x80 0x9F b1
  else continuation b1.

(** Second byte of a four-byte sequence: no overlong forms, at most U+10FFFF. *)
Definition second_of_4 (b0 b1 : N) : bool :=
  if (b0 =? 0xF0)%N then in_range 0x90 0xBF b1
  else if (b0 =? 0xF4)%N then in_range 0x80 0x8F b1
  else continuation b1.

(** Well-formed UTF-8, the condition under which bytes decode to [str]. *)
Fixpoint utf8_ok (bs : list N) : bool :=
  match bs with
  | [] => true
  | b0 :: r0 =>
    if (b0 <? 0x80)%N then utf8_ok r0 else
    match r0 with
    | [] => false
    | b1 :: r1 =>
      if in_range 0xC2 0xDF b0 then continuation b1 && utf8_ok r1 else
      match r1 with
      | [] => false
      | b2 :: r2 =>
        if in_range 0xE0 0xEF b0 then
          second_of_3 b0 b1 && continuation b2 && utf8_ok r2
        else
          match r2 with
          | [] => false
          | b3 :: r3 =>
            in_range 0xF0 0xF4 b0 && second_of_4 b0 b1
            && continuation b2 && continuation b3 && utf8_ok r3
          end
      end
    end
  end.

(** A [str] is represented by its UTF-8 encoding, so decoding keeps the
    bytes. *)
Definition bytes_decode (b : list byte) : option string :=
  if utf8_ok (Byte.to_N <$> b) then Some (string_of_list_byte b) else None.

Definition digit_value (c : ascii) : option Z :=
  let n := N_of_ascii c in
  if in_range 48 57 n then Some (Z.of_N n - 48)%Z else None.

Fixpoint digits_value (acc : Z) (s : string) : option Z :=
  match s with
  | EmptyString => Some acc
  | String c r => d ← digit_value c; digits_value (10 * acc + d)%Z r
  end.

Definition numeral_value (s : string) : option Z :=
  match s with
  | EmptyString => None
  | _ => digits_value 0 s
  end.

(** An optionally signed decimal numeral, [[+-]?[0-9]+], and its value. *)
Definition plain_numeral (s : string) : option Z :=
  match s with
  | EmptyString => None
  | String c r =>
    if Ascii.eqb c "-" then Z.opp <$> numeral_value r
    else if Ascii.eqb c "+" then numeral_value r
    else numeral_value s
  end.

(** White space as Rust's [str::trim] knows it, within ASCII: tab, line
    feed, vertical tab, form feed, carriage return and space. *)
Definition is_space (c : ascii) : bool :=
  let n := N_of_ascii c in in_range 9 13 n || (n =? 32)%N.

Fixpoint trim_start (s : string) : string :=
  match s with
  | EmptyString => EmptyString
  | String c r => if is_space c then trim_start r else s
  end.

Fixpoint trim_end (s : string) : string :=
  match s with
  | EmptyString => EmptyString
  | String c r =>
    match trim_end r with
    | EmptyString => if is_space c then EmptyString else String c EmptyString
    | r' => String c r'
    end
  end.

Definition trim (s : string) : string := trim_end (trim_start s).

(** A character that no text read as an integer contains: a printable
    ASCII character other than a digit, a sign, an underscore and a dot. *)
Definition foreign (c : ascii) : bool :=
  let n := N_of_ascii c in
  in_range 33 126 n && negb (in_range 48 57 n) &&
  negb ((n =? 43) || (n =? 45) || (n =? 46) || (n =? 95))%N.

Fixpoint has_foreign (s : string) : bool :=
  match s with
  | EmptyString => false
  | String c r => foreign c || has_foreign r
  end.

(** ** Core schemas: how a value of an annotation is validated and dumped *)

Definition Validator := Val → M (Result Val).

(** Dumping answers [None] on a value the schema does not describe; there
    pydantic warns and falls back on the run-time type of the value, which
    is outside this model. *)
Definition Serializer := Val → M (option Val).

Record Schema := schema {
  validate : Validator;
  serialize : Serializer
}.

Definition of_option (o : option Val) : Result Val :=
  match o with Some v => Ok v | None => invalid end.

Definition serialize_if (p : Val → bool) : Serializer := λ v,
  mret (if p v then Some v else None).

(** [str]: a [str] as it is; [bytes] decoded as UTF-8. *)
Definition validate_str : Validator := λ v,
  mret match v with
       | VStr s => Ok (VStr s)
       | VBytes b => of_option (VStr <$> bytes_decode b)
       | _ => invalid
       end.

Definition is_str (v : Val) : bool :=
  match v with VStr _ => true | _ => false end.

Definition str_schema : Schema := schema validate_str (serialize_if is_str).

Definition is_int (v : Val) : bool :=
  match v with VInt _ => true | _ => false end.

(** [Literal[s1, ..., sn]]: exactly one of the listed strings. *)
Definition is_literal (allowed : list string) (v : Val) : bool :=
  match v with VStr s => bool_decide (s ∈ allowed) | _ => false end.

Definition validate_literal (allowed : list string) : Validator := λ v,
  mret (if is_literal allowed v then Ok v else invalid).

Definition literal_schema (allowed : list string) : Schema :=
  schema (validate_literal allowed) (serialize_if (is_literal allowed)).

(** [X | None]. *)
Definition nullable_schema (inner : Schema) : Schema :=
  schema (λ v, match v with VNone => mret (Ok VNone) | _ => validate inner v end)
         (λ v, match v with VNone => mret (Some VNone) | _ => serialize inner v end).

Definition is_immediate (v : Val) : bool :=
  match v with VRef _ => false | _ => true end.

(** [dict[str, Any]]: a dict, copied into a new dict; validation does not
    look at the values.  The keys must be [str], which those of the dicts
    of the model are ([ODict]); a dict with a key of another type, which
    the code rejects, or rewrites if the key is [bytes] that decode, is
    outside the model.  Dumping is modelled for dicts of immediate
    values. *)
Definition validate_dict_str_any : Validator := λ v,
  match v with
  | VRef l =>
    o ← deref l;
    match o with
    | Some (ODict d) => l' ← alloc (ODict d); mret (Ok (VRef l'))
    | _ => mret invalid
    end
  | _ => mret invalid
  end.

Definition serialize_dict_str_any : Serializer := λ v,
  match v with
  | VRef l =>
    o ← deref l;
    match o with
    | Some (ODict d) =>
      if bool_decide (map_Forall (λ _ x, is_immediate x = true) d)
      then l' ← alloc (ODict d); mret (Some (VRef l'))
      else mret None
    | _ => mret None
    end
  | _ => mret None
  end.

Definition dict_str_any_schema : Schema :=
  schema validate_dict_str_any serialize_dict_str_any.

(** The items of a list, each validated in turn; every failing index is
    reported. *)
Fixpoint validate_items (item : Validator) (i : nat) (xs : list Val)
  : M (Result (list Val)) :=
  match xs with
  | [] => mret (Ok [])
  | x :: xs' =>
    r ← item x;
    rs ← validate_items item (S i) xs';
    mret (both cons (at_loc (Idx i) r) rs)
  end.

Fixpoint serialize_items (item : Serializer) (xs : list Val) : M (option (list Val)) :=
  match xs with
  | [] => mret (Some [])
  | x :: xs' =>
    r ← item x;
    rs ← serialize_items item xs';
    mret (y ← r; ys ← rs; Some (y :: ys))
  end.

(** [List[X]]: a list, whose validated (dumped) items go into a new list.
    Lax mode takes other iterables for a list, save [str], [bytes] and
    dicts: a tuple, and also an instance, which is iterated and yields
    its fields as (name, value) pairs.  Sets, generators and the like are
    outside the model. *)
Definition validate_list (item : Validator) : Validator := λ v,
  match v with
  | VRef l =>
    o ← deref l;
    match o with
    | Some (OList xs) =>
      r ← validate_items item 0 xs;
      match r with
      | Ok ys => l' ← alloc (OList ys); mret (Ok (VRef l'))
      | ValidationError es => mret (ValidationError es)
      end
    | Some (OTuple xs) =>
      r ← validate_items item 0 xs;
      match r with
      | Ok ys => l' ← alloc (OList ys); mret (Ok (VRef l'))
      | ValidationError es => mret (ValidationError es)
      end
    | Some (OInst c attrs) =>
      ls ← alloc_all (instance_items c attrs);
      r ← validate_items item 0 (VRef <$> ls);
      match r with
      | Ok ys => l' ← alloc (OList ys); mret (Ok (VRef l'))
      | ValidationError es => mret (ValidationError es)
      end
    | _ => mret invalid
    end
  | _ => mret invalid
  end.

Definition serialize_list (item : Serializer) : Serializer := λ v,
  match v with
  | VRef l =>
    o ← deref l;
    match o with
    | Some (OList xs) =>
      r ← serialize_items item xs;
      match r with
      | Some ys => l' ← alloc (OList ys); mret (Some (VRef l'))
      | None => mret None
      end
    | _ => mret None
    end
  | _ => mret None
  end.

Definition list_schema (item : Schema) : Schema :=
  schema (validate_list (validate item)) (serialize_list (serialize item)).

(** ** BaseModel *)

Inductive Default :=
| Required
| DefaultValue (v : Val)
| DefaultFactory (f : M Val).

Record FieldInfo := field {
  name : string;
  annotation : Schema;
  default : Default
}.

(** A keyword argument is validated; an absent one takes the default, which
    is not validated; a required one that is absent is an error. *)
Definition validate_field (kw : gmap string Val) (f : FieldInfo) : M (Result Val) :=
  match kw !! name f with
  | Some v => r ← validate (annotation f) v; mret (at_loc (Attr (name f)) r)
  | None =>
    match default f with
    | Required => mret (ValidationError [[Attr (name f)]])
    | DefaultValue v => mret (Ok v)
    | DefaultFactory g => v ← g; mret (Ok v)
    end
  end.

(** The fields in declaration order.  Validation goes on after a failure,
    and keyword arguments that name no field are ignored. *)
Fixpoint validate_fields (kw : gmap string Val) (fs : list FieldInfo)
  : M (Result (gmap string Val)) :=
  match fs with
  | [] => mret (Ok ∅)
  | f :: fs' =>
    r ← validate_field kw f;
    rs ← validate_fields kw fs';
    mret (both (λ v attrs, <[name f := v]> attrs) r rs)
  end.

(** [BaseModel.__init__] on keyword arguments [kw]: all or nothing, the
    instance exists only when every field validated. *)
Definition BaseModel_init (c : Class) (fs : list FieldInfo) (kw : gmap string Val)
  : M (Result loc) :=
  r ← validate_fields kw fs;
  match r with
  | Ok attrs => l ← alloc (OInst c attrs); mret (Ok l)
  | ValidationError es => mret (ValidationError es)
  end.

(** A field annotated with a model class: an instance of the class (or of
    a subclass) is taken as it is, a dict is used as keyword arguments. *)
Definition validate_model (c : Class) (fs : list FieldInfo) : Validator := λ v,
  match v with
  | VRef l =>
    o ← deref l;
    match o with
    | Some (OInst c' _) => mret (if issubclass c' c then Ok v else invalid)
    | Some (ODict d) =>
      r ← BaseModel_init c fs d;
      mret match r with
           | Ok l' => Ok (VRef l')
           | ValidationError es => ValidationError es
           end
    | _ => mret invalid
    end
  | _ => mret invalid
  end.

(** The attributes of an instance, dumped field by field into a dict. *)
Fixpoint serialize_fields (attrs : gmap string Val) (fs : list FieldInfo)
  : M (option (gmap string Val)) :=
  match fs with
  | [] => mret (Some ∅)
  | f :: fs' =>
    match attrs !! name f with
    | Some v =>
      r ← serialize (annotation f) v;
      rs ← serialize_fields attrs fs';
      mret (y ← r; d ← rs; Some (<[name f := y]> d))
    | None => mret None
    end
  end.

Definition serialize_model (c : Class) (fs : list FieldInfo) : Serializer := λ v,
  match v with
  | VRef l =>
    o ← deref l;
    match o with
    | Some (OInst c' attrs) =>
      if issubclass c' c then
        r ← serialize_fields attrs fs;
        match r with
        | Some d => l' ← alloc (ODict d); mret (Some (VRef l'))
        | None => mret None
        end
      else mret None
    | _ => mret None
    end
  | _ => mret None
  end.

Definition model_schema (c : Class) (fs : list FieldInfo) : Schema :=
  schema (validate_model c fs) (serialize_model c fs).

(** ** TaskState (task.py 100-107) *)

Inductive TaskState :=
| SUBMITTED | WORKING | INPUT_REQUIRED | COMPLETED | CANCELED | FAILED | UNKNOWN.

Definition TaskState_value (m : TaskState) : string :=
  match m with
  | SUBMITTED => "submitted"
  | WORKING => "working"
  | INPUT_REQUIRED => "input-required"
  | COMPLETED => "completed"
  | CANCELED => "canceled"
  | FAILED => "failed"
  | UNKNOWN => "unknown"
  end.

Definition TaskState_members : list TaskState :=
  [SUBMITTED; WORKING; INPUT_REQUIRED; COMPLETED; CANCELED; FAILED; UNKNOWN].

(** [TaskState(s)]: the member whose value is [s], if any. *)
Definition TaskState_of_value (s : string) : option TaskState :=
  find (λ m, bool_decide (TaskState_value m = s)) TaskState_members.

(** ** What an instance holds, read back as plain data *)

Module Data.

Record TextPart := { type : string; text : string }.
Record Message := { role : string; parts : list TextPart }.
Record TaskStatus := { state : string; timestamp : datetime }.
Record Task := { id : string; status : TaskStatus; history : list Message }.

(** The constraints the annotations put on the fields. *)
Definition valid_TextPart (p : TextPart) : Prop := type p = "text".

Definition valid_Message (m : Message) : Prop :=
  role m ∈ ["user"; "agent"] ∧ Forall valid_TextPart (parts m).

Definition valid_Task (t : Task) : Prop := Forall valid_Message (history t).

End Data.

Definition instance_attrs (h : gmap loc Obj) (c : Class) (v : Val)
  : option (gmap string Val) :=
  match v with
  | VRef l =>
    match h !! l with
    | Some (OInst c' attrs) => if issubclass c' c then Some attrs else None
    | _ => None
    end
  | _ => None
  end.

Definition read_str (attrs : gmap string Val) (f : string) : option string :=
  match attrs !! f with Some (VStr s) => Some s | _ => None end.

Definition read_datetime (attrs : gmap string Val) (f : string) : option datetime :=
  match attrs !! f with Some (VDatetime t) => Some t | _ => None end.

Definition read_list {A} (h : gmap loc Obj) (item : Val → option A) (v : Val)
  : option (list A) :=
  match v with
  | VRef l =>
    match h !! l with
    | Some (OList xs) => mapM item xs
    | _ => None
    end
  | _ => None
  end.

Definition read_TextPart (h : gmap loc Obj) (v : Val) : option Data.TextPart :=
  attrs ← instance_attrs h TextPart v;
  ty ← read_str attrs "type";
  tx ← read_str attrs "text";
  Some (Data.Build_TextPart ty tx).

Definition read_Message (h : gmap loc Obj) (v : Val) : option Data.Message :=
  attrs ← instance_attrs h Message v;
  r ← read_str attrs "role";
  lp ← attrs !! "parts";
  ps ← read_list h (read_TextPart h) lp;
  Some (Data.Build_Message r ps).

Definition read_TaskStatus (h : gmap loc Obj) (v : Val) : option Data.TaskStatus :=
  attrs ← instance_attrs h TaskStatus v;
  s ← read_str attrs "state";
  t ← read_datetime attrs "timestamp";
  Some (Data.Build_TaskStatus s t).

Definition read_Task (h : gmap loc Obj) (v : Val) : option Data.Task :=
  attrs ← instance_attrs h Task v;
  i ← read_str attrs "id";
  vs ← attrs !! "status";
  s ← read_TaskStatus h vs;
  lh ← attrs !! "history";
  ms ← read_list h (read_Message h) lh;
  Some (Data.Build_Task i s ms).

(** Attribute access [obj.f]. *)
Definition getattr (h : gmap loc Obj) (l : loc) (f : string) : option Val :=
  match h !! l with
  | Some (OInst _ attrs) => attrs !! f
  | _ => None
  end.

(** ** Vocabulary of the properties *)

(** The computation raises [ValidationError], reporting location [loc]
    among its errors. *)
Definition fails_at {A} (r : Result A) (loc : ErrorLoc) : Prop :=
  ∃ es, r = ValidationError es ∧ loc ∈ es.

(** A reference is allocated, as every reference a Python program holds
    is. *)
Definition allocated (h : gmap loc Obj) (v : Val) : Prop :=
  match v with
  | VRef l => is_Some (h !! l)
  | _ => True
  end.

(** The [str] a value of a [str] field is taken for. *)
Definition str_reading (v : Val) : option string :=
  match v with
  | VStr s => Some s
  | VBytes b => bytes_decode b
  | _ => None
  end.

(** Keyword arguments from which a TextPart can be built, and its text. *)
Definition TextPart_kwargs (d : gmap string Val) : option string :=
  match d !! "type" with
  | None => d !! "text" ≫= str_reading
  | Some v => if decide (v = VStr "text") then d !! "text" ≫= str_reading else None
  end.

(** A valid Part, as an element of [Message.parts]: a Part instance, or
    a dict of keyword arguments from which a Part can be built. *)
Definition valid_Part (h : gmap loc Obj) (v : Val) : bool :=
  match v with
  | VRef l =>
    match h !! l with
    | Some (OInst c _) => issubclass c Part
    | Some (ODict d) => bool_decide (is_Some (TextPart_kwargs d))
    | _ => false
    end
  | _ => false
  end.

(** What a valid element [x] of the argument becomes in the list the
    Message holds: an instance is kept, a dict is replaced by the TextPart
    built from it. *)
Definition Part_built (h : gmap loc Obj) (x y : Val) : Prop :=
  match x with
  | VRef l =>
    match h !! l with
    | Some (OInst _ _) => y = x
    | Some (ODict d) =>
      ∃ s, TextPart_kwargs d = Some s ∧
           read_TextPart h y = Some (Data.Build_TextPart "text" s)
    | _ => False
    end
  | _ => False
  end.

(** The dicts [model_dump] produces, in terms of the data dumped. *)
Definition dumped_TextPart (h : gmap loc Obj) (v : Val) (p : Data.TextPart) : Prop :=
  ∃ l, v = VRef l ∧
       h !! l = Some (ODict {[ "type" := VStr (Data.type p); "text" := VStr (Data.text p) ]}).

Definition dumped_list {A} (h : gmap loc Obj) (item : Val → A → Prop)
    (v : Val) (xs : list A) : Prop :=
  ∃ l vs, v = VRef l ∧ h !! l = Some (OList vs) ∧ Forall2 item vs xs.

Definition dumped_Message_kwargs (h : gmap loc Obj) (d : gmap string Val)
    (m : Data.Message) : Prop :=
  ∃ vp, d = {[ "role" := VStr (Data.role m); "parts" := vp ]} ∧
        dumped_list h (dumped_TextPart h) vp (Data.parts m).

Definition dumped_Message (h : gmap loc Obj) (v : Val) (m : Data.Message) : Prop :=
  ∃ l d, v = VRef l ∧ h !! l = Some (ODict d) ∧ dumped_Message_kwargs h d m.

Definition dumped_TaskStatus (h : gmap loc Obj) (v : Val) (s : Data.TaskStatus) : Prop :=
  ∃ l, v = VRef l ∧
       h !! l = Some (ODict {[ "state" := VStr (Data.state s);
                               "timestamp" := VDatetime (Data.timestamp s) ]}).

Definition dumped_Task_kwargs (h : gmap loc Obj) (d : gmap string Val)
    (t : Data.Task) : Prop :=
  ∃ vs vh, d = {[ "id" := VStr (Data.id t); "status" := vs; "history" := vh ]} ∧
           dumped_TaskStatus h vs (Data.status t) ∧
           dumped_list h (dumped_Message h) vh (Data.history t).

(** ** Relations between the world before and the world after *)

(** [w'] is [w] after some computation: every object of [w] is still
    there, unchanged; the oracles are the same; the counters moved on. *)
Record extends (w w' : World) : Prop := {
  extends_heap : heap w ⊆ heap w';
  extends_clock : clock w' = clock w;
  extends_entropy : entropy w' = entropy w;
  extends_reads : (clock_reads w ≤ clock_reads w')%nat;
  extends_drawn : (entropy_drawn w ≤ entropy_drawn w')%nat
}.

(** Moreover neither the clock nor the random source was consulted. *)
Record undisturbed (w w' : World) : Prop := {
  undisturbed_extends : extends w w';
  undisturbed_reads : clock_reads w' = clock_reads w;
  undisturbed_drawn : entropy_drawn w' = entropy_drawn w
}.

(** Computation [m] takes every world to one related to it by [R]. *)
Definition keeps (R : World → World → Prop) {A} (m : M A) : Prop :=
  ∀ w, R w (m w).2.

Definition Schema_keeps (R : World → World → Prop) (s : Schema) : Prop :=
  (∀ v, keeps R (validate s v)) ∧ (∀ v, keeps R (serialize s v)).

Definition FieldInfo_keeps (R : World → World → Prop) (f : FieldInfo) : Prop :=
  Schema_keeps R (annotation f) ∧
  match default f with DefaultFactory g => keeps R g | _ => True end.

(** The computation only adds objects. *)
Abbreviation grows := (keeps extends).

(** The value is a reference to a dict; to an instance of class [c]. *)
Definition is_dict (h : gmap loc Obj) (v : Val) : bool :=
  match v with
  | VRef l => match h !! l with Some (ODict _) => true | _ => false end
  | _ => false
  end.

Definition is_instance (h : gmap loc Obj) (c : Class) (v : Val) : bool :=
  match v with
  | VRef l => match h !! l with Some (OInst c' _) => issubclass c' c | _ => false end
  | _ => false
  end.

(** Request parameters as plain data: the dict of a TextPart, the dict of
    a Message with that part, a metadata dict, and a history whose second
    message has a second part without [text]. *)
Definition request_heap : gmap loc Obj :=
  {[ 1%positive := ODict {[ "type" := VStr "text"; "text" := VStr "hello" ]};
     2%positive := OList [VRef 1%positive];
     3%positive := ODict {[ "role" := VStr "user"; "parts" := VRef 2%positive ]};
     4%positive := ODict {[ "trace" := VStr "abc" ]};
     5%positive := ODict ∅;
     6%positive := OList [VRef 1%positive; VRef 5%positive];
     7%positive := ODict {[ "role" := VStr "agent"; "parts" := VRef 6%positive ]};
     8%positive := OList [VRef 3%positive; VRef 7%positive] ]}.

Definition request_world : World :=
  mkWorld request_heap (λ n, Z.of_nat n) 0 (λ _, x00) 0.

Definition example_message : Data.Message :=
  Data.Build_Message "user" [Data.Build_TextPart "text" "hello"].

(** Keyword arguments of the examples. *)
Definition only_id : gmap string Val := {[ "id" := VStr "t1" ]}.

Definition text_and_colour : gmap string Val :=
  {[ "text" := VStr "hi"; "colour" := VStr "red" ]}.

Definition only_text : gmap string Val := {[ "text" := VStr "hi" ]}.

Definition state_and_timestamp : gmap string Val :=
  {[ "state" := VStr "working"; "timestamp" := VDatetime 42%Z ]}.

Definition send_with_sessionId : gmap string Val :=
  {[ "id" := VStr "t1"; "sessionId" := VStr "s-1"; "message" := VRef 3%positive ]}.

Definition id_and_metadata : gmap string Val :=
  {[ "id" := VStr "t1"; "metadata" := VRef 4%positive ]}.

Definition task_of_instances : gmap string Val :=
  {[ "id" := VStr "t2"; "status" := VRef 4%positive; "history" := VRef 5%positive ]}.

Definition task_with_message_as_status : gmap string Val :=
  {[ "id" := VStr "t2"; "status" := VRef 3%positive; "history" := VRef 5%positive ]}.

Definition task_with_bad_history : gmap string Val :=
  {[ "id" := VStr "t3"; "history" := VRef 8%positive ]}.

Definition message_with_part_as_parts : gmap string Val :=
  {[ "role" := VStr "user"; "parts" := VRef 1%positive ]}.

(** A world to run examples in: nothing allocated, a clock that ticks, a
    random source that hands out zero bytes. *)
Definition world0 : World := mkWorld ∅ (λ n, Z.of_nat n) 0 (λ _, x00) 0.

(** A reader that reads nothing as a datetime, for examples that pass no
    timestamp. *)
Definition no_datetime_lax : Val → option datetime := λ _, None.

(** A reader that reads no text as an integer, for examples that pass no
    text left to it. *)
Definition no_int_lax : string → option Z := λ _, None.

(** The Task of the running example,
    [Task(id="t1", status=TaskStatus(state="submitted"),
          history=[Message(role="user", parts=[TextPart(text="hello")])])],
    as the objects it consists of, and as data. *)
Definition example_heap : gmap loc Obj :=
  {[ 1%positive := OInst TextPart {[ "type" := VStr "text"; "text" := VStr "hello" ]};
     2%positive := OList [VRef 1%positive];
     3%positive := OInst Message {[ "role" := VStr "user"; "parts" := VRef 2%positive ]};
     4%positive := OInst TaskStatus {[ "state" := VStr "submitted";
                                       "timestamp" := VDatetime 0%Z ]};
     5%positive := OList [VRef 3%positive];
     6%positive := OInst Task {[ "id" := VStr "t1"; "status" := VRef 4%positive;
                                 "history" := VRef 5%positive ]} ]}.

Definition example_task : Data.Task :=
  Data.Build_Task "t1" (Data.Build_TaskStatus "submitted" 0%Z)
    [Data.Build_Message "user" [Data.Build_TextPart "text" "hello"]].

(** The example Task after [history[0].parts[0].text = "bye"]. *)
Definition reassigned_task : Data.Task :=
  Data.Build_Task "t1" (Data.Build_TaskStatus "submitted" 0%Z)
    [Data.Build_Message "user" [Data.Build_TextPart "text" "bye"]].

(** The example objects, with a random source that hands out sixteen zero
    bytes and then bytes of all ones. *)
Definition example_world : World :=
  mkWorld example_heap (λ n, Z.of_nat n) 1
          (λ n, if (n <? 16)%nat then x00 else xff) 0.

(** A world whose wall clock is set back by one tick between any two
    readings. *)
Definition backward_world : World :=
  mkWorld ∅ (λ n, 100 - Z.of_nat n)%Z 0 (λ _, x00) 0.

(** [TaskSendParams(id="t1", message=m)] for the example Message [m]. *)
Definition example_send_kwargs : gmap string Val :=
  {[ "id" := VStr "t1"; "message" := VRef 3%positive ]}.

(** The example objects, with a random source stuck at zero. *)
Definition stuck_world : World :=
  mkWorld example_heap (λ n, Z.of_nat n) 1 (λ _, x00) 0.

Section Models.

(** What pydantic makes of a [bool], [int], [str] or [bytes] given where a
    [datetime] is expected (unix timestamps, ISO 8601 text).  No property
    of the module depends on it. *)
Variable datetime_lax : Val → option datetime.

Definition validate_datetime : Validator := λ v,
  mret match v with
       | VDatetime t => Ok (VDatetime t)
       | VNone | VRef _ => invalid
       | _ => of_option (VDatetime <$> datetime_lax v)
       end.

Definition is_datetime (v : Val) : bool :=
  match v with VDatetime _ => true | _ => false end.

Definition datetime_schema : Schema :=
  schema validate_datetime (serialize_if is_datetime).

(** What pydantic-core's [str_as_int] makes of a text that is neither a
    plain decimal numeral of at most 4300 characters nor evidently not a
    number: digit-group underscores, a zero fractional part, longer
    numerals, signs out of place, white space outside ASCII.  It changed
    between releases; no property of the module depends on it. *)
Variable int_lax : string → option Z.

(** Reading a [str] as an [int].  The text is trimmed; a plain numeral is
    read as its value; a text with a foreign character is not read. *)
Definition str_as_int (s : string) : option Z :=
  let t := trim s in
  match plain_numeral t with
  | Some n => if (String.length t <=? 4300)%nat then Some n else int_lax s
  | None => if has_foreign t then None else int_lax s
  end.

(** [int]: an [int] as it is; a [bool] as 0 or 1; a [str], or [bytes]
    decoded as UTF-8, as [str_as_int] reads it. *)
Definition validate_int : Validator := λ v,
  mret match v with
       | VInt n => Ok (VInt n)
       | VBool b => Ok (VInt (if b then 1 else 0))
       | VStr s => of_option (VInt <$> str_as_int s)
       | VBytes b => of_option (VInt <$> (bytes_decode b ≫= str_as_int))
       | _ => invalid
       end.

Definition int_schema : Schema := schema validate_int (serialize_if is_int).

(** ** The models (task.py 28-92) *)

Definition TextPart_fields : list FieldInfo :=
  [ field "type" (literal_schema ["text"]) (DefaultValue (VStr "text"));
    field "text" str_schema Required ].

Definition Message_fields : list FieldInfo :=
  [ field "role" (literal_schema ["user"; "agent"]) Required;
    field "parts" (list_schema (model_schema Part TextPart_fields)) Required ].

Definition TaskStatus_fields : list FieldInfo :=
  [ field "state" str_schema Required;
    field "timestamp" datetime_schema
          (DefaultFactory (t ← datetime_now; mret (VDatetime t))) ].

Definition Task_fields : list FieldInfo :=
  [ field "id" str_schema Required;
    field "status" (model_schema TaskStatus TaskStatus_fields) Required;
    field "history" (list_schema (model_schema Message Message_fields)) Required ].

Definition TaskIdParams_fields : list FieldInfo :=
  [ field "id" str_schema Required;
    field "metadata" (nullable_schema dict_str_any_schema) (DefaultValue VNone) ].

Definition TaskQueryParams_fields : list FieldInfo :=
  TaskIdParams_fields ++
  [ field "historyLength" (nullable_schema int_schema) (DefaultValue VNone) ].

Definition TaskSendParams_fields : list FieldInfo :=
  [ field "id" str_schema Required;
    field "sessionId" str_schema (DefaultFactory uuid4_hex);
    field "message" (model_schema Message Message_fields) Required;
    field "historyLength" (nullable_schema int_schema) (DefaultValue VNone);
    field "metadata" (nullable_schema dict_str_any_schema) (DefaultValue VNone) ].

Definition model_fields (c : Class) : list FieldInfo :=
  match c with
  | TextPart => TextPart_fields
  | Message => Message_fields
  | TaskStatus => TaskStatus_fields
  | Task => Task_fields
  | TaskIdParams => TaskIdParams_fields
  | TaskQueryParams => TaskQueryParams_fields
  | TaskSendParams => TaskSendParams_fields
  end.

(** The call of class [c] on keyword arguments [kw]. *)
Definition new (c : Class) (kw : gmap string Val) : M (Result loc) :=
  BaseModel_init c (model_fields c) kw.

(** [obj.model_dump()] for an instance [obj] of class [c]. *)
Definition model_dump (c : Class) (l : loc) : M (option Val) :=
  serialize_model c (model_fields c) (VRef l).


(** [c.model_validate(obj)]: an instance is returned as it is, a dict is
    used as keyword arguments. *)
Definition model_validate (c : Class) (v : Val) : M (Result Val) :=
  validate_model c (model_fields c) v.

(** The fields declared without a default. *)
Definition is_required (f : FieldInfo) : bool :=
  match default f with Required => true | _ => false end.

Definition required_fields (c : Class) : list string :=
  name <$> filter (λ f, is_required f = true) (model_fields c).

Definition field_names (c : Class) : list string := name <$> model_fields c.


(** The fields declared with a default value, and the value. *)
Definition default_values (c : Class) : list (string * Val) :=
  omap (λ f, match default f with
             | DefaultValue v => Some (name f, v)
             | _ => None
             end) (model_fields c).


(** The fields annotated with a model class, and that class:
    [Task.status] and [TaskSendParams.message]. *)
Definition model_typed_fields : list (Class * string * Class) :=
  [ (Task, "status", TaskStatus); (TaskSendParams, "message", Message) ].


(** Attribute assignment [obj.f = v], as the classes inherit it from
    BaseModel: none of them sets [model_config], so they are not frozen
    and an assignment is not validated.  A declared field takes the value
    as it is, in the object itself; any other name raises, as does
    assignment to a list or a dict. *)
Definition setattr (l : loc) (f : string) (v : Val) : M (option unit) := λ w,
  match heap w !! l with
  | Some (OInst c attrs) =>
    if bool_decide (f ∈ field_names c)
    then (Some (), set_heap (<[l := OInst c (<[f := v]> attrs)]> (heap w)) w)
    else (None, w)
  | _ => (None, w)
  end.


(** ** Readers *)

Example utf8_ok_examples :
  utf8_ok [0x68; 0xC3; 0xA9]%N = true ∧          (* "h", e acute *)
  utf8_ok [0xE2; 0x82; 0xAC]%N = true ∧          (* euro sign *)
  utf8_ok [0xF0; 0x9F; 0x98; 0x80]%N = true ∧    (* U+1F600 *)
  utf8_ok [0xC0; 0x80]%N = false ∧               (* overlong *)
  utf8_ok [0xED; 0xA0; 0x80]%N = false ∧         (* surrogate *)
  utf8_ok [0xF4; 0x90; 0x80; 0x80]%N = false ∧   (* above U+10FFFF *)
  utf8_ok [0xE2; 0x82]%N = false ∧               (* truncated *)
  utf8_ok [0x80]%N = false.                      (* stray continuation *)
Proof. repeat split; reflexivity. Qed.

Example str_as_int_examples :
  str_as_int "5" = Some 5%Z ∧ str_as_int "-12" = Some (-12)%Z ∧
  str_as_int "+7" = Some 7%Z ∧ str_as_int "007" = Some 7%Z ∧
  str_as_int " 5" = Some 5%Z ∧ str_as_int "42 " = Some 42%Z ∧
  str_as_int "five" = None ∧ str_as_int "1a" = None ∧ str_as_int "0x10" = None ∧
  str_as_int "5.0" = int_lax "5.0" ∧ str_as_int "1_000" = int_lax "1_000" ∧
  str_as_int "" = int_lax "".
Proof. repeat split; reflexivity. Qed.











(** ** uuid4().hex *)

Local Open Scope Z_scope.

Lemma int_from_bytes_bounds (bs : list byte) :
  0 ≤ int_from_bytes bs < 256 ^ Z.of_nat (length bs).
Proof.
  unfold int_from_bytes.
  cut (∀ acc, 0 ≤ acc →
         0 ≤ foldl (λ acc b, acc * 256 + Z.of_N (Byte.to_N b)) acc bs
           < (acc + 1) * 256 ^ Z.of_nat (length bs)).
  { intros H. specialize (H 0). lia. }
  induction bs as [|b bs IH]; intros acc Hacc; cbn [foldl length].
  - change (256 ^ Z.of_nat 0) with 1. lia.
  - pose proof (Byte.to_N_bounded b) as Hb.
    specialize (IH (acc * 256 + Z.of_N (Byte.to_N b))).
    rewrite Nat2Z.inj_succ, Z.pow_succ_r by lia.
    assert (0 < 256 ^ Z.of_nat (length bs)) by (apply Z.pow_pos_nonneg; lia).
    split; [apply IH; lia|].
    eapply Z.lt_le_trans; [apply IH; lia|]. nia.
Qed.

Lemma UUID_version4_split (i : Z) :
  UUID_version4 i = Z.lor (random_bits i) fixed_bits.
Proof.
  unfold UUID_version4, random_bits, fixed_bits.
  apply Z.bits_inj'. intros n Hn.
  rewrite ?Z.lor_spec, ?Z.land_spec, ?Z.lnot_spec, ?Z.lor_spec, ?Z.land_spec, ?Z.lnot_spec by lia.
  rewrite ?Z.bits_0.
  assert (H1 : Z.testbit (Z.shiftl 32768 48) n = true → Z.testbit (Z.shiftl 49152 48) n = true).
  { change (Z.shiftl 32768 48) with (Z.land (Z.shiftl 32768 48) (Z.shiftl 49152 48)) at 1.
    rewrite Z.land_spec. intros [_ H]%andb_true_iff. exact H. }
  assert (H2 : Z.testbit (Z.shiftl 4 76) n = true → Z.testbit (Z.shiftl 61440 64) n = true).
  { change (Z.shiftl 4 76) with (Z.land (Z.shiftl 4 76) (Z.shiftl 61440 64)) at 1.
    rewrite Z.land_spec. intros [_ H]%andb_true_iff. exact H. }
  assert (H3 : Z.testbit (Z.shiftl 49152 48) n = true → Z.testbit (Z.shiftl 61440 64) n = false).
  { intros H. destruct (Z.testbit (Z.shiftl 61440 64) n) eqn:E; [|done].
    assert (Z.testbit (Z.land (Z.shiftl 49152 48) (Z.shiftl 61440 64)) n = true)
      by (rewrite Z.land_spec, H, E; done).
    change (Z.land (Z.shiftl 49152 48) (Z.shiftl 61440 64)) with 0 in *.
    by rewrite Z.bits_0 in *. }
  destruct (Z.testbit i n), (Z.testbit (Z.shiftl 32768 48) n),
    (Z.testbit (Z.shiftl 49152 48) n), (Z.testbit (Z.shiftl 4 76) n),
    (Z.testbit (Z.shiftl 61440 64) n); simpl in *; try done;
    try (by specialize (H1 eq_refl)); try (by specialize (H2 eq_refl));
    try (by specialize (H3 eq_refl)).
Qed.

Lemma random_bits_fixed_disjoint (i : Z) :
  Z.land (random_bits i) fixed_bits = 0.
Proof.
  unfold random_bits. rewrite <- Z.land_assoc.
  replace (Z.land (Z.lnot _) fixed_bits) with 0 by (vm_compute; reflexivity).
  apply Z.land_0_r.
Qed.

Lemma UUID_version4_inj (a b : Z) :
  UUID_version4 a = UUID_version4 b ↔ random_bits a = random_bits b.
Proof.
  split.
  - rewrite !UUID_version4_split. intros H.
    assert (Hx : ∀ x, Z.land x fixed_bits = 0 →
                      x = Z.land (Z.lor x fixed_bits) (Z.lnot fixed_bits)).
    { intros x Hx. rewrite Z.land_lor_distr_l.
      rewrite Z.land_lnot_diag, Z.lor_0_r.
      apply Z.bits_inj'. intros n Hn.
      rewrite Z.land_spec, Z.lnot_spec by lia.
      assert (Hb : Z.testbit (Z.land x fixed_bits) n = false)
        by (rewrite Hx; apply Z.bits_0).
      rewrite Z.land_spec in Hb.
      destruct (Z.testbit x n), (Z.testbit fixed_bits n); done. }
    rewrite (Hx _ (random_bits_fixed_disjoint a)), (Hx _ (random_bits_fixed_disjoint b)).
    by rewrite H.
  - intros H. by rewrite !UUID_version4_split, H.
Qed.


Lemma nibble_bounds (x : Z) : 0 ≤ Z.land x 15 < 16.
Proof.
  change 15 with (Z.ones 4). rewrite Z.land_ones by lia.
  apply Z.mod_pos_bound. lia.
Qed.

Lemma hex_digit_N (d : Z) :
  0 ≤ d < 16 →
  N_of_ascii (hex_digit d) = Z.to_N (if d <? 10 then 48 + d else 87 + d).
Proof.
  intros Hd. unfold hex_digit.
  destruct (d <? 10); apply N_ascii_embedding; lia.
Qed.

Lemma hex_digit_inj (d e : Z) :
  0 ≤ d < 16 → 0 ≤ e < 16 → hex_digit d = hex_digit e → d = e.
Proof.
  intros Hd He H. apply (f_equal N_of_ascii) in H.
  rewrite !hex_digit_N in H by done.
  destruct (Z.ltb_spec d 10), (Z.ltb_spec e 10); lia.
Qed.

Lemma hex_digit_is_hex (d : Z) : 0 ≤ d < 16 → is_hex_char (hex_digit d) = true.
Proof.
  intros Hd.
  assert (H : d = 0 ∨ d = 1 ∨ d = 2 ∨ d = 3 ∨ d = 4 ∨ d = 5 ∨ d = 6 ∨ d = 7 ∨
              d = 8 ∨ d = 9 ∨ d = 10 ∨ d = 11 ∨ d = 12 ∨ d = 13 ∨ d = 14 ∨ d = 15) by lia.
  repeat destruct H as [->|H]; try subst d; by vm_compute.
Qed.

Lemma hex_digits_length (k : nat) (i : Z) : String.length (hex_digits k i) = k.
Proof. induction k; simpl; congruence. Qed.

Lemma hex_digits_are_hex (k : nat) (i : Z) :
  Forall (λ c, is_hex_char c = true) (list_ascii_of_string (hex_digits k i)).
Proof.
  induction k; cbn [hex_digits list_ascii_of_string]; constructor; [|done].
  apply hex_digit_is_hex, nibble_bounds.
Qed.

Lemma hex_digits_inj (k : nat) (a b : Z) :
  hex_digits k a = hex_digits k b →
  a mod 2 ^ (4 * Z.of_nat k) = b mod 2 ^ (4 * Z.of_nat k).
Proof.
  induction k as [|k IH]; cbn [hex_digits].
  - intros _. change (2 ^ (4 * Z.of_nat 0)) with 1. by rewrite !Z.mod_1_r.
  - intros H. injection H as Hd Hr. specialize (IH Hr).
    apply hex_digit_inj in Hd; try apply nibble_bounds.
    change 15 with (Z.ones 4) in Hd. rewrite !Z.land_ones, !Z.shiftr_div_pow2 in Hd by lia.
    replace (4 * Z.of_nat (S k)) with (4 * Z.of_nat k + 4) by lia.
    rewrite Z.pow_add_r by lia.
    assert (0 < 2 ^ (4 * Z.of_nat k)) by (apply Z.pow_pos_nonneg; lia).
    rewrite !Z.rem_mul_r by lia. change (2 ^ 4) with 16 in *. congruence.
Qed.

Lemma UUID_hex_inj (a b : Z) :
  0 ≤ a < 2 ^ 128 → 0 ≤ b < 2 ^ 128 → UUID_hex a = UUID_hex b → a = b.
Proof.
  intros Ha Hb H. apply hex_digits_inj in H.
  change (4 * Z.of_nat 32) with 128 in H.
  by rewrite !Z.mod_small in H.
Qed.

Lemma UUID_version4_bounds (i : Z) :
  0 ≤ i < 2 ^ 128 → 0 ≤ UUID_version4 i < 2 ^ 128.
Proof.
  intros Hi.
  assert (Hbits : ∀ x y, 0 ≤ x < 2 ^ 128 → 0 ≤ y < 2 ^ 128 → 0 ≤ Z.lor x y < 2 ^ 128).
  { intros x y Hx Hy. split; [apply Z.lor_nonneg; lia|].
    destruct (decide (Z.lor x y = 0)) as [->|Hne]; [lia|].
    apply Z.log2_lt_pow2; [pose proof (proj2 (Z.lor_nonneg x y)); lia|].
    rewrite Z.log2_lor by lia.
    destruct (decide (x = 0)) as [->|]; destruct (decide (y = 0)) as [->|];
      try (rewrite Z.lor_0_r in Hne || rewrite Z.lor_0_l in Hne); try done;
      apply Z.max_lub_lt; try (apply Z.log2_lt_pow2; lia); simpl; lia. }
  assert (Hand : ∀ x m, 0 ≤ x < 2 ^ 128 → 0 ≤ Z.land x m < 2 ^ 128).
  { intros x m Hx. split; [apply Z.land_nonneg; lia|].
    destruct (decide (Z.land x m = 0)) as [->|Hne]; [lia|].
    assert (0 ≤ Z.land x m) by (apply Z.land_nonneg; lia).
    apply Z.log2_lt_pow2; [lia|].
    assert (x ≠ 0) by (intros ->; by rewrite Z.land_0_l in Hne).
    eapply Z.le_lt_trans; [|apply Z.log2_lt_pow2; [|apply Hx]; lia].
    assert (Z.land x m = Z.land (Z.land x m) x) as ->
      by (rewrite <- Z.land_assoc, (Z.land_comm m x), Z.land_assoc, Z.land_diag; done).
    etrans; [apply Z.log2_land; lia|]. apply Z.le_min_r. }
  unfold UUID_version4.
  apply Hbits; [|by vm_compute]. apply Hand. apply Hbits; [|by vm_compute].
  by apply Hand.
Qed.

Local Close Scope Z_scope.

(** ** Running computations *)

Lemma run_bind {A B} (m : M A) (k : A → M B) (w : World) :
  (m ≫= k) w = k (m w).1 (m w).2.
Proof. unfold mbind, M_bind. by destruct (m w). Qed.

Lemma run_ret {A} (a : A) (w : World) : (mret a : M A) w = (a, w).
Proof. done. Qed.

Lemma alloc_fresh (o : Obj) (w : World) : heap w !! (alloc o w).1 = None.
Proof. simpl. apply not_elem_of_dom, is_fresh. Qed.

Lemma alloc_lookup (o : Obj) (w : World) :
  heap (alloc o w).2 !! (alloc o w).1 = Some o.
Proof. simpl. apply lookup_insert_eq. Qed.

Lemma validate_str_run (v : Val) (w : World) :
  validate_str v w = (of_option (VStr <$> str_reading v), w).
Proof. by destruct v. Qed.

Lemma validate_int_run (v : Val) (w : World) :
  validate_int v w =
  (match v with
   | VInt n => Ok (VInt n)
   | VBool b => Ok (VInt (if b then 1 else 0))
   | VStr s => of_option (VInt <$> str_as_int s)
   | VBytes b => of_option (VInt <$> (bytes_decode b ≫= str_as_int))
   | _ => invalid
   end, w).
Proof. done. Qed.

Lemma validate_literal_run (allowed : list string) (v : Val) (w : World) :
  validate_literal allowed v w = (if is_literal allowed v then Ok v else invalid, w).
Proof. done. Qed.

Lemma validate_datetime_run (v : Val) (w : World) :
  validate_datetime v w =
  (match v with
   | VDatetime t => Ok (VDatetime t)
   | VNone | VRef _ => invalid
   | _ => of_option (VDatetime <$> datetime_lax v)
   end, w).
Proof. done. Qed.

Lemma serialize_if_run (p : Val → bool) (v : Val) (w : World) :
  serialize_if p v w = (if p v then Some v else None, w).
Proof. done. Qed.

Ltac run :=
  repeat first
    [ rewrite run_bind
    | rewrite run_ret
    | rewrite validate_str_run
    | rewrite validate_int_run
    | rewrite validate_literal_run
    | rewrite validate_datetime_run
    | rewrite serialize_if_run
    | progress cbn [fst snd validate serialize name annotation default
                    validate_field validate_fields serialize_fields
                    validate_items serialize_items both at_loc of_option
                    invalid
                    fmap list_fmap option_fmap option_map
                    str_schema int_schema literal_schema nullable_schema
                    list_schema model_schema dict_str_any_schema
                    datetime_schema] ].

(** ** What a computation leaves in place *)

Global Instance extends_preorder : PreOrder extends.
Proof.
  split.
  - intros w. by split.
  - intros w1 w2 w3 [] []. split; [by etrans | congruence | congruence | lia | lia].
Qed.

Global Instance undisturbed_preorder : PreOrder undisturbed.
Proof.
  split.
  - intros w. by split.
  - intros w1 w2 w3 [] []. split; [by etrans | congruence | congruence].
Qed.

Lemma extends_alloc (o : Obj) (w : World) : extends w (alloc o w).2.
Proof.
  split; try done. cbn [alloc snd heap set_heap].
  apply insert_subseteq, not_elem_of_dom, is_fresh.
Qed.

Lemma undisturbed_alloc (o : Obj) (w : World) : undisturbed w (alloc o w).2.
Proof. split; [apply extends_alloc | done | done]. Qed.

Section Frame.

(** A relation between the world before and the world after that object
    creation respects. *)
Variable R : World → World → Prop.
Hypothesis R_preorder : PreOrder R.
Hypothesis R_alloc : ∀ o w, R w (alloc o w).2.

Lemma keeps_ret {A} (a : A) : keeps R (mret a : M A).
Proof. intros w. reflexivity. Qed.

Lemma keeps_bind {A B} (m : M A) (k : A → M B) :
  keeps R m → (∀ a, keeps R (k a)) → keeps R (m ≫= k).
Proof. intros Hm Hk w. rewrite run_bind. etrans; [apply Hm | apply Hk]. Qed.

Lemma keeps_alloc (o : Obj) : keeps R (alloc o).
Proof. intros w. apply R_alloc. Qed.

Lemma keeps_deref (l : loc) : keeps R (deref l).
Proof. intros w. reflexivity. Qed.

Lemma keeps_alloc_all (os : list Obj) : keeps R (alloc_all os).
Proof.
  induction os as [|o os IH]; cbn [alloc_all]; [apply keeps_ret|].
  apply keeps_bind; [apply keeps_alloc|]. intros l.
  apply keeps_bind; [exact IH|]. intros ls. apply keeps_ret.
Qed.

(** Splits a computation along its binds and case distinctions. *)
Ltac keeps_step :=
  match goal with
  | |- keeps R (mret _) => apply keeps_ret
  | |- keeps R (alloc _) => apply keeps_alloc
  | |- keeps R (alloc_all _) => apply keeps_alloc_all
  | |- keeps R (deref _) => apply keeps_deref
  | |- keeps R (_ ≫= _) => apply keeps_bind; [| intros ?]
  | |- keeps R (match ?x with _ => _ end) => destruct x
  | |- keeps R (if ?x then _ else _) => destruct x
  end.

Lemma str_schema_keeps : Schema_keeps R str_schema.
Proof. split; intros v; apply keeps_ret. Qed.

Lemma int_schema_keeps : Schema_keeps R int_schema.
Proof. split; intros v; apply keeps_ret. Qed.

Lemma literal_schema_keeps (allowed : list string) : Schema_keeps R (literal_schema allowed).
Proof. split; intros v; apply keeps_ret. Qed.

Lemma datetime_schema_keeps : Schema_keeps R datetime_schema.
Proof. split; intros v; apply keeps_ret. Qed.

Lemma nullable_schema_keeps (s : Schema) : Schema_keeps R s → Schema_keeps R (nullable_schema s).
Proof.
  intros [Hv Hs]. split; intros v; cbn [validate serialize nullable_schema];
    destruct v; auto using keeps_ret.
Qed.

Lemma dict_str_any_schema_keeps : Schema_keeps R dict_str_any_schema.
Proof.
  split; intros v;
    cbn [validate serialize dict_str_any_schema];
    unfold validate_dict_str_any, serialize_dict_str_any;
    repeat keeps_step.
Qed.

Lemma validate_items_keeps (item : Validator) (xs : list Val) (i : nat) :
  (∀ v, keeps R (item v)) → keeps R (validate_items item i xs).
Proof.
  intros Hitem. revert i.
  induction xs as [|x xs IH]; intros i; cbn [validate_items]; repeat keeps_step; auto.
Qed.

Lemma serialize_items_keeps (item : Serializer) (xs : list Val) :
  (∀ v, keeps R (item v)) → keeps R (serialize_items item xs).
Proof.
  intros Hitem.
  induction xs as [|x xs IH]; cbn [serialize_items]; repeat keeps_step; auto.
Qed.

Lemma list_schema_keeps (s : Schema) : Schema_keeps R s → Schema_keeps R (list_schema s).
Proof.
  intros [Hv Hs]. split; intros v; cbn [validate serialize list_schema];
    unfold validate_list, serialize_list; repeat keeps_step;
    auto using validate_items_keeps, serialize_items_keeps.
Qed.

Lemma validate_field_keeps (kw : gmap string Val) (f : FieldInfo) :
  FieldInfo_keeps R f → keeps R (validate_field kw f).
Proof.
  intros [[Hv _] Hd]. unfold validate_field.
  destruct (kw !! name f); [|destruct (default f)]; repeat keeps_step; auto.
Qed.

Lemma validate_fields_keeps (kw : gmap string Val) (fs : list FieldInfo) :
  Forall (FieldInfo_keeps R) fs → keeps R (validate_fields kw fs).
Proof.
  induction 1; cbn [validate_fields]; repeat keeps_step;
    auto using validate_field_keeps.
Qed.

Lemma serialize_fields_keeps (attrs : gmap string Val) (fs : list FieldInfo) :
  Forall (FieldInfo_keeps R) fs → keeps R (serialize_fields attrs fs).
Proof.
  induction 1 as [|f fs [[_ Hs] _] _ IH]; cbn [serialize_fields]; repeat keeps_step; auto.
Qed.

Lemma BaseModel_init_keeps (c : Class) (fs : list FieldInfo) (kw : gmap string Val) :
  Forall (FieldInfo_keeps R) fs → keeps R (BaseModel_init c fs kw).
Proof.
  intros Hfs. unfold BaseModel_init. repeat keeps_step.
  by apply validate_fields_keeps.
Qed.

Lemma model_schema_keeps (c : Class) (fs : list FieldInfo) :
  Forall (FieldInfo_keeps R) fs → Schema_keeps R (model_schema c fs).
Proof.
  intros Hfs. split; intros v; cbn [validate serialize model_schema];
    unfold validate_model, serialize_model; repeat keeps_step;
    auto using BaseModel_init_keeps, serialize_fields_keeps.
Qed.

Lemma field_keeps (n : string) (s : Schema) (d : Default) :
  Schema_keeps R s →
  match d with DefaultFactory g => keeps R g | _ => True end →
  FieldInfo_keeps R (field n s d).
Proof. by split. Qed.

#[local] Hint Resolve str_schema_keeps int_schema_keeps literal_schema_keeps
  datetime_schema_keeps nullable_schema_keeps dict_str_any_schema_keeps
  list_schema_keeps model_schema_keeps : core.

Ltac fields_keep :=
  repeat first [ apply Forall_nil_2 | apply Forall_cons_2 | apply Forall_app_2 ];
  try (apply field_keeps; [eauto 8 | try exact I; eauto]).

Lemma TextPart_fields_keep : Forall (FieldInfo_keeps R) TextPart_fields.
Proof. unfold TextPart_fields. fields_keep. Qed.

Lemma Message_fields_keep : Forall (FieldInfo_keeps R) Message_fields.
Proof. pose proof TextPart_fields_keep. unfold Message_fields. fields_keep. Qed.

(** The tables of all seven classes, once the two default factories are
    known to respect the relation. *)
Lemma model_fields_keep (c : Class) :
  keeps R datetime_now → keeps R uuid4_hex → Forall (FieldInfo_keeps R) (model_fields c).
Proof.
  intros Hnow Huuid.
  pose proof TextPart_fields_keep. pose proof Message_fields_keep.
  assert (Forall (FieldInfo_keeps R) TaskStatus_fields).
  { unfold TaskStatus_fields. fields_keep. }
  destruct c; try assumption;
    unfold model_fields, Task_fields, TaskQueryParams_fields,
      TaskIdParams_fields, TaskSendParams_fields;
    fields_keep.
Qed.

End Frame.

Lemma grows_datetime_now : grows datetime_now.
Proof. intros w. split; simpl; try done; lia. Qed.

Lemma grows_uuid4_hex : grows uuid4_hex.
Proof.
  apply (keeps_bind extends _); [| intros; apply (keeps_ret extends _)].
  intros w. split; simpl; try done; lia.
Qed.

Lemma new_grows (c : Class) (kw : gmap string Val) : grows (new c kw).
Proof.
  apply (BaseModel_init_keeps extends _ extends_alloc).
  apply (model_fields_keep extends _ extends_alloc);
    auto using grows_datetime_now, grows_uuid4_hex.
Qed.

Lemma model_dump_grows (c : Class) (l : loc) : grows (model_dump c l).
Proof.
  destruct (model_schema_keeps extends _ extends_alloc c (model_fields c)) as [_ H].
  - apply (model_fields_keep extends _ extends_alloc);
      auto using grows_datetime_now, grows_uuid4_hex.
  - exact (H (VRef l)).
Qed.

(** ** Fields *)

Lemma validate_field_passed (kw : gmap string Val) (f : FieldInfo) (v : Val) (w : World) :
  kw !! name f = Some v →
  validate_field kw f w =
  (at_loc (Attr (name f)) (validate (annotation f) v w).1,
   (validate (annotation f) v w).2).
Proof. intros H. unfold validate_field. rewrite H. by run. Qed.

Lemma validate_field_omitted (kw : gmap string Val) (f : FieldInfo) (w : World) :
  kw !! name f = None →
  validate_field kw f w =
  match default f with
  | Required => (ValidationError [[Attr (name f)]], w)
  | DefaultValue v => (Ok v, w)
  | DefaultFactory g => (Ok (g w).1, (g w).2)
  end.
Proof. intros H. unfold validate_field. rewrite H. destruct (default f); by run. Qed.

Lemma validate_fields_cons (kw : gmap string Val) (f : FieldInfo) (fs : list FieldInfo) (w : World) :
  validate_fields kw (f :: fs) w =
  (both (λ v attrs, <[name f := v]> attrs)
        (validate_field kw f w).1
        (validate_fields kw fs (validate_field kw f w).2).1,
   (validate_fields kw fs (validate_field kw f w).2).2).
Proof. cbn [validate_fields]. by rewrite !run_bind, run_ret. Qed.

Lemma fails_at_both_l {A B C} (f : A → B → C) r1 r2 loc :
  fails_at r1 loc → fails_at (both f r1 r2) loc.
Proof.
  intros (es & -> & Hin). destruct r2; simpl; eexists; split; eauto.
  apply elem_of_app; auto.
Qed.

Lemma fails_at_both_r {A B C} (f : A → B → C) r1 r2 loc :
  fails_at r2 loc → fails_at (both f r1 r2) loc.
Proof.
  intros (es & -> & Hin). destruct r1; simpl; eexists; split; eauto.
  apply elem_of_app; auto.
Qed.

Lemma fails_at_loc {A} (r : Result A) (i : LocItem) (loc : ErrorLoc) :
  fails_at r loc → fails_at (at_loc i r) (i :: loc).
Proof.
  intros (es & -> & Hin). simpl. eexists; split; eauto.
  apply list_elem_of_fmap. eauto.
Qed.

(** One field that fails, whatever the world it is validated in, fails the
    whole construction: no instance is returned. *)
Lemma validate_fields_fails (kw : gmap string Val) (fs : list FieldInfo) (f : FieldInfo) loc :
  f ∈ fs →
  (∀ w, fails_at (validate_field kw f w).1 loc) →
  ∀ w, fails_at (validate_fields kw fs w).1 loc.
Proof.
  intros Hin Hf. induction Hin as [f fs | f g fs Hin IH]; intros w; run.
  - apply fails_at_both_l, Hf.
  - by apply fails_at_both_r, IH.
Qed.

Lemma BaseModel_init_fails (c : Class) (kw : gmap string Val) (fs : list FieldInfo) loc w :
  fails_at (validate_fields kw fs w).1 loc →
  fails_at (BaseModel_init c fs kw w).1 loc.
Proof.
  intros (es & H & Hin). unfold BaseModel_init. run. rewrite H. run.
  by exists es.
Qed.

Lemma new_fails (c : Class) (kw : gmap string Val) (f : FieldInfo) loc :
  f ∈ model_fields c →
  (∀ w, fails_at (validate_field kw f w).1 loc) →
  ∀ w, fails_at (new c kw w).1 loc.
Proof.
  intros Hin Hf w. apply BaseModel_init_fails.
  by apply validate_fields_fails with f.
Qed.

Lemma BaseModel_init_ok (c : Class) (fs : list FieldInfo) (kw attrs : gmap string Val) w w1 :
  validate_fields kw fs w = (Ok attrs, w1) →
  ∃ l, BaseModel_init c fs kw w = (Ok l, set_heap (<[l := OInst c attrs]> (heap w1)) w1) ∧
       heap w1 !! l = None.
Proof.
  intros H. unfold BaseModel_init. run. rewrite H. run.
  exists (alloc (OInst c attrs) w1).1. split; [done | apply alloc_fresh].
Qed.

Lemma getattr_insert (h : gmap loc Obj) (l : loc) (c : Class) (attrs : gmap string Val) f :
  getattr (<[l := OInst c attrs]> h) l f = attrs !! f.
Proof. unfold getattr. by rewrite lookup_insert_eq. Qed.

(** ** TaskState *)

(** C6: TaskState is closed and its members carry exactly the seven string
    values submitted, working, input-required, completed, canceled, failed
    and unknown: the members listed are all the members, their values are
    these seven literals in declaration order, no two members share a
    value, and a string names a member exactly when it is one of the
    seven. *)
Theorem TaskState_values_exact :
  (∀ m : TaskState, m ∈ TaskState_members) ∧
  TaskState_value <$> TaskState_members =
    ["submitted"; "working"; "input-required"; "completed"; "canceled";
     "failed"; "unknown"] ∧
  NoDup (TaskState_value <$> TaskState_members) ∧
  (∀ s : string,
     (∃ m, TaskState_value m = s) ↔
     s ∈ ["submitted"; "working"; "input-required"; "completed"; "canceled";
          "failed"; "unknown"]) ∧
  (∀ s m, TaskState_of_value s = Some m ↔ TaskState_value m = s).
Proof.
  split; [|split; [|split; [|split]]].
  - intros []; unfold TaskState_members; set_solver.
  - reflexivity.
  - apply NoDup_ListNoDup. simpl.
    repeat (constructor; [simpl; intros H; repeat destruct H as [H|H]; try discriminate H; done|]).
    constructor.
  - intros s. split.
    + intros [[] <-]; simpl; set_solver.
    + intros H. repeat (apply elem_of_cons in H as [->|H]); [..|by apply elem_of_nil in H].
      * by exists SUBMITTED.
      * by exists WORKING.
      * by exists INPUT_REQUIRED.
      * by exists COMPLETED.
      * by exists CANCELED.
      * by exists FAILED.
      * by exists UNKNOWN.
  - intros s m. split.
    + intros H. apply find_some in H as [_ H]. by apply bool_decide_eq_true in H.
    + intros <-. by destruct m.
Qed.

(** ** TextPart *)

(** C5: for every string [s], [TextPart(text=s)] is constructed, as a new
    object that holds [type = "text"] and [text = s]. *)
Theorem TextPart_any_text (s : string) (w : World) :
  ∃ l w',
    new TextPart {[ "text" := VStr s ]} w = (Ok l, w') ∧
    heap w !! l = None ∧
    heap w' = <[l := OInst TextPart {[ "type" := VStr "text"; "text" := VStr s ]}]> (heap w) ∧
    getattr (heap w') l "type" = Some (VStr "text") ∧
    getattr (heap w') l "text" = Some (VStr s).
Proof.
  destruct (BaseModel_init_ok TextPart TextPart_fields {[ "text" := VStr s ]}
              {[ "type" := VStr "text"; "text" := VStr s ]} w w) as (l & Hnew & Hl).
  { unfold TextPart_fields. run.
    rewrite validate_field_omitted by (cbn [name]; by simplify_map_eq). run.
    erewrite validate_field_passed by (cbn [name]; by simplify_map_eq). run.
    done. }
  exists l, (set_heap (<[l := OInst TextPart {[ "type" := VStr "text"; "text" := VStr s ]}]> (heap w)) w).
  split; [exact Hnew|]. split; [exact Hl|]. split; [done|].
  cbn [heap set_heap]. rewrite !getattr_insert. by simplify_map_eq.
Qed.


(** C10: a [type] argument other than the string "text" makes the
    construction of a TextPart raise ValidationError, with an error at
    [type]; nothing is allocated. *)
Theorem TextPart_type_must_be_text (kw : gmap string Val) (v : Val) (w : World) :
  kw !! "type" = Some v →
  v ≠ VStr "text" →
  ∃ es, new TextPart kw w = (ValidationError es, w) ∧ [Attr "type"] ∈ es.
Proof.
  intros Hty Hv.
  assert (Hlit : is_literal ["text"] v = false).
  { destruct v; try done. simpl. apply bool_decide_eq_false.
    intros ->%list_elem_of_singleton. done. }
  unfold new, BaseModel_init, model_fields, TextPart_fields. run.
  erewrite validate_field_passed by (cbn [name]; exact Hty). run.
  rewrite Hlit. run.
  destruct (kw !! "text") as [x|] eqn:Htx.
  - erewrite validate_field_passed by (cbn [name]; exact Htx). run.
    destruct (str_reading x); run;
      eexists; (split; [reflexivity|]); set_solver.
  - rewrite validate_field_omitted by (cbn [name]; exact Htx). run.
    eexists; (split; [reflexivity|]); set_solver.
Qed.

(** ** No object is changed *)

(** C8, as the code has it: the records are not immutable.  The
    constructors, [model_validate] and [model_dump] of the seven classes
    leave every constructed record as it was, they only create objects;
    but the classes are not frozen, so an assignment to a declared field
    of a constructed record, of any class, replaces the value in place
    and without validation: the record keeps its identity, its other
    fields and every other object are as before, nothing is created, and
    whoever holds a reference to the record finds the new value there. *)
Theorem records_mutable_by_assignment (c : Class) (w : World) (l : loc)
    (attrs : gmap string Val) (f : string) (v : Val) :
  heap w !! l = Some (OInst c attrs) →
  f ∈ field_names c →
  (∀ c' kw, heap (new c' kw w).2 !! l = Some (OInst c attrs)) ∧
  (∀ c' x, heap (model_validate c' x w).2 !! l = Some (OInst c attrs)) ∧
  (∀ c' l0, heap (model_dump c' l0 w).2 !! l = Some (OInst c attrs)) ∧
  ∃ w', setattr l f v w = (Some (), w') ∧
        heap w' !! l = Some (OInst c (<[f := v]> attrs)) ∧
        getattr (heap w') l f = Some v ∧
        (∀ g, g ≠ f → getattr (heap w') l g = getattr (heap w) l g) ∧
        (∀ l', l' ≠ l → heap w' !! l' = heap w !! l') ∧
        (∀ l' g, getattr (heap w) l' g = Some (VRef l) → g ≠ f ∨ l' ≠ l →
                 getattr (heap w') l' g = Some (VRef l)) ∧
        dom (heap w') = dom (heap w) ∧
        clock_reads w' = clock_reads w ∧ entropy_drawn w' = entropy_drawn w.
Proof.
  intros Hl Hf.
  assert (Hfs : ∀ c', Forall (FieldInfo_keeps extends) (model_fields c')).
  { intros c'. apply (model_fields_keep extends _ extends_alloc);
      auto using grows_datetime_now, grows_uuid4_hex. }
  split; [|split; [|split]].
  - intros c' kw. eapply lookup_weaken; [exact Hl | apply (new_grows c' kw w)].
  - intros c' x.
    destruct (model_schema_keeps extends _ extends_alloc c' (model_fields c') (Hfs c'))
      as [H _].
    eapply lookup_weaken; [exact Hl | apply (H x w)].
  - intros c' l0. eapply lookup_weaken; [exact Hl | apply (model_dump_grows c' l0 w)].
  - eexists. unfold setattr. rewrite Hl, (bool_decide_eq_true_2 _ Hf).
    split; [reflexivity|]. cbn [heap set_heap].
    split; [apply lookup_insert_eq|].
    split; [by rewrite getattr_insert, lookup_insert_eq|].
    split.
    { intros g Hg. rewrite getattr_insert, lookup_insert_ne by done.
      unfold getattr. by rewrite Hl. }
    split; [intros l' Hl'; by rewrite lookup_insert_ne|].
    split.
    { intros l' g Hget Hne. destruct (decide (l' = l)) as [->|Hl'].
      - destruct Hne as [Hg|]; [|done].
        rewrite getattr_insert, lookup_insert_ne by done.
        unfold getattr in Hget. by rewrite Hl in Hget.
      - unfold getattr in *. by rewrite lookup_insert_ne. }
    split; [|done].
    rewrite dom_insert_L. apply subseteq_union_1_L, singleton_subseteq_l.
    by apply elem_of_dom_2 in Hl.
Qed.

(** ** TaskStatus *)

Lemma TaskStatus_fields_run (v : Val) (w : World) :
  validate_fields {[ "state" := v ]} TaskStatus_fields w =
  (both (λ x attrs, <["state" := x]> attrs)
        (at_loc (Attr "state") (of_option (VStr <$> str_reading v)))
        (Ok {[ "timestamp" := VDatetime (clock w (clock_reads w)) ]}),
   (datetime_now w).2).
Proof.
  unfold TaskStatus_fields. run.
  erewrite validate_field_passed by (cbn [name]; by simplify_map_eq). run.
  rewrite validate_field_omitted by (cbn [name]; by simplify_map_eq). run.
  done.
Qed.

(** With a [state] that reads as the string [s] and no timestamp, the
    clock is read once and the instance is created. *)
Lemma TaskStatus_init_str (v : Val) (s : string) (w : World) :
  str_reading v = Some s →
  ∃ l, new TaskStatus {[ "state" := v ]} w =
         (Ok l,
          set_heap (<[l := OInst TaskStatus
                             {[ "state" := VStr s;
                                "timestamp" := VDatetime (clock w (clock_reads w)) ]}]>
                      (heap w))
                   (datetime_now w).2) ∧
       heap w !! l = None.
Proof.
  intros Hs. pose proof (TaskStatus_fields_run v w) as Hrun. rewrite Hs in Hrun.
  cbn [both at_loc of_option fmap option_fmap option_map] in Hrun.
  destruct (BaseModel_init_ok TaskStatus _ _ _ _ _ Hrun) as (l & Hnew & Hl).
  by exists l.
Qed.

(** C2, as the code has it: [TaskStatus(state=v)] is constructed for
    every string [v], whether or not it is a TaskState value, and also for
    bytes that decode as UTF-8, which are stored decoded; every other value
    of [state] raises ValidationError.  The omitted timestamp is the
    reading [datetime.now()] returns during the construction. *)
Theorem TaskStatus_state_and_timestamp (v : Val) (w : World) :
  let built s :=
    ∃ l w', new TaskStatus {[ "state" := v ]} w = (Ok l, w') ∧
            heap w !! l = None ∧
            heap w' = <[l := OInst TaskStatus
                               {[ "state" := VStr s;
                                  "timestamp" := VDatetime (clock w (clock_reads w)) ]}]>
                        (heap w) ∧
            clock_reads w' = S (clock_reads w) in
  let rejected := fails_at (new TaskStatus {[ "state" := v ]} w).1 [Attr "state"] in
  match v with
  | VStr s => built s
  | VBytes b => match bytes_decode b with Some s => built s | None => rejected end
  | _ => rejected
  end.
Proof.
  intros built rejected.
  assert (Hok : ∀ s, str_reading v = Some s → built s).
  { intros s Hs. destruct (TaskStatus_init_str v s w Hs) as (l & Hnew & Hl).
    exists l. eexists. split; [exact Hnew|]. done. }
  assert (Hko : str_reading v = None → rejected).
  { intros Hs. pose proof (TaskStatus_fields_run v w) as Hrun. rewrite Hs in Hrun.
    cbn [both at_loc of_option fmap option_fmap option_map invalid] in Hrun.
    apply BaseModel_init_fails. cbn [model_fields]. rewrite Hrun.
    eexists. split; [done|]. apply list_elem_of_here. }
  destruct v; try (by apply Hko); try (by apply Hok).
  cbn [str_reading] in *. destruct (bytes_decode b); auto.
Qed.

(** C9, as the code has it: the default timestamp of a TaskStatus is the
    reading of the wall clock taken inside its own construction, the first
    reading after the construction starts and the only one before it
    returns.  A later construction takes a later reading; its timestamp is
    not smaller provided the readings of the clock never decrease, which
    [datetime.now] does not promise. *)
Theorem TaskStatus_default_timestamps (s1 s2 : string) (w : World) :
  ∃ l1 w1,
    new TaskStatus {[ "state" := VStr s1 ]} w = (Ok l1, w1) ∧
    getattr (heap w1) l1 "timestamp" = Some (VDatetime (clock w (clock_reads w))) ∧
    clock_reads w1 = S (clock_reads w) ∧
    ∀ w', extends w1 w' →
      ∃ l2 w2,
        new TaskStatus {[ "state" := VStr s2 ]} w' = (Ok l2, w2) ∧
        getattr (heap w2) l2 "timestamp" = Some (VDatetime (clock w (clock_reads w'))) ∧
        (clock_reads w < clock_reads w')%nat ∧
        clock_reads w2 = S (clock_reads w') ∧
        getattr (heap w2) l1 "timestamp" = Some (VDatetime (clock w (clock_reads w))) ∧
        ((∀ i j, (i ≤ j)%nat → (clock w i ≤ clock w j)%Z) →
         (clock w (clock_reads w) ≤ clock w (clock_reads w'))%Z).
Proof.
  destruct (TaskStatus_init_str (VStr s1) s1 w eq_refl) as (l1 & Hnew1 & Hl1).
  eexists l1, _. split; [exact Hnew1|].
  cbn [heap set_heap datetime_now snd clock_reads].
  split; [rewrite getattr_insert; by simplify_map_eq|]. split; [done|].
  intros w' Hw'.
  destruct (TaskStatus_init_str (VStr s2) s2 w' eq_refl) as (l2 & Hnew2 & Hl2).
  eexists l2, _. split; [exact Hnew2|].
  cbn [heap set_heap datetime_now snd clock_reads].
  destruct Hw' as [Hheap Hclock _ Hreads _].
  cbn [heap set_heap datetime_now snd clock clock_reads] in Hheap, Hclock, Hreads.
  split; [rewrite getattr_insert, Hclock; by simplify_map_eq|].
  split; [lia|]. split; [done|]. split.
  - assert (Hin : heap w' !! l1 = Some (OInst TaskStatus
                    {[ "state" := VStr s1;
                       "timestamp" := VDatetime (clock w (clock_reads w)) ]})).
    { eapply lookup_weaken; [|exact Hheap]. apply lookup_insert_eq. }
    unfold getattr. rewrite lookup_insert_ne by (intros ->; congruence).
    rewrite Hin. by simplify_map_eq.
  - intros Hmono. apply Hmono. lia.
Qed.

(** ** TaskQueryParams *)

Lemma nullable_int_pure (v : Val) (w : World) :
  (validate (nullable_schema int_schema) v w).2 = w.
Proof. destruct v; cbn [validate nullable_schema int_schema]; by run. Qed.



(** ** TaskSendParams *)

Lemma both_Ok {A B C} (f : A → B → C) (r1 : Result A) (r2 : Result B) (c : C) :
  both f r1 r2 = Ok c → ∃ a b, r1 = Ok a ∧ r2 = Ok b ∧ c = f a b.
Proof. destruct r1, r2; simpl; intros H; try done. injection H as <-. eauto. Qed.

Lemma uuid4_hex_run (w : World) :
  uuid4_hex w =
  (VStr (UUID_hex (UUID_version4 (int_from_bytes
           ((λ i, entropy w (entropy_drawn w + i)%nat) <$> seq 0 16)))),
   mkWorld (heap w) (clock w) (clock_reads w) (entropy w) (entropy_drawn w + 16)).
Proof. done. Qed.

Lemma uuid4_hex_format (i : Z) :
  String.length (UUID_hex i) = 32%nat ∧
  Forall (λ c, is_hex_char c = true) (list_ascii_of_string (UUID_hex i)).
Proof. split; [apply hex_digits_length | apply hex_digits_are_hex]. Qed.

(** The fields after [sessionId] consult neither the clock nor the random
    source. *)
Lemma TaskSendParams_rest_undisturbed (kw : gmap string Val) :
  keeps undisturbed
    (validate_fields kw
       [ field "message" (model_schema Message Message_fields) Required;
         field "historyLength" (nullable_schema int_schema) (DefaultValue VNone);
         field "metadata" (nullable_schema dict_str_any_schema) (DefaultValue VNone) ]).
Proof.
  pose proof (Message_fields_keep undisturbed _ undisturbed_alloc) as HM.
  apply validate_fields_keeps; [apply _|].
  repeat first [ apply Forall_nil_2 | apply Forall_cons_2 ];
    (apply field_keeps; [|exact I]);
    repeat first
      [ exact HM | apply undisturbed_alloc | apply _
      | apply model_schema_keeps | apply nullable_schema_keeps
      | apply int_schema_keeps | apply dict_str_any_schema_keeps ].
Qed.

Lemma TaskSendParams_sessionId_drawn (kw : gmap string Val) (w w' : World) (l : loc) :
  kw !! "sessionId" = None →
  new TaskSendParams kw w = (Ok l, w') →
  getattr (heap w') l "sessionId" = Some (uuid4_hex w).1 ∧
  entropy w' = entropy w ∧
  entropy_drawn w' = (entropy_drawn w + 16)%nat.
Proof.
  intros Hsid Hnew.
  unfold new, BaseModel_init, model_fields, TaskSendParams_fields in Hnew.
  rewrite run_bind, 2!validate_fields_cons in Hnew. cbn [fst snd name] in Hnew.
  rewrite (validate_field_omitted kw (field "sessionId" _ _)) in Hnew by exact Hsid.
  cbn [default fst snd] in Hnew.
  set (wa := (validate_field kw (field "id" str_schema Required) w).2) in *.
  assert (Hwa : wa = w).
  { unfold wa, validate_field. cbn [name annotation default].
    destruct (kw !! "id"); by run. }
  set (rid := (validate_field kw (field "id" str_schema Required) w).1) in *.
  rewrite Hwa in Hnew. clear wa Hwa.
  set (wb := (uuid4_hex w).2) in *.
  pose proof (TaskSendParams_rest_undisturbed kw wb) as Hrest.
  set (rest := validate_fields kw _ wb) in *.
  destruct rest as [rr wc]. cbn [fst snd] in *.
  destruct (both _ rid _) as [attrs|es] eqn:Hboth; [|by rewrite run_ret in Hnew].
  apply both_Ok in Hboth as (x & m' & _ & Hm' & ->).
  apply both_Ok in Hm' as (sid & m & Hsid' & _ & ->).
  injection Hsid' as <-.
  rewrite run_bind, run_ret in Hnew. injection Hnew as <- <-.
  cbn [alloc fst snd heap set_heap entropy entropy_drawn].
  rewrite getattr_insert. split; [by simplify_map_eq|].
  destruct Hrest as [[_ _ He _ _] _ Hd]. rewrite He, Hd. by unfold wb.
Qed.

(** C4, as the code has it: a TaskSendParams constructed without
    [sessionId] holds the 32 lower-case hexadecimal digits of a version-4
    UUID made from the next 16 bytes of the random source; the next such
    construction uses the 16 bytes after those, and the two identifiers
    differ exactly when the two draws differ in one of the 122 bits the
    version and variant marks leave free. *)
Theorem TaskSendParams_default_sessionId
    (kw1 kw2 : gmap string Val) (w w1 w2 : World) (l1 l2 : loc) :
  kw1 !! "sessionId" = None →
  kw2 !! "sessionId" = None →
  new TaskSendParams kw1 w = (Ok l1, w1) →
  new TaskSendParams kw2 w1 = (Ok l2, w2) →
  let draw k :=
    int_from_bytes ((λ i, entropy w (entropy_drawn w + k + i)%nat) <$> seq 0 16) in
  ∃ s1 s2,
    getattr (heap w1) l1 "sessionId" = Some (VStr s1) ∧
    getattr (heap w2) l2 "sessionId" = Some (VStr s2) ∧
    s1 = UUID_hex (UUID_version4 (draw 0%nat)) ∧
    s2 = UUID_hex (UUID_version4 (draw 16%nat)) ∧
    String.length s1 = 32%nat ∧ String.length s2 = 32%nat ∧
    Forall (λ c, is_hex_char c = true) (list_ascii_of_string s1) ∧
    Forall (λ c, is_hex_char c = true) (list_ascii_of_string s2) ∧
    (s1 = s2 ↔ random_bits (draw 0%nat) = random_bits (draw 16%nat)).
Proof.
  intros H1 H2 Hn1 Hn2 draw.
  destruct (TaskSendParams_sessionId_drawn kw1 w w1 l1 H1 Hn1) as (Hs1 & He1 & Hd1).
  destruct (TaskSendParams_sessionId_drawn kw2 w1 w2 l2 H2 Hn2) as (Hs2 & _ & _).
  rewrite uuid4_hex_run in Hs1, Hs2. cbn [fst] in Hs1, Hs2.
  rewrite He1, Hd1 in Hs2.
  assert (Hdraw0 : (λ i, entropy w (entropy_drawn w + i)%nat) <$> seq 0 16 =
                   (λ i, entropy w (entropy_drawn w + 0 + i)%nat) <$> seq 0 16).
  { apply list_fmap_ext. intros _ i _. f_equal. lia. }
  rewrite Hdraw0 in Hs1. fold (draw 0%nat) in Hs1. fold (draw 16%nat) in Hs2.
  assert (Hb : ∀ k, (0 ≤ draw k < 2 ^ 128)%Z).
  { intros k. unfold draw.
    pose proof (int_from_bytes_bounds
      ((λ i, entropy w (entropy_drawn w + k + i)%nat) <$> seq 0 16)) as Hb.
    rewrite length_fmap, length_seq in Hb. exact Hb. }
  eexists _, _. split; [exact Hs1|]. split; [exact Hs2|].
  split; [done|]. split; [done|].
  split; [apply uuid4_hex_format|]. split; [apply uuid4_hex_format|].
  split; [apply uuid4_hex_format|]. split; [apply uuid4_hex_format|].
  rewrite <- UUID_version4_inj. split; [|by intros ->].
  apply UUID_hex_inj; apply UUID_version4_bounds, Hb.
Qed.

(** ** Lists of items *)

Lemma undisturbed_heap (w w' : World) : undisturbed w w' → heap w ⊆ heap w'.
Proof. intros [[] _ _]. done. Qed.

(** Items that stand in relation [P] to some data are validated into
    items that stand in relation [Q] to the same data, when the item
    validator does so for one item and both relations survive the
    creation of further objects. *)
Lemma validate_items_ok {A} (item : Validator)
    (P Q : gmap loc Obj → Val → A → Prop) :
  (∀ h h' x a, h ⊆ h' → P h x a → P h' x a) →
  (∀ h h' y a, h ⊆ h' → Q h y a → Q h' y a) →
  (∀ w x a, P (heap w) x a →
     ∃ y w', item x w = (Ok y, w') ∧ undisturbed w w' ∧ Q (heap w') y a) →
  ∀ xs ds i w, Forall2 (P (heap w)) xs ds →
    ∃ ys w', validate_items item i xs w = (Ok ys, w') ∧ undisturbed w w' ∧
             Forall2 (Q (heap w')) ys ds.
Proof.
  intros HP HQ Hitem xs.
  induction xs as [|x xs IH]; intros ds i w Hxs;
    inversion Hxs as [|? a ? ds' Hx Hxs']; subst.
  - exists [], w. by repeat split.
  - destruct (Hitem w x a Hx) as (y & w1 & Hy & Hw1 & Hq).
    destruct (IH ds' (S i) w1) as (ys & w2 & Hys & Hw2 & Hqs).
    { eapply Forall2_impl; [exact Hxs'|]. intros ??. by apply HP, undisturbed_heap. }
    exists (y :: ys), w2. cbn [validate_items]. run. rewrite Hy. cbn [fst snd].
    rewrite Hys. cbn [fst snd at_loc both]. split; [done|].
    split; [by etrans|]. constructor; [|done].
    eapply HQ; [|exact Hq]. by apply undisturbed_heap.
Qed.

Lemma serialize_items_ok {A} (item : Serializer)
    (P Q : gmap loc Obj → Val → A → Prop) :
  (∀ h h' x a, h ⊆ h' → P h x a → P h' x a) →
  (∀ h h' y a, h ⊆ h' → Q h y a → Q h' y a) →
  (∀ w x a, P (heap w) x a →
     ∃ y w', item x w = (Some y, w') ∧ undisturbed w w' ∧ Q (heap w') y a) →
  ∀ xs ds w, Forall2 (P (heap w)) xs ds →
    ∃ ys w', serialize_items item xs w = (Some ys, w') ∧ undisturbed w w' ∧
             Forall2 (Q (heap w')) ys ds.
Proof.
  intros HP HQ Hitem xs.
  induction xs as [|x xs IH]; intros ds w Hxs;
    inversion Hxs as [|? a ? ds' Hx Hxs']; subst.
  - exists [], w. by repeat split.
  - destruct (Hitem w x a Hx) as (y & w1 & Hy & Hw1 & Hq).
    destruct (IH ds' w1) as (ys & w2 & Hys & Hw2 & Hqs).
    { eapply Forall2_impl; [exact Hxs'|]. intros ??. by apply HP, undisturbed_heap. }
    exists (y :: ys), w2. cbn [serialize_items]. run. rewrite Hy. cbn [fst snd].
    rewrite Hys. cbn [fst snd]. split; [done|].
    split; [by etrans|]. constructor; [|done].
    eapply HQ; [|exact Hq]. by apply undisturbed_heap.
Qed.

(** One item that fails in every later world fails the list. *)
Lemma validate_items_fails (item : Validator) (xs : list Val) (i j : nat) (x : Val) (w : World) :
  (∀ v, grows (item v)) →
  xs !! j = Some x →
  (∀ w', extends w w' → ∃ loc, fails_at (item x w').1 loc) →
  ∃ loc, fails_at (validate_items item i xs w).1 (Idx (i + j) :: loc).
Proof.
  intros Hg. revert i j w.
  induction xs as [|y xs IH]; intros i j w Hj Hx; [done|].
  cbn [validate_items]. run. destruct j as [|j]; simplify_eq/=.
  - destruct (Hx w) as (loc & Hloc); [done|]. exists loc.
    apply fails_at_both_l. rewrite Nat.add_0_r. by apply fails_at_loc.
  - destruct (IH (S i) j (item y w).2 Hj) as (loc & Hloc).
    { intros w' Hw'. apply Hx. etrans; [apply Hg | done]. }
    exists loc. apply fails_at_both_r.
    by replace (i + S j)%nat with (S i + j)%nat by lia.
Qed.

(** ** Parts and Messages *)

Lemma is_literal_text (v : Val) : is_literal ["text"] v = bool_decide (v = VStr "text").
Proof.
  destruct v; try done. cbn [is_literal].
  apply bool_decide_ext. rewrite list_elem_of_singleton. split; congruence.
Qed.

Lemma TextPart_kwargs_fields (d : gmap string Val) (w : World) :
  validate_fields d TextPart_fields w =
  (match TextPart_kwargs d with
   | Some s => Ok {[ "type" := VStr "text"; "text" := VStr s ]}
   | None => (validate_fields d TextPart_fields w).1
   end, w).
Proof.
  unfold TextPart_kwargs, TextPart_fields. run.
  assert (Htext : validate_field d (field "text" str_schema Required) w =
    (match d !! "text" ≫= str_reading with
     | Some s => Ok (VStr s)
     | None => (validate_field d (field "text" str_schema Required) w).1
     end, w)).
  { destruct (d !! "text") as [x|] eqn:Hx.
    - erewrite validate_field_passed by (cbn [name]; exact Hx). run.
      cbn [mbind option_bind]. by destruct (str_reading x).
    - rewrite validate_field_omitted by (cbn [name]; exact Hx). by run. }
  destruct (d !! "type") as [v|] eqn:Hv.
  - erewrite validate_field_passed by (cbn [name]; exact Hv). run.
    rewrite is_literal_text. rewrite Htext. cbn [fst snd].
    destruct (decide (v = VStr "text")) as [->|Hne].
    + rewrite bool_decide_eq_true_2 by done. run.
      by destruct (d !! "text" ≫= str_reading).
    + by rewrite bool_decide_eq_false_2 by done.
  - rewrite validate_field_omitted by (cbn [name]; exact Hv). run.
    rewrite Htext. cbn [fst snd]. by destruct (d !! "text" ≫= str_reading).
Qed.

Lemma TextPart_kwargs_rejected (d : gmap string Val) (w : World) :
  TextPart_kwargs d = None →
  ∃ loc, fails_at (validate_fields d TextPart_fields w).1 loc.
Proof.
  unfold TextPart_kwargs. intros Hd.
  assert (Htext : d !! "text" ≫= str_reading = None →
            ∃ loc, fails_at (validate_fields d TextPart_fields w).1 loc).
  { intros Hn. exists [Attr "text"].
    apply validate_fields_fails with (field "text" str_schema Required).
    { unfold TextPart_fields. set_solver. }
    intros w0. destruct (d !! "text") as [x|] eqn:Hx.
    - erewrite validate_field_passed by (cbn [name]; exact Hx). run.
      cbn [mbind option_bind] in Hn. rewrite Hn. cbn. eexists. split; [done|]. set_solver.
    - rewrite validate_field_omitted by (cbn [name]; exact Hx). cbn.
      eexists. split; [done|]. set_solver. }
  destruct (d !! "type") as [v|] eqn:Hv; [|auto].
  destruct (decide (v = VStr "text")) as [->|Hne]; [auto|].
  exists [Attr "type"].
  apply validate_fields_fails
    with (field "type" (literal_schema ["text"]) (DefaultValue (VStr "text"))).
  { unfold TextPart_fields. set_solver. }
  intros w0. erewrite validate_field_passed by (cbn [name]; exact Hv). run.
  rewrite is_literal_text, bool_decide_eq_false_2 by done. cbn.
  eexists. split; [done|]. set_solver.
Qed.

Lemma read_TextPart_mono (h h' : gmap loc Obj) (v : Val) (p : Data.TextPart) :
  h ⊆ h' → read_TextPart h v = Some p → read_TextPart h' v = Some p.
Proof.
  intros Hh. unfold read_TextPart, instance_attrs.
  destruct v as [| | | | | |l]; try done.
  destruct (h !! l) as [o|] eqn:Hl; [|done].
  by rewrite (lookup_weaken _ _ _ _ Hl Hh).
Qed.

Lemma read_TextPart_fresh (h : gmap loc Obj) (l : loc) (ty tx : string) :
  read_TextPart (<[l := OInst TextPart {[ "type" := VStr ty; "text" := VStr tx ]}]> h)
                (VRef l) = Some (Data.Build_TextPart ty tx).
Proof.
  unfold read_TextPart, instance_attrs. rewrite lookup_insert_eq. cbn.
  unfold read_str. by simplify_map_eq.
Qed.

Lemma valid_Part_mono (h h' : gmap loc Obj) (x : Val) :
  h ⊆ h' → valid_Part h x = true → valid_Part h' x = true.
Proof.
  intros Hh. unfold valid_Part. destruct x as [| | | | | |l]; try done.
  destruct (h !! l) as [o|] eqn:Hl; [|done].
  by rewrite (lookup_weaken _ _ _ _ Hl Hh).
Qed.

Lemma invalid_Part_mono (h h' : gmap loc Obj) (x : Val) :
  h ⊆ h' → allocated h x → valid_Part h x = false →
  allocated h' x ∧ valid_Part h' x = false.
Proof.
  intros Hh. unfold valid_Part, allocated. destruct x as [| | | | | |l]; try done.
  intros [o Hl]. by rewrite Hl, (lookup_weaken _ _ _ _ Hl Hh).
Qed.

Lemma Part_built_mono (h h' : gmap loc Obj) (x y : Val) :
  h ⊆ h' → Part_built h x y → Part_built h' x y.
Proof.
  intros Hh. unfold Part_built. destruct x as [| | | | | |l]; try done.
  destruct (h !! l) as [o|] eqn:Hl; [|done].
  rewrite (lookup_weaken _ _ _ _ Hl Hh). destruct o; try done.
  intros (s & Hs & Hr). exists s. split; [done|]. by eapply read_TextPart_mono.
Qed.

Lemma validate_Part_valid (w : World) (x : Val) :
  valid_Part (heap w) x = true →
  ∃ y w', validate (model_schema Part TextPart_fields) x w = (Ok y, w') ∧
          undisturbed w w' ∧ Part_built (heap w') x y.
Proof.
  unfold valid_Part. destruct x as [| | | | | |l]; try done.
  destruct (heap w !! l) as [[xs|d|c attrs|ts]|] eqn:Hl; try done; intros Hv.
  - apply bool_decide_eq_true in Hv as [s Hs].
    pose proof (TextPart_kwargs_fields d w) as Hrun. rewrite Hs in Hrun.
    destruct (BaseModel_init_ok TextPart _ _ _ _ _ Hrun) as (l' & Hnew & Hl').
    eexists (VRef l'), _. cbn [validate model_schema]. unfold validate_model. run.
    cbn [deref fst snd]. rewrite Hl. run. fold Part in Hnew. rewrite Hnew. cbn [fst snd].
    split; [done|]. split.
    { split; [split|..]; try done. cbn [heap set_heap]. by apply insert_subseteq. }
    unfold Part_built. cbn [heap set_heap].
    rewrite lookup_insert_ne by (intros ->; congruence). rewrite Hl.
    exists s. split; [done|]. apply read_TextPart_fresh.
  - exists (VRef l), w. cbn [validate model_schema]. unfold validate_model. run.
    cbn [deref fst snd]. rewrite Hl. run. rewrite Hv. split; [done|].
    split; [done|]. unfold Part_built. by rewrite Hl.
Qed.

Lemma validate_Part_invalid (w : World) (x : Val) :
  allocated (heap w) x → valid_Part (heap w) x = false →
  ∃ loc, fails_at (validate (model_schema Part TextPart_fields) x w).1 loc.
Proof.
  assert (Hinv : ∀ A, fails_at (invalid : Result A) []).
  { intros A. eexists. split; [done|]. set_solver. }
  unfold valid_Part, allocated. cbn [validate model_schema]. unfold validate_model.
  destruct x as [| | | | | |l]; try (intros _ _; exists []; by run).
  intros [o Hl]. rewrite Hl. run. cbn [deref fst snd]. rewrite Hl.
  destruct o as [xs|d|c attrs|ts]; intros Hv.
  - exists []. by run.
  - apply bool_decide_eq_false in Hv.
    destruct (TextPart_kwargs_rejected d w) as (loc & Hloc).
    { destruct (TextPart_kwargs d); [|done]. by destruct Hv. }
    exists loc. run.
    pose proof (BaseModel_init_fails Part d TextPart_fields loc w Hloc) as (es & He & Hin).
    rewrite He. by exists es.
  - exists []. run. by rewrite Hv.
  - exists []. by run.
Qed.

Lemma validate_list_fails (item : Validator) (l : loc) (xs : list Val) (w : World) loc :
  heap w !! l = Some (OList xs) →
  fails_at (validate_items item 0 xs w).1 loc →
  fails_at (validate_list item (VRef l) w).1 loc.
Proof.
  intros Hl (es & He & Hin). unfold validate_list. run. cbn [deref fst snd].
  rewrite Hl. run. rewrite He. run. by exists es.
Qed.

Lemma validate_list_ok (item : Validator) (l : loc) (xs ys : list Val) (w w1 : World) :
  heap w !! l = Some (OList xs) →
  validate_items item 0 xs w = (Ok ys, w1) →
  ∃ lp, validate_list item (VRef l) w =
          (Ok (VRef lp), set_heap (<[lp := OList ys]> (heap w1)) w1) ∧
        heap w1 !! lp = None.
Proof.
  intros Hl Hys. unfold validate_list. run. cbn [deref fst snd].
  rewrite Hl. run. rewrite Hys. run. cbn [fst snd].
  exists (alloc (OList ys) w1).1. split; [done | apply alloc_fresh].
Qed.

Lemma validate_role_pure (kw : gmap string Val) (w : World) :
  (validate_field kw (field "role" (literal_schema ["user"; "agent"]) Required) w).2 = w.
Proof.
  unfold validate_field. cbn [name annotation default].
  destruct (kw !! "role"); by run.
Qed.

Lemma Message_init_ok (kw : gmap string Val) (w : World) (r : string) (l : loc) (xs : list Val) :
  kw !! "role" = Some (VStr r) →
  r ∈ ["user"; "agent"] →
  kw !! "parts" = Some (VRef l) →
  heap w !! l = Some (OList xs) →
  Forall (λ x, valid_Part (heap w) x = true) xs →
  ∃ lm w' lp ys,
    new Message kw w = (Ok lm, w') ∧ undisturbed w w' ∧
    heap w !! lm = None ∧
    heap w' !! lm = Some (OInst Message {[ "role" := VStr r; "parts" := VRef lp ]}) ∧
    heap w' !! lp = Some (OList ys) ∧
    Forall2 (Part_built (heap w')) xs ys.
Proof.
  intros Hrole Hr Hparts Hl Hxs.
  destruct (validate_items_ok (validate (model_schema Part TextPart_fields))
              (λ h x a, a = x ∧ valid_Part h x = true)
              (λ h y a, Part_built h a y)) with (xs := xs) (ds := xs) (i := 0%nat) (w := w)
    as (ys & w1 & Hys & Hw1 & Hbuilt).
  { intros h h' x a Hh [-> Hv]. split; [done|]. by eapply valid_Part_mono. }
  { intros h h' y a Hh. by apply Part_built_mono. }
  { intros w0 x a [-> Hv]. by apply validate_Part_valid. }
  { clear Hl. induction Hxs; constructor; auto. }
  destruct (validate_list_ok _ l xs ys w w1 Hl Hys) as (lp & Hlist & Hlp).
  set (w2 := set_heap (<[lp := OList ys]> (heap w1)) w1) in *.
  assert (Hw2 : undisturbed w1 w2).
  { split; [split|..]; try done. cbn [heap set_heap w2]. by apply insert_subseteq. }
  assert (Hrun : validate_fields kw Message_fields w =
                 (Ok {[ "role" := VStr r; "parts" := VRef lp ]}, w2)).
  { unfold Message_fields. rewrite 2!validate_fields_cons.
    rewrite validate_role_pure.
    rewrite (validate_field_passed kw (field "role" _ _) (VStr r)) by exact Hrole.
    rewrite (validate_field_passed kw (field "parts" _ _) (VRef l)) by exact Hparts.
    cbn [name annotation validate list_schema literal_schema fst snd].
    rewrite Hlist. run. cbn [is_literal]. by rewrite bool_decide_eq_true_2. }
  destruct (BaseModel_init_ok Message _ _ _ _ _ Hrun) as (lm & Hnew & Hlm).
  exists lm, (set_heap (<[lm := OInst Message {[ "role" := VStr r; "parts" := VRef lp ]}]> (heap w2)) w2), lp, ys.
  assert (Hw3 : heap w2 ⊆ <[lm := OInst Message {[ "role" := VStr r; "parts" := VRef lp ]}]> (heap w2))
    by (by apply insert_subseteq).
  split; [exact Hnew|]. split.
  { etrans; [exact Hw1|]. etrans; [exact Hw2|]. split; [split|..]; done. }
  split.
  { destruct (heap w !! lm) eqn:E; [|done].
    eapply lookup_weaken in E; [|etrans; apply undisturbed_heap; eassumption]. congruence. }
  cbn [heap set_heap]. split; [apply lookup_insert_eq|]. split.
  { eapply lookup_weaken; [|exact Hw3]. cbn [w2 heap set_heap]. apply lookup_insert_eq. }
  eapply Forall2_flip, Forall2_impl; [exact Hbuilt|]. intros y x Hb. cbn.
  eapply Part_built_mono; [|exact Hb].
  etrans; [|exact Hw3]. by apply undisturbed_heap.
Qed.

(** C1: constructing a Message raises ValidationError when [role] is not
    the string "user" or "agent" (so [Message(role="system", parts=[])]
    fails), and when the [parts] list has an element that is not a valid
    Part; with a role of the two and a list of valid Parts, empty or not,
    the construction succeeds and the Message holds that role and, in
    order, the Parts. *)
Theorem Message_role_and_parts (w : World) :
  (∀ kw, kw !! "role" ∉ [Some (VStr "user"); Some (VStr "agent")] →
         fails_at (new Message kw w).1 [Attr "role"]) ∧
  (∀ kw l xs j x,
     kw !! "parts" = Some (VRef l) → heap w !! l = Some (OList xs) →
     xs !! j = Some x → allocated (heap w) x → valid_Part (heap w) x = false →
     ∃ loc, fails_at (new Message kw w).1 (Attr "parts" :: Idx j :: loc)) ∧
  (∀ l, heap w !! l = Some (OList []) →
        fails_at (new Message {[ "role" := VStr "system"; "parts" := VRef l ]} w).1
                 [Attr "role"]) ∧
  (∀ kw r l xs,
     kw !! "role" = Some (VStr r) → r ∈ ["user"; "agent"] →
     kw !! "parts" = Some (VRef l) → heap w !! l = Some (OList xs) →
     Forall (λ x, valid_Part (heap w) x = true) xs →
     ∃ lm w' lp ys,
       new Message kw w = (Ok lm, w') ∧
       heap w !! lm = None ∧
       heap w' !! lm = Some (OInst Message {[ "role" := VStr r; "parts" := VRef lp ]}) ∧
       heap w' !! lp = Some (OList ys) ∧
       Forall2 (Part_built (heap w')) xs ys).
Proof.
  assert (Hrole : ∀ kw, kw !! "role" ∉ [Some (VStr "user"); Some (VStr "agent")] →
                        fails_at (new Message kw w).1 [Attr "role"]).
  { intros kw Hkw.
    apply new_fails with (field "role" (literal_schema ["user"; "agent"]) Required).
    { cbn [model_fields]. unfold Message_fields. set_solver. }
    intros w0. destruct (kw !! "role") as [v|] eqn:Hv.
    - erewrite validate_field_passed by (cbn [name]; exact Hv). run.
      assert (is_literal ["user"; "agent"] v = false) as ->.
      { destruct v; try done. cbn [is_literal]. apply bool_decide_eq_false.
        intros Hin. apply Hkw.
        apply elem_of_cons in Hin as [->|Hin]; [apply list_elem_of_here|].
        apply elem_of_cons in Hin as [->|Hin];
          [apply list_elem_of_further, list_elem_of_here|].
        by apply elem_of_nil in Hin. }
      cbn. eexists. split; [done|]. set_solver.
    - rewrite validate_field_omitted by (cbn [name]; exact Hv). cbn.
      eexists. split; [done|]. set_solver. }
  split; [exact Hrole|]. split; [|split].
  - intros kw l xs j x Hparts Hl Hj Hal Hinv.
    destruct (validate_items_fails (validate (model_schema Part TextPart_fields))
                xs 0 j x w) as (loc & Hloc); [| exact Hj | |].
    { intros v. apply (model_schema_keeps extends _ extends_alloc Part TextPart_fields).
      apply (TextPart_fields_keep extends _). }
    { intros w' Hw'. apply validate_Part_invalid.
      - eapply invalid_Part_mono; [apply Hw' | done | done].
      - eapply invalid_Part_mono; [apply Hw' | done | done]. }
    exists loc. apply BaseModel_init_fails. cbn [model_fields]. unfold Message_fields.
    rewrite 2!validate_fields_cons. apply fails_at_both_r, fails_at_both_l.
    rewrite validate_role_pure.
    rewrite (validate_field_passed kw (field "parts" _ _) (VRef l)) by exact Hparts.
    cbn [fst name annotation validate list_schema].
    apply fails_at_loc. by apply validate_list_fails with xs.
  - intros l _. apply Hrole. rewrite lookup_insert_eq. intros H.
    apply elem_of_cons in H as [H|H]; [discriminate H|].
    apply elem_of_cons in H as [H|H]; [discriminate H|].
    by apply elem_of_nil in H.
  - intros kw r l xs H1 H2 H3 H4 H5.
    destruct (Message_init_ok kw w r l xs H1 H2 H3 H4 H5)
      as (lm & w' & lp & ys & ? & ? & ? & ? & ? & ?).
    by exists lm, w', lp, ys.
Qed.

(** ** Reading back and dumping survive the creation of further objects *)

Lemma instance_attrs_mono (h h' : gmap loc Obj) (c : Class) (v : Val) attrs :
  h ⊆ h' → instance_attrs h c v = Some attrs → instance_attrs h' c v = Some attrs.
Proof.
  intros Hh. unfold instance_attrs. destruct v as [| | | | | |l]; try done.
  destruct (h !! l) as [o|] eqn:Hl; [|done].
  by rewrite (lookup_weaken _ _ _ _ Hl Hh).
Qed.

Lemma read_list_mono {A} (h h' : gmap loc Obj) (item item' : Val → option A) (v : Val) xs :
  h ⊆ h' →
  (∀ x a, item x = Some a → item' x = Some a) →
  read_list h item v = Some xs → read_list h' item' v = Some xs.
Proof.
  intros Hh Hitem. unfold read_list. destruct v as [| | | | | |l]; try done.
  destruct (h !! l) as [o|] eqn:Hl; [|done].
  rewrite (lookup_weaken _ _ _ _ Hl Hh). destruct o; try done.
  rewrite !mapM_Some. intros H. eapply Forall2_impl; [exact H | auto].
Qed.

Lemma read_Message_mono (h h' : gmap loc Obj) (v : Val) (m : Data.Message) :
  h ⊆ h' → read_Message h v = Some m → read_Message h' v = Some m.
Proof.
  intros Hh. unfold read_Message. intros H.
  destruct (instance_attrs h Message v) as [attrs|] eqn:Ha; [|done].
  rewrite (instance_attrs_mono _ _ _ _ _ Hh Ha). cbn [mbind option_bind] in *.
  destruct (read_str attrs "role"); [|done]. cbn [mbind option_bind] in *.
  destruct (attrs !! "parts") as [vp|]; [|done]. cbn [mbind option_bind] in *.
  destruct (read_list h (read_TextPart h) vp) as [ps|] eqn:Hps; [|done].
  erewrite read_list_mono; [exact H | exact Hh | | exact Hps].
  intros x a. by apply read_TextPart_mono.
Qed.

Lemma read_TaskStatus_mono (h h' : gmap loc Obj) (v : Val) (s : Data.TaskStatus) :
  h ⊆ h' → read_TaskStatus h v = Some s → read_TaskStatus h' v = Some s.
Proof.
  intros Hh. unfold read_TaskStatus. intros H.
  destruct (instance_attrs h TaskStatus v) as [attrs|] eqn:Ha; [|done].
  by rewrite (instance_attrs_mono _ _ _ _ _ Hh Ha).
Qed.

Lemma dumped_TextPart_mono (h h' : gmap loc Obj) (v : Val) (p : Data.TextPart) :
  h ⊆ h' → dumped_TextPart h v p → dumped_TextPart h' v p.
Proof.
  intros Hh (l & -> & Hl). exists l. split; [done|]. by eapply lookup_weaken.
Qed.

Lemma dumped_list_mono {A} (h h' : gmap loc Obj) (item item' : Val → A → Prop) v xs :
  h ⊆ h' →
  (∀ x a, item x a → item' x a) →
  dumped_list h item v xs → dumped_list h' item' v xs.
Proof.
  intros Hh Hitem (l & vs & -> & Hl & Hvs). exists l, vs. split; [done|].
  split; [by eapply lookup_weaken|]. by eapply Forall2_impl.
Qed.

Lemma dumped_Message_mono (h h' : gmap loc Obj) (v : Val) (m : Data.Message) :
  h ⊆ h' → dumped_Message h v m → dumped_Message h' v m.
Proof.
  intros Hh (l & d & -> & Hl & vp & -> & Hvp). exists l. eexists.
  split; [done|]. split; [by eapply lookup_weaken|]. exists vp. split; [done|].
  eapply dumped_list_mono; [exact Hh | | exact Hvp].
  intros x a. by apply dumped_TextPart_mono.
Qed.

Lemma dumped_TaskStatus_mono (h h' : gmap loc Obj) (v : Val) (s : Data.TaskStatus) :
  h ⊆ h' → dumped_TaskStatus h v s → dumped_TaskStatus h' v s.
Proof.
  intros Hh (l & -> & Hl). exists l. split; [done|]. by eapply lookup_weaken.
Qed.

(** ** model_dump *)

Lemma undisturbed_insert (w : World) (l : loc) (o : Obj) :
  heap w !! l = None → undisturbed w (set_heap (<[l := o]> (heap w)) w).
Proof.
  intros Hl. split; [split|..]; try done. cbn [heap set_heap]. by apply insert_subseteq.
Qed.

Lemma serialize_list_ok (item : Serializer) (l : loc) (xs ys : list Val) (w w1 : World) :
  heap w !! l = Some (OList xs) →
  serialize_items item xs w = (Some ys, w1) →
  ∃ lp, serialize_list item (VRef l) w =
          (Some (VRef lp), set_heap (<[lp := OList ys]> (heap w1)) w1) ∧
        heap w1 !! lp = None.
Proof.
  intros Hl Hys. unfold serialize_list. run. cbn [deref fst snd].
  rewrite Hl. run. rewrite Hys. run. cbn [fst snd].
  exists (alloc (OList ys) w1).1. split; [done | apply alloc_fresh].
Qed.

Lemma serialize_model_ok (c c' : Class) (fs : list FieldInfo) (l : loc)
    (attrs d : gmap string Val) (w w1 : World) :
  heap w !! l = Some (OInst c' attrs) →
  issubclass c' c = true →
  serialize_fields attrs fs w = (Some d, w1) →
  ∃ ld, serialize_model c fs (VRef l) w =
          (Some (VRef ld), set_heap (<[ld := ODict d]> (heap w1)) w1) ∧
        heap w1 !! ld = None.
Proof.
  intros Hl Hc Hd. unfold serialize_model. run. cbn [deref fst snd].
  rewrite Hl, Hc. run. rewrite Hd. run. cbn [fst snd].
  exists (alloc (ODict d) w1).1. split; [done | apply alloc_fresh].
Qed.

Lemma instance_attrs_Some (h : gmap loc Obj) (c : Class) (v : Val) attrs :
  instance_attrs h c v = Some attrs →
  ∃ l c', v = VRef l ∧ h !! l = Some (OInst c' attrs) ∧ issubclass c' c = true.
Proof.
  unfold instance_attrs. destruct v as [| | | | | |l]; try done.
  destruct (h !! l) as [[| |c' a|]|] eqn:Hl; try done.
  destruct (issubclass c' c) eqn:Hc; [|done]. intros [= ->]. eauto.
Qed.

Lemma read_str_Some (attrs : gmap string Val) (f s : string) :
  read_str attrs f = Some s → attrs !! f = Some (VStr s).
Proof.
  unfold read_str. destruct (attrs !! f) as [[]|]; try done. by intros [= ->].
Qed.

Lemma read_datetime_Some (attrs : gmap string Val) (f : string) (t : datetime) :
  read_datetime attrs f = Some t → attrs !! f = Some (VDatetime t).
Proof.
  unfold read_datetime. destruct (attrs !! f) as [[]|]; try done. by intros [= ->].
Qed.

Lemma serialize_TextPart (w : World) (v : Val) (p : Data.TextPart) :
  read_TextPart (heap w) v = Some p ∧ Data.valid_TextPart p →
  ∃ v' w', serialize (model_schema Part TextPart_fields) v w = (Some v', w') ∧
           undisturbed w w' ∧ dumped_TextPart (heap w') v' p.
Proof.
  intros [Hr Hp]. unfold read_TextPart in Hr.
  destruct (instance_attrs (heap w) TextPart v) as [attrs|] eqn:Ha; [|done].
  cbn [mbind option_bind] in Hr.
  destruct (read_str attrs "type") as [ty|] eqn:Hty; [|done].
  destruct (read_str attrs "text") as [tx|] eqn:Htx; [|done].
  cbn [mbind option_bind] in Hr. injection Hr as <-.
  unfold Data.valid_TextPart in Hp. cbn in Hp. subst ty.
  apply read_str_Some in Hty, Htx.
  apply instance_attrs_Some in Ha as (l & c' & -> & Hl & Hc).
  destruct (serialize_model_ok Part c' TextPart_fields l attrs
              {[ "type" := VStr "text"; "text" := VStr tx ]} w w Hl Hc) as (ld & Hd & Hld).
  { unfold TextPart_fields. cbn [serialize_fields name annotation].
    rewrite Hty, Htx. by run. }
  eexists _, _. split; [exact Hd|]. split; [by apply undisturbed_insert|].
  exists ld. split; [done|]. cbn [heap set_heap]. apply lookup_insert_eq.
Qed.

Lemma Forall2_with_Forall_r {A B} (P : A → B → Prop) (Q : B → Prop) l k :
  Forall2 P l k → Forall Q k → Forall2 (λ x y, P x y ∧ Q y) l k.
Proof. induction 1; inversion 1; constructor; auto. Qed.

Lemma read_list_Some {A} (h : gmap loc Obj) (item : Val → option A) (v : Val) xs :
  read_list h item v = Some xs →
  ∃ l vs, v = VRef l ∧ h !! l = Some (OList vs) ∧
          Forall2 (λ x a, item x = Some a) vs xs.
Proof.
  unfold read_list. destruct v as [| | | | | |l]; try done.
  destruct (h !! l) as [[vs| | |]|] eqn:Hl; try done.
  rewrite mapM_Some. eauto.
Qed.

Lemma serialize_Message (w : World) (v : Val) (m : Data.Message) :
  read_Message (heap w) v = Some m ∧ Data.valid_Message m →
  ∃ v' w', serialize (model_schema Message Message_fields) v w = (Some v', w') ∧
           undisturbed w w' ∧ dumped_Message (heap w') v' m.
Proof.
  intros [Hr [Hrole Hps]]. unfold read_Message in Hr.
  destruct (instance_attrs (heap w) Message v) as [attrs|] eqn:Ha; [|done].
  cbn [mbind option_bind] in Hr.
  destruct (read_str attrs "role") as [r|] eqn:Hro; [|done].
  cbn [mbind option_bind] in Hr.
  destruct (attrs !! "parts") as [vp|] eqn:Hvp; [|done].
  cbn [mbind option_bind] in Hr.
  destruct (read_list (heap w) (read_TextPart (heap w)) vp) as [ps|] eqn:Hl; [|done].
  cbn [mbind option_bind] in Hr. injection Hr as <-. cbn in Hrole, Hps.
  apply read_str_Some in Hro.
  apply instance_attrs_Some in Ha as (l & c' & -> & Hlm & Hc).
  apply read_list_Some in Hl as (lp & xs & -> & Hlp & Hxs).
  destruct (serialize_items_ok (serialize (model_schema Part TextPart_fields))
              (λ h x p, read_TextPart h x = Some p ∧ Data.valid_TextPart p)
              dumped_TextPart) with (xs := xs) (ds := ps) (w := w)
    as (ys & w1 & Hys & Hw1 & Hdumped).
  { intros h h' x a Hh [? ?]. split; [by eapply read_TextPart_mono | done]. }
  { intros h h' y a. apply dumped_TextPart_mono. }
  { intros w0 x a. apply serialize_TextPart. }
  { by apply Forall2_with_Forall_r. }
  destruct (serialize_list_ok _ lp xs ys w w1 Hlp Hys) as (lp' & Hlist & Hlp').
  set (w2 := set_heap (<[lp' := OList ys]> (heap w1)) w1) in *.
  destruct (serialize_model_ok Message c' Message_fields l attrs
              {[ "role" := VStr r; "parts" := VRef lp' ]} w w2 Hlm Hc) as (ld & Hd & Hld).
  { unfold Message_fields. cbn [serialize_fields name annotation].
    cbn [serialize model_schema] in Hlist.
    rewrite Hro, Hvp. run. cbn [is_literal]. rewrite bool_decide_eq_true_2 by done.
    cbn [fst snd]. rewrite Hlist. by run. }
  eexists _, _. split; [exact Hd|].
  assert (Hw2 : undisturbed w1 w2) by (by apply undisturbed_insert).
  assert (Hw3 : undisturbed w2 (set_heap (<[ld := ODict {[ "role" := VStr r; "parts" := VRef lp' ]}]> (heap w2)) w2))
    by (by apply undisturbed_insert).
  split; [by etrans; [|etrans]|].
  exists ld. eexists. split; [done|]. cbn [heap set_heap].
  split; [apply lookup_insert_eq|]. exists (VRef lp'). split; [done|].
  exists lp', ys. split; [done|]. split.
  { eapply lookup_weaken; [|apply (undisturbed_heap _ _ Hw3)]. apply lookup_insert_eq. }
  eapply Forall2_impl; [exact Hdumped|]. intros x a.
  apply dumped_TextPart_mono.
  etrans; [apply (undisturbed_heap _ _ Hw2) | apply (undisturbed_heap _ _ Hw3)].
Qed.

Lemma serialize_TaskStatus (w : World) (v : Val) (s : Data.TaskStatus) :
  read_TaskStatus (heap w) v = Some s →
  ∃ v' w', serialize (model_schema TaskStatus TaskStatus_fields) v w = (Some v', w') ∧
           undisturbed w w' ∧ dumped_TaskStatus (heap w') v' s.
Proof.
  intros Hr. unfold read_TaskStatus in Hr.
  destruct (instance_attrs (heap w) TaskStatus v) as [attrs|] eqn:Ha; [|done].
  cbn [mbind option_bind] in Hr.
  destruct (read_str attrs "state") as [st|] eqn:Hst; [|done].
  destruct (read_datetime attrs "timestamp") as [t|] eqn:Ht; [|done].
  cbn [mbind option_bind] in Hr. injection Hr as <-.
  apply read_str_Some in Hst. apply read_datetime_Some in Ht.
  apply instance_attrs_Some in Ha as (l & c' & -> & Hl & Hc).
  destruct (serialize_model_ok TaskStatus c' TaskStatus_fields l attrs
              {[ "state" := VStr st; "timestamp" := VDatetime t ]} w w Hl Hc) as (ld & Hd & Hld).
  { unfold TaskStatus_fields. cbn [serialize_fields name annotation].
    rewrite Hst, Ht. by run. }
  eexists _, _. split; [exact Hd|]. split; [by apply undisturbed_insert|].
  exists ld. split; [done|]. cbn [heap set_heap]. apply lookup_insert_eq.
Qed.

Lemma model_dump_Task (w : World) (l : loc) (t : Data.Task) :
  read_Task (heap w) (VRef l) = Some t → Data.valid_Task t →
  ∃ ld kw w', model_dump Task l w = (Some (VRef ld), w') ∧ undisturbed w w' ∧
              heap w !! ld = None ∧
              heap w' !! ld = Some (ODict kw) ∧ dumped_Task_kwargs (heap w') kw t.
Proof.
  intros Hr Hms. unfold read_Task in Hr.
  destruct (instance_attrs (heap w) Task (VRef l)) as [attrs|] eqn:Ha; [|done].
  cbn [mbind option_bind] in Hr.
  destruct (read_str attrs "id") as [i|] eqn:Hid; [|done].
  cbn [mbind option_bind] in Hr.
  destruct (attrs !! "status") as [vs|] eqn:Hvs; [|done].
  cbn [mbind option_bind] in Hr.
  destruct (read_TaskStatus (heap w) vs) as [st|] eqn:Hst; [|done].
  cbn [mbind option_bind] in Hr.
  destruct (attrs !! "history") as [vh|] eqn:Hvh; [|done].
  cbn [mbind option_bind] in Hr.
  destruct (read_list (heap w) (read_Message (heap w)) vh) as [ms|] eqn:Hl; [|done].
  cbn [mbind option_bind] in Hr. injection Hr as <-.
  unfold Data.valid_Task in Hms. cbn in Hms.
  apply read_str_Some in Hid.
  apply instance_attrs_Some in Ha as (l0 & c' & [= <-] & Hlt & Hc).
  apply read_list_Some in Hl as (lh & xs & -> & Hlh & Hxs).
  destruct (serialize_TaskStatus w vs st Hst) as (ds & w1 & Hds & Hw1 & Hdst).
  destruct (serialize_items_ok (serialize (model_schema Message Message_fields))
              (λ h x m, read_Message h x = Some m ∧ Data.valid_Message m)
              dumped_Message) with (xs := xs) (ds := ms) (w := w1)
    as (ys & w2 & Hys & Hw2 & Hdumped).
  { intros h h' x a Hh [? ?]. split; [by eapply read_Message_mono | done]. }
  { intros h h' y a. apply dumped_Message_mono. }
  { intros w0 x a. apply serialize_Message. }
  { eapply Forall2_impl; [by apply Forall2_with_Forall_r|].
    cbn. intros x m [Hx Hm]. split; [|done].
    eapply read_Message_mono; [|exact Hx]. by apply undisturbed_heap. }
  assert (Hlh1 : heap w1 !! lh = Some (OList xs))
    by (eapply lookup_weaken; [exact Hlh | by apply undisturbed_heap]).
  destruct (serialize_list_ok _ lh xs ys w1 w2 Hlh1 Hys) as (lh' & Hlist & Hlh').
  set (w3 := set_heap (<[lh' := OList ys]> (heap w2)) w2) in *.
  destruct (serialize_model_ok Task c' Task_fields l attrs
              {[ "id" := VStr i; "status" := ds; "history" := VRef lh' ]} w w3 Hlt Hc)
    as (ld & Hd & Hld).
  { unfold Task_fields. cbn [serialize_fields name annotation].
    cbn [serialize model_schema] in Hlist, Hds.
    rewrite Hid, Hvs, Hvh. run. cbn [is_str fst snd]. rewrite Hds. cbn [fst snd].
    rewrite Hlist. by run. }
  assert (Hw3 : undisturbed w2 w3) by (by apply undisturbed_insert).
  set (kw := ({[ "id" := VStr i; "status" := ds; "history" := VRef lh' ]} : gmap string Val)) in *.
  assert (Hw4 : undisturbed w3 (set_heap (<[ld := ODict kw]> (heap w3)) w3))
    by (by apply undisturbed_insert).
  assert (Hw04 : undisturbed w (set_heap (<[ld := ODict kw]> (heap w3)) w3)).
  { etrans; [exact Hw1|]. etrans; [exact Hw2|]. by etrans. }
  exists ld, kw. eexists. split; [exact Hd|]. split; [exact Hw04|]. split.
  { destruct (heap w !! ld) eqn:E; [|done].
    eapply lookup_weaken in E;
      [|etrans; [apply (undisturbed_heap _ _ Hw1)|];
        etrans; [apply (undisturbed_heap _ _ Hw2) | apply (undisturbed_heap _ _ Hw3)]].
    congruence. }
  cbn [heap set_heap]. split; [apply lookup_insert_eq|].
  exists ds, (VRef lh'). split; [done|]. cbn. split.
  { eapply dumped_TaskStatus_mono; [|exact Hdst].
    etrans; [apply (undisturbed_heap _ _ Hw2)|].
    etrans; [apply (undisturbed_heap _ _ Hw3) | apply (undisturbed_heap _ _ Hw4)]. }
  exists lh', ys. split; [done|]. split.
  { eapply lookup_weaken; [|apply (undisturbed_heap _ _ Hw4)]. apply lookup_insert_eq. }
  eapply Forall2_impl; [exact Hdumped|]. intros x a.
  apply dumped_Message_mono.
  etrans; [apply (undisturbed_heap _ _ Hw3) | apply (undisturbed_heap _ _ Hw4)].
Qed.

(** ** Constructing from a dump *)

Lemma TextPart_kwargs_dumped (p : Data.TextPart) :
  Data.valid_TextPart p →
  TextPart_kwargs {[ "type" := VStr (Data.type p); "text" := VStr (Data.text p) ]}
  = Some (Data.text p).
Proof.
  unfold Data.valid_TextPart, TextPart_kwargs. intros ->.
  by simplify_map_eq.
Qed.

Lemma dumped_TextPart_valid (h : gmap loc Obj) (v : Val) (p : Data.TextPart) :
  dumped_TextPart h v p → Data.valid_TextPart p → valid_Part h v = true.
Proof.
  intros (l & -> & Hl) Hp. unfold valid_Part. rewrite Hl.
  apply bool_decide_eq_true. by rewrite TextPart_kwargs_dumped.
Qed.

Lemma dumped_TextPart_built (h : gmap loc Obj) (v y : Val) (p : Data.TextPart) :
  dumped_TextPart h v p → Data.valid_TextPart p → Part_built h v y →
  read_TextPart h y = Some p.
Proof.
  intros (l & -> & Hl) Hp. unfold Part_built. rewrite Hl.
  rewrite TextPart_kwargs_dumped by done. intros (s & [= <-] & Hr).
  rewrite Hr. destruct p as [ty tx]. unfold Data.valid_TextPart in Hp. cbn in *.
  by subst ty.
Qed.

Lemma read_Message_fresh (h : gmap loc Obj) (l lp : loc) (r : string)
    (ys : list Val) (ps : list Data.TextPart) :
  h !! l = Some (OInst Message {[ "role" := VStr r; "parts" := VRef lp ]}) →
  h !! lp = Some (OList ys) →
  Forall2 (λ y p, read_TextPart h y = Some p) ys ps →
  read_Message h (VRef l) = Some (Data.Build_Message r ps).
Proof.
  intros Hl Hlp Hys.
  assert (Hm : read_list h (read_TextPart h) (VRef lp) = Some ps).
  { unfold read_list. rewrite Hlp. by apply mapM_Some. }
  unfold read_Message, instance_attrs. rewrite Hl.
  cbn [issubclass bool_decide decide_rel mbind option_bind].
  rewrite bool_decide_eq_true_2 by done. cbn [mbind option_bind].
  unfold read_str. rewrite lookup_insert_eq. cbn [mbind option_bind].
  rewrite lookup_insert_ne by done. rewrite lookup_singleton_eq.
  cbn [mbind option_bind]. by rewrite Hm.
Qed.

Lemma validate_Message_dumped (w : World) (v : Val) (m : Data.Message) :
  dumped_Message (heap w) v m ∧ Data.valid_Message m →
  ∃ y w', validate (model_schema Message Message_fields) v w = (Ok y, w') ∧
          undisturbed w w' ∧ read_Message (heap w') y = Some m.
Proof.
  intros [(l & d & -> & Hl & vp & -> & lp & vs & -> & Hlp & Hvs) [Hrole Hps]].
  set (kw := ({[ "role" := VStr (Data.role m); "parts" := VRef lp ]} : gmap string Val)) in *.
  assert (H1 : kw !! "role" = Some (VStr (Data.role m))) by apply lookup_insert_eq.
  assert (H3 : kw !! "parts" = Some (VRef lp)).
  { unfold kw. rewrite lookup_insert_ne by done. apply lookup_singleton_eq. }
  assert (H5 : Forall (λ x, valid_Part (heap w) x = true) vs).
  { eapply Forall2_Forall_l; [exact Hvs|].
    eapply Forall_impl; [exact Hps|]. cbn. intros p Hp x Hx.
    by eapply dumped_TextPart_valid. }
  destruct (Message_init_ok kw w (Data.role m) lp vs H1 Hrole H3 Hlp H5)
    as (lm & w' & lp' & ys & Hnew & Hw' & _ & Hlm & Hlp' & Hbuilt).
  exists (VRef lm), w'. cbn [validate model_schema]. unfold validate_model. run.
  cbn [deref fst snd]. rewrite Hl. run. unfold new in Hnew. cbn [model_fields] in Hnew.
  rewrite Hnew. cbn [fst snd]. split; [done|]. split; [done|].
  destruct m as [r ps]. cbn in *.
  apply read_Message_fresh with lp' ys; [done | done |].
  eapply Forall2_trans;
    [| apply Forall2_flip, Hbuilt | apply (Forall2_with_Forall_r _ _ _ _ Hvs Hps)].
  cbn. intros y x p Hb [Hd Hp].
  eapply dumped_TextPart_built; [|exact Hp|exact Hb].
  eapply dumped_TextPart_mono; [|exact Hd]. by apply undisturbed_heap.
Qed.

Lemma validate_TaskStatus_dumped (w : World) (v : Val) (s : Data.TaskStatus) :
  dumped_TaskStatus (heap w) v s →
  ∃ y w', validate (model_schema TaskStatus TaskStatus_fields) v w = (Ok y, w') ∧
          undisturbed w w' ∧ read_TaskStatus (heap w') y = Some s.
Proof.
  intros (l & -> & Hl). destruct s as [st t]. cbn in Hl.
  destruct (BaseModel_init_ok TaskStatus TaskStatus_fields
              {[ "state" := VStr st; "timestamp" := VDatetime t ]}
              {[ "state" := VStr st; "timestamp" := VDatetime t ]} w w) as (l' & Hnew & Hl').
  { unfold TaskStatus_fields. rewrite 2!validate_fields_cons.
    rewrite (validate_field_passed _ (field "state" _ _) (VStr st))
      by (by simplify_map_eq).
    cbn [name annotation validate str_schema fst snd]. rewrite validate_str_run.
    cbn [fst snd].
    rewrite (validate_field_passed _ (field "timestamp" _ _) (VDatetime t))
      by (by simplify_map_eq).
    cbn [name annotation validate datetime_schema fst snd]. by run. }
  exists (VRef l'). eexists. cbn [validate model_schema]. unfold validate_model. run.
  cbn [deref fst snd]. rewrite Hl. run. rewrite Hnew. cbn [fst snd].
  split; [done|]. split; [by apply undisturbed_insert|].
  unfold read_TaskStatus, instance_attrs. cbn [heap set_heap].
  rewrite lookup_insert_eq. cbn. unfold read_str, read_datetime.
  by simplify_map_eq.
Qed.

Lemma read_Task_mono (h h' : gmap loc Obj) (v : Val) (t : Data.Task) :
  h ⊆ h' → read_Task h v = Some t → read_Task h' v = Some t.
Proof.
  intros Hh. unfold read_Task. intros H.
  destruct (instance_attrs h Task v) as [attrs|] eqn:Ha; [|done].
  rewrite (instance_attrs_mono _ _ _ _ _ Hh Ha). cbn [mbind option_bind] in *.
  destruct (read_str attrs "id"); [|done]. cbn [mbind option_bind] in *.
  destruct (attrs !! "status") as [vs|]; [|done]. cbn [mbind option_bind] in *.
  destruct (read_TaskStatus h vs) as [st|] eqn:Hst; [|done].
  rewrite (read_TaskStatus_mono _ _ _ _ Hh Hst). cbn [mbind option_bind] in *.
  destruct (attrs !! "history") as [vh|]; [|done]. cbn [mbind option_bind] in *.
  destruct (read_list h (read_Message h) vh) as [ms|] eqn:Hms; [|done].
  erewrite read_list_mono; [exact H | exact Hh | | exact Hms].
  intros x a. by apply read_Message_mono.
Qed.

Lemma read_Task_fresh (h : gmap loc Obj) (l lh : loc) (i : string) (vs : Val)
    (ys : list Val) (st : Data.TaskStatus) (ms : list Data.Message) :
  h !! l = Some (OInst Task {[ "id" := VStr i; "status" := vs; "history" := VRef lh ]}) →
  read_TaskStatus h vs = Some st →
  h !! lh = Some (OList ys) →
  Forall2 (λ y m, read_Message h y = Some m) ys ms →
  read_Task h (VRef l) = Some (Data.Build_Task i st ms).
Proof.
  intros Hl Hst Hlh Hys.
  assert (Hm : read_list h (read_Message h) (VRef lh) = Some ms).
  { unfold read_list. rewrite Hlh. by apply mapM_Some. }
  set (attrs := ({[ "id" := VStr i; "status" := vs; "history" := VRef lh ]}
                 : gmap string Val)) in *.
  assert (H1 : attrs !! "id" = Some (VStr i)) by (by unfold attrs; simplify_map_eq).
  assert (H2 : attrs !! "status" = Some vs) by (by unfold attrs; simplify_map_eq).
  assert (H3 : attrs !! "history" = Some (VRef lh)) by (by unfold attrs; simplify_map_eq).
  unfold read_Task, instance_attrs. rewrite Hl.
  cbn [issubclass bool_decide decide_rel mbind option_bind].
  rewrite bool_decide_eq_true_2 by done. cbn [mbind option_bind].
  unfold read_str. rewrite H1. cbn [mbind option_bind].
  rewrite H2. cbn [mbind option_bind]. rewrite Hst. cbn [mbind option_bind].
  rewrite H3. cbn [mbind option_bind]. by rewrite Hm.
Qed.

Lemma Task_init_dumped (kw : gmap string Val) (w : World) (t : Data.Task) :
  dumped_Task_kwargs (heap w) kw t → Data.valid_Task t →
  ∃ l' w', new Task kw w = (Ok l', w') ∧ undisturbed w w' ∧
           heap w !! l' = None ∧ read_Task (heap w') (VRef l') = Some t.
Proof.
  intros (vs & vh & -> & Hvs & lh & xs & -> & Hlh & Hxs) Hms.
  destruct t as [i st ms]. unfold Data.valid_Task in Hms. cbn in *.
  destruct (validate_TaskStatus_dumped w vs st Hvs) as (ys & w1 & Hys & Hw1 & Hst).
  destruct (validate_items_ok (validate (model_schema Message Message_fields))
              (λ h x m, dumped_Message h x m ∧ Data.valid_Message m)
              (λ h y m, read_Message h y = Some m)) with (xs := xs) (ds := ms) (i := 0%nat) (w := w1)
    as (yms & w2 & Hyms & Hw2 & Hread).
  { intros h h' x a Hh [? ?]. split; [by eapply dumped_Message_mono | done]. }
  { intros h h' y a. apply read_Message_mono. }
  { intros w0 x a. apply validate_Message_dumped. }
  { eapply Forall2_impl; [by apply Forall2_with_Forall_r|].
    cbn. intros x m [Hx Hm]. split; [|done].
    eapply dumped_Message_mono; [|exact Hx]. by apply undisturbed_heap. }
  assert (Hlh1 : heap w1 !! lh = Some (OList xs))
    by (eapply lookup_weaken; [exact Hlh | by apply undisturbed_heap]).
  destruct (validate_list_ok _ lh xs yms w1 w2 Hlh1 Hyms) as (lh' & Hlist & Hlh').
  set (w3 := set_heap (<[lh' := OList yms]> (heap w2)) w2) in *.
  assert (Hw3 : undisturbed w2 w3) by (by apply undisturbed_insert).
  set (kw := ({[ "id" := VStr i; "status" := vs; "history" := VRef lh ]} : gmap string Val)) in *.
  set (attrs := ({[ "id" := VStr i; "status" := ys; "history" := VRef lh' ]} : gmap string Val)).
  assert (Hrun : validate_fields kw Task_fields w = (Ok attrs, w3)).
  { unfold Task_fields. rewrite 3!validate_fields_cons.
    rewrite (validate_field_passed kw (field "id" _ _) (VStr i)) by apply lookup_insert_eq.
    cbn [name annotation validate str_schema fst snd]. rewrite validate_str_run.
    cbn [fst snd].
    rewrite (validate_field_passed kw (field "status" _ _) vs)
      by (unfold kw; rewrite lookup_insert_ne by done; apply lookup_insert_eq).
    cbn [name annotation fst snd]. rewrite Hys. cbn [fst snd].
    rewrite (validate_field_passed kw (field "history" _ _) (VRef lh))
      by (unfold kw; rewrite !lookup_insert_ne by done; apply lookup_singleton_eq).
    cbn [name annotation validate list_schema fst snd]. rewrite Hlist. by run. }
  destruct (BaseModel_init_ok Task _ _ _ _ _ Hrun) as (l' & Hnew & Hl').
  set (w4 := set_heap (<[l' := OInst Task attrs]> (heap w3)) w3) in *.
  assert (Hw4 : undisturbed w3 w4) by (by apply undisturbed_insert).
  assert (Hw04 : undisturbed w w4).
  { etrans; [exact Hw1|]. etrans; [exact Hw2|]. by etrans. }
  exists l', w4. split; [exact Hnew|]. split; [exact Hw04|]. split.
  { destruct (heap w !! l') eqn:E; [|done].
    eapply lookup_weaken in E;
      [|etrans; [apply (undisturbed_heap _ _ Hw1)|];
        etrans; [apply (undisturbed_heap _ _ Hw2) | apply (undisturbed_heap _ _ Hw3)]].
    congruence. }
  apply read_Task_fresh with lh' ys yms.
  - cbn [w4 heap set_heap]. apply lookup_insert_eq.
  - eapply read_TaskStatus_mono; [|exact Hst].
    etrans; [apply (undisturbed_heap _ _ Hw2)|].
    etrans; [apply (undisturbed_heap _ _ Hw3) | apply (undisturbed_heap _ _ Hw4)].
  - eapply lookup_weaken; [|apply (undisturbed_heap _ _ Hw4)].
    cbn [w3 heap set_heap]. apply lookup_insert_eq.
  - eapply Forall2_impl; [exact Hread|]. intros y m. cbn.
    apply read_Message_mono.
    etrans; [apply (undisturbed_heap _ _ Hw3) | apply (undisturbed_heap _ _ Hw4)].
Qed.

(** ** Round trip *)

(** C7: a valid Task dumped to its field dictionary and constructed again
    from that dictionary gives a new Task that reads back as the same
    data: same id, same state and timestamp of the status, same messages
    with the same parts in the same order; the original is untouched. *)
Theorem Task_round_trip (w : World) (l : loc) (t : Data.Task) :
  read_Task (heap w) (VRef l) = Some t →
  Data.valid_Task t →
  ∃ ld kw w1 l' w2,
    model_dump Task l w = (Some (VRef ld), w1) ∧
    heap w1 !! ld = Some (ODict kw) ∧
    new Task kw w1 = (Ok l', w2) ∧
    read_Task (heap w2) (VRef l') = Some t ∧
    read_Task (heap w2) (VRef l) = Some t ∧
    l' ≠ l.
Proof.
  intros Hr Hv.
  destruct (model_dump_Task w l t Hr Hv) as (ld & kw & w1 & Hdump & Hw1 & _ & Hld & Hkw).
  destruct (Task_init_dumped kw w1 t Hkw Hv) as (l' & w2 & Hnew & Hw2 & Hl' & Hread).
  exists ld, kw, w1, l', w2. repeat split; try done.
  - eapply read_Task_mono; [|exact Hr].
    etrans; apply undisturbed_heap; eassumption.
  - intros ->. unfold read_Task, instance_attrs in Hr.
    destruct (heap w !! l) as [o|] eqn:E; [|done].
    eapply lookup_weaken in E; [|apply (undisturbed_heap _ _ Hw1)]. congruence.
Qed.


(** * Further properties of the models *)

(** ** Every field, every class *)

Lemma model_fields_grow (c : Class) : Forall (FieldInfo_keeps extends) (model_fields c).
Proof.
  apply (model_fields_keep extends _ extends_alloc);
    auto using grows_datetime_now, grows_uuid4_hex.
Qed.

Lemma field_names_NoDup (c : Class) : NoDup (field_names c).
Proof. destruct c; apply (bool_decide_unpack _); by vm_compute. Qed.

Lemma BaseModel_init_Ok_inv (c : Class) (fs : list FieldInfo) (kw : gmap string Val)
    (w w' : World) (l : loc) :
  BaseModel_init c fs kw w = (Ok l, w') →
  ∃ attrs w1, validate_fields kw fs w = (Ok attrs, w1) ∧
              heap w1 !! l = None ∧
              w' = set_heap (<[l := OInst c attrs]> (heap w1)) w1.
Proof.
  unfold BaseModel_init. rewrite run_bind.
  destruct (validate_fields kw fs w) as [[attrs|es] w1] eqn:Hv; cbn [fst snd].
  - rewrite run_bind, run_ret. intros [= <- <-]. exists attrs, w1.
    split; [done|]. split; [apply not_elem_of_dom, is_fresh | done].
  - by rewrite run_ret.
Qed.

(** The attributes of a validated field set: one per declared field, each
    the outcome of validating that field in some world between the start
    and the end of the construction. *)
Lemma validate_fields_attrs (kw : gmap string Val) (fs : list FieldInfo)
    (w w' : World) (attrs : gmap string Val) :
  Forall (FieldInfo_keeps extends) fs →
  NoDup (name <$> fs) →
  validate_fields kw fs w = (Ok attrs, w') →
  dom attrs = list_to_set (name <$> fs) ∧
  ∀ f, f ∈ fs →
    ∃ w1 v, extends w w1 ∧ extends (validate_field kw f w1).2 w' ∧
            (validate_field kw f w1).1 = Ok v ∧ attrs !! name f = Some v.
Proof.
  intros Hfs. revert w attrs.
  induction Hfs as [|f fs Hf Hfs IH]; intros w attrs Hnd Hrun.
  - cbn in Hrun. injection Hrun as <- <-. split; [by rewrite dom_empty_L|].
    intros f Hin. by apply elem_of_nil in Hin.
  - rewrite validate_fields_cons in Hrun. injection Hrun as Hboth Hw'.
    apply both_Ok in Hboth as (v & m & Hv & Hm & ->).
    cbn [fmap list_fmap] in Hnd. apply NoDup_cons in Hnd as [Hnotin Hnd].
    destruct (IH (validate_field kw f w).2 m Hnd) as [Hdom Hall].
    { rewrite <- Hw', <- Hm. by destruct (validate_fields kw fs _). }
    assert (Hgf : extends w (validate_field kw f w).2)
      by (by apply (validate_field_keeps extends _)).
    assert (Hgr : extends (validate_field kw f w).2 w').
    { rewrite <- Hw'.
      by apply (validate_fields_keeps extends _ kw fs). }
    split.
    { rewrite dom_insert_L, Hdom. done. }
    intros g Hg. apply elem_of_cons in Hg as [->|Hg].
    + exists w, v. split; [done|]. split; [done|]. split; [done|].
      apply lookup_insert_eq.
    + destruct (Hall g Hg) as (w1 & x & H1 & H2 & H3 & H4).
      exists w1, x. split; [by etrans|]. split; [done|]. split; [done|].
      rewrite lookup_insert_ne; [done|]. intros Heq. apply Hnotin.
      rewrite Heq. apply list_elem_of_fmap. eauto.
Qed.

(** X1: in every class, leaving out a field declared without a default
    raises ValidationError with an error at that field, whatever else is
    passed: [text]; [role], [parts]; [state]; [id], [status], [history];
    [id]; [id]; [id], [message]. *)
Theorem required_field_missing (c : Class) (kw : gmap string Val) (n : string) (w : World) :
  n ∈ required_fields c →
  kw !! n = None →
  fails_at (new c kw w).1 [Attr n] ∧
  required_fields c =
    match c with
    | TextPart => ["text"]
    | Message => ["role"; "parts"]
    | TaskStatus => ["state"]
    | Task => ["id"; "status"; "history"]
    | TaskIdParams | TaskQueryParams => ["id"]
    | TaskSendParams => ["id"; "message"]
    end.
Proof.
  intros Hn Hkw. split; [|by destruct c].
  unfold required_fields in Hn.
  apply list_elem_of_fmap in Hn as (f & -> & Hf).
  apply list_elem_of_filter in Hf as [Hreq Hf].
  apply new_fails with f; [done|]. intros w0.
  rewrite validate_field_omitted by done.
  unfold is_required in Hreq. destruct (default f); try done.
  eexists. split; [done|]. apply list_elem_of_here.
Qed.

Lemma validate_fields_ext (kw kw' : gmap string Val) (fs : list FieldInfo) (w : World) :
  (∀ f, f ∈ fs → kw !! name f = kw' !! name f) →
  validate_fields kw fs w = validate_fields kw' fs w.
Proof.
  revert w. induction fs as [|f fs IH]; intros w Hkw; [done|].
  rewrite !validate_fields_cons.
  assert (Hf : validate_field kw f w = validate_field kw' f w).
  { unfold validate_field. rewrite (Hkw f) by apply list_elem_of_here. done. }
  rewrite Hf, IH; [done|]. intros g Hg. apply Hkw. by apply list_elem_of_further.
Qed.

(** X2: keyword arguments that name no field of the class are ignored:
    two argument sets that agree on the declared fields give the same
    outcome, instance or errors, and the same world. *)
Theorem undeclared_arguments_ignored (c : Class) (kw kw' : gmap string Val) (w : World) :
  (∀ n, n ∈ field_names c → kw !! n = kw' !! n) →
  new c kw w = new c kw' w.
Proof.
  intros Hkw. unfold new, BaseModel_init. rewrite !run_bind.
  rewrite (validate_fields_ext kw kw'); [done|].
  intros f Hf. apply Hkw. unfold field_names. apply list_elem_of_fmap. eauto.
Qed.

(** X3: what a successful construction returns is a new object of the
    class called, with exactly the declared fields as attributes, none
    missing and none added; every object that existed is still there. *)
Theorem instance_has_declared_fields (c : Class) (kw : gmap string Val)
    (w w' : World) (l : loc) :
  new c kw w = (Ok l, w') →
  heap w !! l = None ∧
  extends w w' ∧
  ∃ attrs, heap w' !! l = Some (OInst c attrs) ∧
           dom attrs = list_to_set (field_names c) ∧
           ∀ n, n ∈ field_names c ↔ is_Some (getattr (heap w') l n).
Proof.
  intros Hnew. pose proof (new_grows c kw w) as Hg. rewrite Hnew in Hg.
  apply BaseModel_init_Ok_inv in Hnew as (attrs & w1 & Hrun & Hl & ->).
  destruct (validate_fields_attrs kw _ w w1 attrs (model_fields_grow c)
              (field_names_NoDup c) Hrun) as [Hdom _].
  split.
  { destruct (heap w !! l) eqn:E; [|done].
    eapply lookup_weaken in E;
      [|apply (validate_fields_keeps extends _ kw (model_fields c) (model_fields_grow c) w)].
    rewrite Hrun in E. cbn in E. congruence. }
  split; [exact Hg|]. exists attrs. cbn [heap set_heap].
  split; [apply lookup_insert_eq|]. split; [exact Hdom|].
  intros n. rewrite getattr_insert, <- elem_of_dom, Hdom. by rewrite elem_of_list_to_set.
Qed.


(** ** TextPart, exactly *)

(** X4: [TextPart] is constructed exactly when [type] is omitted or is the
    string "text" and [text] is a string or UTF-8 bytes; the instance then
    holds [type = "text"] and the text as a string (bytes decoded), and is
    the only change to the world.  Otherwise ValidationError is raised and
    the world is left as it was. *)
Theorem TextPart_constructed_exactly (kw : gmap string Val) (w : World) :
  match TextPart_kwargs kw with
  | Some s =>
    ∃ l, new TextPart kw w =
           (Ok l, set_heap (<[l := OInst TextPart
                                    {[ "type" := VStr "text"; "text" := VStr s ]}]>
                              (heap w)) w) ∧
         heap w !! l = None
  | None =>
    ∃ es loc, new TextPart kw w = (ValidationError es, w) ∧ loc ∈ es
  end.
Proof.
  pose proof (TextPart_kwargs_fields kw w) as Hrun.
  destruct (TextPart_kwargs kw) as [s|] eqn:Hk.
  - destruct (BaseModel_init_ok TextPart _ _ _ _ _ Hrun) as (l & Hnew & Hl).
    by exists l.
  - destruct (TextPart_kwargs_rejected kw w Hk) as (loc & es & Hes & Hin).
    exists es, loc. split; [|done].
    unfold new, BaseModel_init. cbn [model_fields]. rewrite run_bind.
    rewrite Hrun in Hes |- *. cbn [fst snd] in *. rewrite Hes. by rewrite run_ret.
Qed.

(** ** TaskStatus with a timestamp *)

(** X5: a TaskStatus given a datetime as [timestamp] holds that datetime
    and is the only change to the world: the default factory is not
    called, the clock is not read.  None as [timestamp], or a list, dict
    or instance, raises ValidationError at [timestamp]. *)
Theorem TaskStatus_explicit_timestamp (kw : gmap string Val) (v : Val) (s : string) (w : World) :
  kw !! "state" = Some v →
  str_reading v = Some s →
  (∀ t, kw !! "timestamp" = Some (VDatetime t) →
     ∃ l, new TaskStatus kw w =
            (Ok l, set_heap (<[l := OInst TaskStatus
                                     {[ "state" := VStr s; "timestamp" := VDatetime t ]}]>
                               (heap w)) w) ∧
          heap w !! l = None) ∧
  (∀ x, kw !! "timestamp" = Some x → x = VNone ∨ (∃ r, x = VRef r) →
     fails_at (new TaskStatus kw w).1 [Attr "timestamp"]).
Proof.
  intros Hst Hs. split.
  - intros t Ht.
    unfold new. cbn [model_fields]. apply BaseModel_init_ok.
    unfold TaskStatus_fields. rewrite 2!validate_fields_cons.
    rewrite (validate_field_passed kw (field "state" _ _) v) by exact Hst.
    cbn [name annotation validate str_schema fst snd]. rewrite validate_str_run.
    cbn [fst snd]. rewrite Hs.
    rewrite (validate_field_passed kw (field "timestamp" _ _) (VDatetime t)) by exact Ht.
    cbn [name annotation validate datetime_schema fst snd]. by run.
  - intros x Hx Hbad.
    apply new_fails with (field "timestamp" datetime_schema
                            (DefaultFactory (t ← datetime_now; mret (VDatetime t)))).
    { cbn [model_fields]. unfold TaskStatus_fields.
      apply list_elem_of_further, list_elem_of_here. }
    intros w0. rewrite (validate_field_passed kw _ x) by exact Hx.
    cbn [name annotation validate datetime_schema fst snd]. rewrite validate_datetime_run.
    cbn [fst]. destruct Hbad as [->|[r ->]]; cbn;
      (eexists; split; [done|]; apply list_elem_of_here).
Qed.

(** ** TaskSendParams with a sessionId *)

(** X6: a TaskSendParams given a [sessionId] holds it (as a string) and
    its construction consults neither the random source nor the clock: no
    identifier is generated. *)
Theorem TaskSendParams_explicit_sessionId (kw : gmap string Val) (v : Val)
    (w w' : World) (l : loc) :
  kw !! "sessionId" = Some v →
  new TaskSendParams kw w = (Ok l, w') →
  ∃ s, str_reading v = Some s ∧
       getattr (heap w') l "sessionId" = Some (VStr s) ∧
       entropy_drawn w' = entropy_drawn w ∧
       clock_reads w' = clock_reads w.
Proof.
  intros Hsid Hnew.
  unfold new, BaseModel_init, model_fields, TaskSendParams_fields in Hnew.
  rewrite run_bind, 2!validate_fields_cons in Hnew. cbn [fst snd name] in Hnew.
  rewrite (validate_field_passed kw (field "sessionId" _ _) v) in Hnew by exact Hsid.
  cbn [name annotation validate str_schema fst snd] in Hnew.
  rewrite validate_str_run in Hnew. cbn [fst snd] in Hnew.
  set (wa := (validate_field kw (field "id" str_schema Required) w).2) in *.
  assert (Hwa : wa = w).
  { unfold wa, validate_field. cbn [name annotation default].
    destruct (kw !! "id"); by run. }
  set (rid := (validate_field kw (field "id" str_schema Required) w).1) in *.
  rewrite Hwa in Hnew. clear wa Hwa.
  pose proof (TaskSendParams_rest_undisturbed kw w) as Hrest.
  set (rest := validate_fields kw _ w) in *.
  destruct rest as [rr wc]. cbn [fst snd] in *.
  destruct (both _ rid _) as [attrs|es] eqn:Hboth; [|by rewrite run_ret in Hnew].
  apply both_Ok in Hboth as (x & m' & _ & Hm' & ->).
  apply both_Ok in Hm' as (sid & m & Hsid' & _ & ->).
  destruct (str_reading v) as [s|]; [|done]. cbn in Hsid'. injection Hsid' as <-.
  rewrite run_bind, run_ret in Hnew. injection Hnew as <- <-.
  exists s. split; [done|].
  cbn [alloc fst snd heap set_heap entropy_drawn clock_reads].
  rewrite getattr_insert. split; [by simplify_map_eq|].
  destruct Hrest as [_ Hr Hd]. by rewrite Hr, Hd.
Qed.

(** ** The marks of a version-4 UUID *)

Local Open Scope Z_scope.

Lemma hex_digits_get (k j : nat) (i : Z) :
  (j < k)%nat →
  String.get j (hex_digits k i) =
  Some (hex_digit (Z.land (Z.shiftr i (4 * Z.of_nat (k - 1 - j))) 15)).
Proof.
  revert j. induction k as [|k IH]; intros j Hj; [lia|].
  cbn [hex_digits String.get]. destruct j as [|j].
  - by replace (S k - 1 - 0)%nat with k by lia.
  - rewrite IH by lia. by replace (S k - 1 - S j)%nat with (k - 1 - j)%nat by lia.
Qed.

Lemma UUID_version4_version_nibble (i : Z) :
  Z.land (Z.shiftr (UUID_version4 i) 76) 15 = 4.
Proof.
  rewrite UUID_version4_split. unfold random_bits.
  rewrite Z.shiftr_lor, Z.land_lor_distr_l, Z.shiftr_land, <- Z.land_assoc.
  replace (Z.land (Z.shiftr (Z.lnot _) 76) 15) with 0 by (by vm_compute).
  rewrite Z.land_0_r. by vm_compute.
Qed.

Lemma UUID_version4_variant_nibble (i : Z) :
  8 ≤ Z.land (Z.shiftr (UUID_version4 i) 60) 15 ≤ 11.
Proof.
  rewrite UUID_version4_split. unfold random_bits.
  rewrite Z.shiftr_lor, Z.land_lor_distr_l, Z.shiftr_land, <- Z.land_assoc.
  replace (Z.land (Z.shiftr (Z.lnot _) 60) 15) with (Z.ones 2) by (by vm_compute).
  replace (Z.land (Z.shiftr fixed_bits 60) 15) with 8 by (by vm_compute).
  rewrite Z.land_ones by lia.
  pose proof (Z.mod_pos_bound (Z.shiftr i 60) (2 ^ 2) eq_refl) as Hb.
  change (2 ^ 2) with 4 in *.
  assert (Hx : Z.shiftr i 60 mod 4 = 0 ∨ Z.shiftr i 60 mod 4 = 1 ∨
               Z.shiftr i 60 mod 4 = 2 ∨ Z.shiftr i 60 mod 4 = 3) by lia.
  destruct Hx as [-> | [-> | [-> | ->]]]; by vm_compute.
Qed.

Local Close Scope Z_scope.

(** X7: a generated [sessionId] carries the marks of a version-4, RFC 4122
    UUID whatever the random bytes are: its 13th character is 4 and its
    17th is 8, 9, a or b. *)
Theorem TaskSendParams_sessionId_marks (kw : gmap string Val) (w w' : World) (l : loc) :
  kw !! "sessionId" = None →
  new TaskSendParams kw w = (Ok l, w') →
  ∃ s c, getattr (heap w') l "sessionId" = Some (VStr s) ∧
         String.get 12 s = Some "4"%char ∧
         String.get 16 s = Some c ∧
         c ∈ ["8"; "9"; "a"; "b"]%char.
Proof.
  intros Hsid Hnew.
  destruct (TaskSendParams_sessionId_drawn kw w w' l Hsid Hnew) as (Hs & _ & _).
  rewrite uuid4_hex_run in Hs. cbn [fst] in Hs.
  set (i := int_from_bytes _) in Hs.
  eexists _, _. split; [exact Hs|]. unfold UUID_hex.
  rewrite !hex_digits_get by lia.
  change (4 * Z.of_nat (32 - 1 - 12))%Z with 76%Z.
  change (4 * Z.of_nat (32 - 1 - 16))%Z with 60%Z.
  rewrite UUID_version4_version_nibble. split; [done|]. split; [done|].
  pose proof (UUID_version4_variant_nibble i) as Hv.
  set (n := Z.land (Z.shiftr (UUID_version4 i) 60) 15) in *.
  assert (Hn : (n = 8 ∨ n = 9 ∨ n = 10 ∨ n = 11)%Z) by lia.
  clear Hv.
  destruct Hn as [-> | [-> | [-> | ->]]]; vm_compute;
    repeat first [apply list_elem_of_here | apply list_elem_of_further].
Qed.


(** ** Dumping and validating again, class by class *)

Lemma BaseModel_init_fresh (c : Class) (fs : list FieldInfo) (kw : gmap string Val)
    (w w' : World) (l : loc) :
  Forall (FieldInfo_keeps extends) fs →
  BaseModel_init c fs kw w = (Ok l, w') → heap w !! l = None.
Proof.
  intros Hfs Hnew.
  apply BaseModel_init_Ok_inv in Hnew as (attrs & w1 & Hrun & Hl & _).
  eapply lookup_weaken_None; [exact Hl|].
  pose proof (validate_fields_keeps extends _ kw fs Hfs w) as Hg.
  rewrite Hrun in Hg. apply Hg.
Qed.

(** A dict given where a model is expected becomes a new instance. *)
Lemma validate_model_dict_fresh (c : Class) (fs : list FieldInfo) (l : loc)
    (d : gmap string Val) (w w' : World) (v : Val) :
  Forall (FieldInfo_keeps extends) fs →
  heap w !! l = Some (ODict d) →
  validate_model c fs (VRef l) w = (Ok v, w') →
  ∃ l', v = VRef l' ∧ heap w !! l' = None ∧ BaseModel_init c fs d w = (Ok l', w').
Proof.
  intros Hfs Hl. unfold validate_model. rewrite run_bind. cbn [deref fst snd].
  rewrite Hl, run_bind.
  destruct (BaseModel_init c fs d w) as [[l'|es] w1] eqn:E; cbn [fst snd];
    rewrite run_ret; intros [= <- <-].
  exists l'. split; [done|]. split; [|done]. by eapply BaseModel_init_fresh.
Qed.

(** X8: a TextPart whose [type] is "text", dumped with [model_dump] and
    validated again with [model_validate], gives a new TextPart with the
    same type and text; the original is untouched, and neither the clock
    nor the random source is consulted. *)
Theorem TextPart_round_trip (w : World) (l : loc) (p : Data.TextPart) :
  read_TextPart (heap w) (VRef l) = Some p →
  Data.valid_TextPart p →
  ∃ ld w1 l' w2,
    model_dump TextPart l w = (Some (VRef ld), w1) ∧
    model_validate TextPart (VRef ld) w1 = (Ok (VRef l'), w2) ∧
    read_TextPart (heap w2) (VRef l') = Some p ∧
    read_TextPart (heap w2) (VRef l) = Some p ∧
    l' ≠ l ∧
    undisturbed w w2.
Proof.
  intros Hr Hv.
  destruct (serialize_TextPart w (VRef l) p (conj Hr Hv)) as (v' & w1 & Hdump & Hw1 & Hd).
  destruct (validate_Part_valid w1 v' (dumped_TextPart_valid _ _ _ Hd Hv))
    as (y & w2 & Hval & Hw2 & Hb).
  pose proof (undisturbed_heap _ _ Hw1) as H1.
  pose proof (undisturbed_heap _ _ Hw2) as H2.
  assert (Hread : read_TextPart (heap w2) y = Some p).
  { eapply dumped_TextPart_built; [|exact Hv|exact Hb].
    by eapply dumped_TextPart_mono. }
  destruct Hd as (ld & -> & Hld).
  destruct (validate_model_dict_fresh Part TextPart_fields ld _ w1 w2 y
              (model_fields_grow TextPart) Hld Hval) as (l' & -> & Hl' & _).
  exists ld, w1, l', w2. split; [exact Hdump|]. split; [exact Hval|].
  split; [exact Hread|]. split; [|split; [|by etrans]].
  - eapply read_TextPart_mono; [|exact Hr]. by etrans.
  - intros ->. unfold read_TextPart, instance_attrs in Hr.
    destruct (heap w !! l) as [o|] eqn:E; [|done].
    eapply lookup_weaken in E; [|exact H1]. congruence.
Qed.

(** X9: a Message with role user or agent and parts of type "text",
    dumped and validated again, gives a new Message with the same role
    and the same parts in the same order; the original is untouched. *)
Theorem Message_round_trip (w : World) (l : loc) (m : Data.Message) :
  read_Message (heap w) (VRef l) = Some m →
  Data.valid_Message m →
  ∃ ld w1 l' w2,
    model_dump Message l w = (Some (VRef ld), w1) ∧
    model_validate Message (VRef ld) w1 = (Ok (VRef l'), w2) ∧
    read_Message (heap w2) (VRef l') = Some m ∧
    read_Message (heap w2) (VRef l) = Some m ∧
    l' ≠ l ∧
    undisturbed w w2.
Proof.
  intros Hr Hv.
  destruct (serialize_Message w (VRef l) m (conj Hr Hv)) as (v' & w1 & Hdump & Hw1 & Hd).
  destruct (validate_Message_dumped w1 v' m (conj Hd Hv)) as (y & w2 & Hval & Hw2 & Hread).
  pose proof (undisturbed_heap _ _ Hw1) as H1.
  pose proof (undisturbed_heap _ _ Hw2) as H2.
  destruct Hd as (ld & d & -> & Hld & _).
  destruct (validate_model_dict_fresh Message Message_fields ld _ w1 w2 y
              (model_fields_grow Message) Hld Hval) as (l' & -> & Hl' & _).
  exists ld, w1, l', w2. split; [exact Hdump|]. split; [exact Hval|].
  split; [exact Hread|]. split; [|split; [|by etrans]].
  - eapply read_Message_mono; [|exact Hr]. by etrans.
  - intros ->. unfold read_Message, instance_attrs in Hr.
    destruct (heap w !! l) as [o|] eqn:E; [|done].
    eapply lookup_weaken in E; [|exact H1]. congruence.
Qed.

(** X10: any TaskStatus, dumped and validated again, gives a new
    TaskStatus with the same state and the same timestamp: the timestamp
    is carried over, the clock is not read again. *)
Theorem TaskStatus_round_trip (w : World) (l : loc) (s : Data.TaskStatus) :
  read_TaskStatus (heap w) (VRef l) = Some s →
  ∃ ld w1 l' w2,
    model_dump TaskStatus l w = (Some (VRef ld), w1) ∧
    model_validate TaskStatus (VRef ld) w1 = (Ok (VRef l'), w2) ∧
    read_TaskStatus (heap w2) (VRef l') = Some s ∧
    read_TaskStatus (heap w2) (VRef l) = Some s ∧
    l' ≠ l ∧
    clock_reads w2 = clock_reads w.
Proof.
  intros Hr.
  destruct (serialize_TaskStatus w (VRef l) s Hr) as (v' & w1 & Hdump & Hw1 & Hd).
  destruct (validate_TaskStatus_dumped w1 v' s Hd) as (y & w2 & Hval & Hw2 & Hread).
  pose proof (undisturbed_heap _ _ Hw1) as H1.
  pose proof (undisturbed_heap _ _ Hw2) as H2.
  destruct Hd as (ld & -> & Hld).
  destruct (validate_model_dict_fresh TaskStatus TaskStatus_fields ld _ w1 w2 y
              (model_fields_grow TaskStatus) Hld Hval) as (l' & -> & Hl' & _).
  exists ld, w1, l', w2. split; [exact Hdump|]. split; [exact Hval|].
  split; [exact Hread|]. split; [|split].
  - eapply read_TaskStatus_mono; [|exact Hr]. by etrans.
  - intros ->. unfold read_TaskStatus, instance_attrs in Hr.
    destruct (heap w !! l) as [o|] eqn:E; [|done].
    eapply lookup_weaken in E; [|exact H1]. congruence.
  - destruct Hw1 as [_ Hc1 _], Hw2 as [_ Hc2 _]. congruence.
Qed.


(** ** Defaults and missing arguments *)

(** X11: a field declared with a default value and left out of the call
    holds that value in the instance: "text" for [TextPart.type], None
    for [metadata] and [historyLength] of the parameter classes. *)
Theorem omitted_field_takes_default (c : Class) (kw : gmap string Val) (n : string)
    (v : Val) (w w' : World) (l : loc) :
  (n, v) ∈ default_values c →
  kw !! n = None →
  new c kw w = (Ok l, w') →
  getattr (heap w') l n = Some v ∧
  default_values c =
    match c with
    | TextPart => [("type", VStr "text")]
    | TaskIdParams => [("metadata", VNone)]
    | TaskQueryParams => [("metadata", VNone); ("historyLength", VNone)]
    | TaskSendParams => [("historyLength", VNone); ("metadata", VNone)]
    | Message | TaskStatus | Task => []
    end.
Proof.
  intros Hn Hkw Hnew. split; [|by destruct c].
  apply list_elem_of_omap in Hn as (f & Hf & Hd).
  destruct (default f) as [|v0|] eqn:Hdef; try done. injection Hd as <- <-.
  apply BaseModel_init_Ok_inv in Hnew as (attrs & w1 & Hrun & _ & ->).
  destruct (validate_fields_attrs kw _ w w1 attrs (model_fields_grow c)
              (field_names_NoDup c) Hrun) as [_ Hall].
  destruct (Hall f Hf) as (w0 & x & _ & _ & Hx & Hlook).
  rewrite validate_field_omitted, Hdef in Hx by done. cbn in Hx. injection Hx as <-.
  cbn [heap set_heap]. by rewrite getattr_insert.
Qed.

Lemma validate_fields_none (kw : gmap string Val) (fs : list FieldInfo) (w : World) :
  (∀ f, f ∈ fs → kw !! name f = None) →
  match (validate_fields kw fs w).1 with
  | Ok _ => filter (λ f, is_required f = true) fs = []
  | ValidationError es =>
    es = (λ f, [Attr (name f)]) <$> filter (λ f, is_required f = true) fs ∧ es ≠ []
  end.
Proof.
  revert w. induction fs as [|f fs IH]; intros w Hkw; [done|].
  rewrite validate_fields_cons, validate_field_omitted
    by apply Hkw, list_elem_of_here.
  destruct (default f) as [|v|g] eqn:Hdef; cbn [fst snd].
  - rewrite filter_cons_True by (unfold is_required; by rewrite Hdef).
    specialize (IH w (λ g Hg, Hkw g (list_elem_of_further _ _ _ Hg))).
    destruct (validate_fields kw fs w).1 as [m|es]; cbn [both].
    + rewrite IH. by split.
    + destruct IH as [-> _]. by split.
  - rewrite filter_cons_False by (unfold is_required; by rewrite Hdef).
    specialize (IH w (λ g Hg, Hkw g (list_elem_of_further _ _ _ Hg))).
    by destruct (validate_fields kw fs w).1 as [m|es].
  - rewrite filter_cons_False by (unfold is_required; by rewrite Hdef).
    specialize (IH (g w).2 (λ g Hg, Hkw g (list_elem_of_further _ _ _ Hg))).
    by destruct (validate_fields kw fs (g w).2).1 as [m|es].
Qed.

(** X12: no class can be called without arguments: when none of the
    declared fields is passed, ValidationError is raised, and its errors
    are exactly the fields declared without a default, one error each, in
    declaration order. *)
Theorem no_arguments_all_required_reported (c : Class) (kw : gmap string Val) (w : World) :
  (∀ n, n ∈ field_names c → kw !! n = None) →
  (new c kw w).1 = ValidationError ((λ n, [Attr n]) <$> required_fields c) ∧
  required_fields c ≠ [].
Proof.
  intros Hkw. split; [|by destruct c].
  pose proof (validate_fields_none kw (model_fields c) w) as Hrun.
  unfold new, BaseModel_init. rewrite run_bind.
  destruct (validate_fields kw (model_fields c) w) as [[m|es] w1]; cbn [fst snd] in *.
  - exfalso. assert (Hreq : required_fields c = []).
    { unfold required_fields. rewrite Hrun; [done|].
      intros f Hf. apply Hkw. unfold field_names. apply list_elem_of_fmap. eauto. }
    by destruct c.
  - rewrite run_ret. cbn [fst]. destruct Hrun as [-> _].
    { intros f Hf. apply Hkw. unfold field_names. apply list_elem_of_fmap. eauto. }
    unfold required_fields. by rewrite <- list_fmap_compose.
Qed.


(** ** Errors below the top level *)

Lemma validate_fields_fails_from (kw : gmap string Val) (fs : list FieldInfo)
    (f : FieldInfo) loc (w : World) :
  Forall (FieldInfo_keeps extends) fs →
  f ∈ fs →
  (∀ w', extends w w' → fails_at (validate_field kw f w').1 loc) →
  fails_at (validate_fields kw fs w).1 loc.
Proof.
  intros Hfs Hin. revert w.
  induction Hin as [f fs | f g fs Hin IH]; intros w Hf;
    rewrite validate_fields_cons; cbn [fst];
    apply Forall_cons in Hfs as [Hg Hfs].
  - apply fails_at_both_l, Hf. done.
  - apply fails_at_both_r, IH; [done|]. intros w' Hw'. apply Hf.
    etrans; [|exact Hw']. by apply (validate_field_keeps extends _).
Qed.

Lemma new_fails_from (c : Class) (kw : gmap string Val) (f : FieldInfo) loc (w : World) :
  f ∈ model_fields c →
  (∀ w', extends w w' → fails_at (validate_field kw f w').1 loc) →
  fails_at (new c kw w).1 loc.
Proof.
  intros Hin Hf. apply BaseModel_init_fails.
  by apply validate_fields_fails_from with f; [apply model_fields_grow|..].
Qed.

Lemma field_fails_at (c : Class) (kw : gmap string Val) (f : FieldInfo) (x : Val)
    loc (w : World) :
  f ∈ model_fields c →
  kw !! name f = Some x →
  (∀ w', extends w w' → fails_at (validate (annotation f) x w').1 loc) →
  fails_at (new c kw w).1 (Attr (name f) :: loc).
Proof.
  intros Hin Hx Hf. apply new_fails_from with f; [done|]. intros w' Hw'.
  rewrite (validate_field_passed kw f x) by done. cbn [fst].
  by apply fails_at_loc, Hf.
Qed.

Lemma validate_items_fails_at (item : Validator) (xs : list Val) (i j : nat)
    (x : Val) (w : World) loc :
  (∀ v, grows (item v)) →
  xs !! j = Some x →
  (∀ w', extends w w' → fails_at (item x w').1 loc) →
  fails_at (validate_items item i xs w).1 (Idx (i + j) :: loc).
Proof.
  intros Hg. revert i j w.
  induction xs as [|y xs IH]; intros i j w Hj Hx; [done|].
  cbn [validate_items]. run. destruct j as [|j]; simplify_eq/=.
  - apply fails_at_both_l. rewrite Nat.add_0_r. by apply fails_at_loc, Hx.
  - replace (i + S j)%nat with (S i + j)%nat by lia.
    apply fails_at_both_r, IH; [done|].
    intros w' Hw'. apply Hx. etrans; [apply Hg | done].
Qed.

Lemma is_dict_mono (h h' : gmap loc Obj) (x : Val) :
  h ⊆ h' → allocated h x → is_dict h' x = is_dict h x.
Proof.
  intros Hh Hx. destruct x as [| | | | | |l]; try done. cbn in *.
  destruct Hx as [o Ho]. by rewrite Ho, (lookup_weaken _ _ _ _ Ho Hh).
Qed.

Lemma is_instance_mono (h h' : gmap loc Obj) (c : Class) (x : Val) :
  h ⊆ h' → allocated h x → is_instance h' c x = is_instance h c x.
Proof.
  intros Hh Hx. destruct x as [| | | | | |l]; try done. cbn in *.
  destruct Hx as [o Ho]. by rewrite Ho, (lookup_weaken _ _ _ _ Ho Hh).
Qed.

(** ** metadata *)

Lemma validate_dict_run (r : loc) (d : gmap string Val) (w : World) :
  heap w !! r = Some (ODict d) →
  validate_dict_str_any (VRef r) w =
  (Ok (VRef (alloc (ODict d) w).1), (alloc (ODict d) w).2).
Proof.
  intros Hr. unfold validate_dict_str_any. rewrite run_bind.
  cbn [deref fst snd]. rewrite Hr. by rewrite run_bind, run_ret.
Qed.

Lemma validate_dict_rejects (x : Val) (w : World) :
  is_dict (heap w) x = false → validate_dict_str_any x w = (invalid, w).
Proof.
  destruct x as [| | | | | |l]; try done. cbn [is_dict]. intros Hd.
  unfold validate_dict_str_any. rewrite run_bind. cbn [deref fst snd].
  destruct (heap w !! l) as [[]|]; try done.
Qed.

Lemma metadata_field (c : Class) :
  c ∈ [TaskIdParams; TaskQueryParams; TaskSendParams] →
  field "metadata" (nullable_schema dict_str_any_schema) (DefaultValue VNone)
    ∈ model_fields c.
Proof.
  intros Hc. repeat (apply elem_of_cons in Hc as [->|Hc]);
    [..|by apply elem_of_nil in Hc];
    cbn [model_fields]; unfold TaskQueryParams_fields, TaskIdParams_fields,
      TaskSendParams_fields; cbn [app];
    repeat first [apply list_elem_of_here | apply list_elem_of_further].
Qed.

(** X13: [metadata], in the three parameter classes.  A dict whose keys
    are all strings, passed as [metadata], is not kept: the instance
    holds a new dict with the same content, and the caller's dict is left
    as it was.  A value that is neither None nor a dict raises
    ValidationError at [metadata].  With a string [id], TaskIdParams is
    constructed for any dict whose keys are all strings. *)
Theorem metadata_copied (c : Class) (kw : gmap string Val) (x : Val) (w : World) :
  c ∈ [TaskIdParams; TaskQueryParams; TaskSendParams] →
  kw !! "metadata" = Some x →
  allocated (heap w) x →
  (x ≠ VNone → is_dict (heap w) x = false →
     fails_at (new c kw w).1 [Attr "metadata"]) ∧
  (∀ r d l w', x = VRef r → heap w !! r = Some (ODict d) →
     new c kw w = (Ok l, w') →
     ∃ r', getattr (heap w') l "metadata" = Some (VRef r') ∧
           heap w !! r' = None ∧
           heap w' !! r' = Some (ODict d) ∧
           heap w' !! r = Some (ODict d)) ∧
  (∀ r d i, x = VRef r → heap w !! r = Some (ODict d) → kw !! "id" = Some (VStr i) →
     ∃ l w', new TaskIdParams kw w = (Ok l, w')).
Proof.
  intros Hc Hx Ha. apply metadata_field in Hc.
  set (f := field "metadata" _ _) in Hc.
  split; [|split].
  - intros Hnone Hd. apply (field_fails_at c kw f x [] w Hc Hx).
    intros w' [Hw' _ _ _ _].
    assert (Hrun : validate (annotation f) x w' = (invalid, w')).
    { cbn [f annotation validate nullable_schema dict_str_any_schema].
      rewrite <- (is_dict_mono _ _ _ Hw' Ha) in Hd.
      destruct x; try done; by apply validate_dict_rejects. }
    rewrite Hrun. eexists. split; [done|]. apply list_elem_of_here.
  - intros r d l w' -> Hr Hnew.
    apply BaseModel_init_Ok_inv in Hnew as (attrs & w1 & Hrun & Hl & ->).
    destruct (validate_fields_attrs kw _ w w1 attrs (model_fields_grow c)
                (field_names_NoDup c) Hrun) as [_ Hall].
    destruct (Hall f Hc) as (w0 & v & [Hw0 _ _ _ _] & [Hw1 _ _ _ _] & Hv & Hlook).
    rewrite (validate_field_passed kw f (VRef r)) in Hv, Hw1 by done.
    cbn [f name annotation validate nullable_schema dict_str_any_schema fst snd]
      in Hv, Hw1, Hlook.
    pose proof (lookup_weaken _ _ _ _ Hr Hw0) as Hr0.
    rewrite (validate_dict_run r d w0 Hr0) in Hv, Hw1. cbn [fst snd at_loc] in Hv, Hw1.
    injection Hv as <-. exists (alloc (ODict d) w0).1.
    assert (Hsub : heap w1 ⊆ <[l := OInst c attrs]> (heap w1))
      by (by apply insert_subseteq).
    cbn [heap set_heap]. split; [by rewrite getattr_insert|]. split; [|split].
    + eapply lookup_weaken_None; [apply alloc_fresh | exact Hw0].
    + eapply lookup_weaken; [|exact Hsub].
      eapply lookup_weaken; [apply alloc_lookup | exact Hw1].
    + eapply lookup_weaken; [|exact Hsub].
      eapply lookup_weaken; [|exact Hw1].
      eapply lookup_weaken; [exact Hr0 | apply extends_alloc].
  - intros r d i -> Hr Hid.
    destruct (BaseModel_init_ok TaskIdParams TaskIdParams_fields kw
                {[ "id" := VStr i; "metadata" := VRef (alloc (ODict d) w).1 ]}
                w (alloc (ODict d) w).2) as (l & Hnew & _).
    { unfold TaskIdParams_fields. rewrite 2!validate_fields_cons.
      rewrite (validate_field_passed kw (field "id" _ _) (VStr i)) by exact Hid.
      cbn [name annotation validate str_schema fst snd]. rewrite validate_str_run.
      cbn [fst snd].
      rewrite (validate_field_passed kw (field "metadata" _ _) (VRef r)) by exact Hx.
      cbn [name annotation validate nullable_schema dict_str_any_schema fst snd].
      rewrite (validate_dict_run r d w Hr). by run. }
    eauto.
Qed.


(** ** Inheritance *)

Lemma historyLength_field_pure (kw : gmap string Val) (w : World) :
  (validate_field kw (field "historyLength" (nullable_schema int_schema)
                            (DefaultValue VNone)) w).2 = w.
Proof.
  destruct (kw !! "historyLength") as [v|] eqn:Hhl.
  - rewrite (validate_field_passed kw _ v) by exact Hhl. cbn [snd name annotation].
    apply nullable_int_pure.
  - by rewrite validate_field_omitted by exact Hhl.
Qed.

(** X14: TaskQueryParams is a TaskIdParams.  It declares the fields of
    TaskIdParams and then [historyLength]; whatever makes TaskIdParams
    fail makes it fail at the same place; when it is constructed, so is a
    TaskIdParams from the same arguments, with the same [id] and
    [metadata]; and an instance of it is accepted as it is where a
    TaskIdParams is expected. *)
Theorem TaskQueryParams_inherits (kw : gmap string Val) (w : World) :
  field_names TaskQueryParams = (field_names TaskIdParams ++ ["historyLength"])%list ∧
  (∀ loc, fails_at (new TaskIdParams kw w).1 loc →
          fails_at (new TaskQueryParams kw w).1 loc) ∧
  (∀ l w', new TaskQueryParams kw w = (Ok l, w') →
     ∃ l0 w0, new TaskIdParams kw w = (Ok l0, w0) ∧
       ∀ n, n ∈ field_names TaskIdParams →
            getattr (heap w') l n = getattr (heap w0) l0 n) ∧
  (∀ l attrs, heap w !! l = Some (OInst TaskQueryParams attrs) →
     model_validate TaskIdParams (VRef l) w = (Ok (VRef l), w)).
Proof.
  split; [done|].
  assert (HI : ∃ r1 r2 w2,
    validate_fields kw TaskIdParams_fields w =
      (both (λ v a, <["id" := v]> a) r1 (both (λ v a, <["metadata" := v]> a) r2 (Ok ∅)),
       w2) ∧
    ∃ r3, validate_fields kw TaskQueryParams_fields w =
      (both (λ v a, <["id" := v]> a) r1
         (both (λ v a, <["metadata" := v]> a) r2
            (both (λ v a, <["historyLength" := v]> a) r3 (Ok ∅))), w2)).
  { unfold TaskQueryParams_fields, TaskIdParams_fields. cbn [app].
    rewrite !validate_fields_cons. cbn [validate_fields name].
    rewrite !run_ret. cbn [fst snd]. rewrite historyLength_field_pure.
    eexists _, _, _. split; [reflexivity|]. eexists. reflexivity. }
  destruct HI as (r1 & r2 & w2 & HI & r3 & HQ).
  unfold new, BaseModel_init. cbn [model_fields]. rewrite !run_bind, HI, HQ.
  cbn [fst snd]. split; [|split].
  - intros loc (es & Hes & Hin).
    destruct r1 as [v1|e1], r2 as [v2|e2]; cbn [both] in *;
      rewrite ?run_bind, ?run_ret in Hes; cbn [fst] in Hes; try done;
      injection Hes as <-; destruct r3 as [v3|e3]; cbn [both];
      rewrite ?run_ret; cbn [fst]; eexists; (split; [done|]);
      repeat first [rewrite elem_of_app in Hin | rewrite elem_of_app]; tauto.
  - intros l w'.
    destruct r1 as [v1|e1], r2 as [v2|e2], r3 as [v3|e3]; cbn [both];
      rewrite ?run_bind, ?run_ret; cbn [fst snd]; intros [= <- <-].
    eexists _, _. split; [done|]. intros n Hn. cbn [alloc fst snd heap set_heap].
    rewrite !getattr_insert.
    repeat (apply elem_of_cons in Hn as [->|Hn]); [..|by apply elem_of_nil in Hn];
      by simplify_map_eq.
  - intros l attrs Hl. unfold model_validate, validate_model.
    rewrite run_bind. cbn [deref fst snd]. rewrite Hl. by rewrite run_ret.
Qed.

(** ** Instances passed as arguments *)

Lemma validate_model_instance (c : Class) (fs : list FieldInfo) (x : Val) (w : World) :
  is_instance (heap w) c x = true → validate_model c fs x w = (Ok x, w).
Proof.
  destruct x as [| | | | | |l]; try done. cbn [is_instance]. intros Hi.
  unfold validate_model. rewrite run_bind. cbn [deref fst snd].
  destruct (heap w !! l) as [[]|]; try done. by rewrite run_ret, Hi.
Qed.

Lemma validate_model_rejects (c : Class) (fs : list FieldInfo) (x : Val) (w : World) :
  is_instance (heap w) c x = false → is_dict (heap w) x = false →
  validate_model c fs x w = (invalid, w).
Proof.
  destruct x as [| | | | | |l]; try done. cbn [is_instance is_dict]. intros Hi Hd.
  unfold validate_model. rewrite run_bind. cbn [deref fst snd].
  destruct (heap w !! l) as [[]|]; try done. by rewrite run_ret, Hi.
Qed.

Lemma validate_items_instances (c : Class) (fs : list FieldInfo) (xs : list Val)
    (i : nat) (w : World) :
  Forall (λ x, is_instance (heap w) c x = true) xs →
  validate_items (validate_model c fs) i xs w = (Ok xs, w).
Proof.
  intros Hxs. revert i. induction Hxs as [|x xs Hx Hxs IH]; intros i; [done|].
  cbn [validate_items]. rewrite !run_bind, (validate_model_instance c fs x w Hx).
  cbn [fst snd]. by rewrite IH, run_ret.
Qed.

(** X15: a Task built from instances holds those instances, not copies:
    its [status] is the TaskStatus object passed and the elements of its
    [history] are the Message objects passed, in order.  The list itself
    is not kept: [history] is a new list.  Nothing else is allocated and
    the clock is not read. *)
Theorem Task_holds_its_arguments (kw : gmap string Val) (w : World) (v : Val) (i : string)
    (ls lh : loc) (ms : list Val) :
  kw !! "id" = Some v → str_reading v = Some i →
  kw !! "status" = Some (VRef ls) →
  is_instance (heap w) TaskStatus (VRef ls) = true →
  kw !! "history" = Some (VRef lh) →
  heap w !! lh = Some (OList ms) →
  Forall (λ m, is_instance (heap w) Message m = true) ms →
  ∃ l lh' w',
    new Task kw w = (Ok l, w') ∧
    heap w' !! l = Some (OInst Task {[ "id" := VStr i; "status" := VRef ls;
                                       "history" := VRef lh' ]}) ∧
    heap w' !! lh' = Some (OList ms) ∧
    heap w !! l = None ∧ heap w !! lh' = None ∧ lh' ≠ lh ∧
    dom (heap w') = {[ l; lh' ]} ∪ dom (heap w) ∧
    undisturbed w w'.
Proof.
  intros Hid Hi Hst Hs Hh Hlh Hms.
  destruct (validate_list_ok (validate_model Message Message_fields) lh ms ms w w Hlh)
    as (lh' & Hlist & Hlh'); [by apply validate_items_instances|].
  set (w1 := set_heap (<[lh' := OList ms]> (heap w)) w) in *.
  destruct (BaseModel_init_ok Task Task_fields kw
              {[ "id" := VStr i; "status" := VRef ls; "history" := VRef lh' ]} w w1)
    as (l & Hnew & Hl).
  { unfold Task_fields. rewrite 3!validate_fields_cons.
    rewrite (validate_field_passed kw (field "id" _ _) v) by exact Hid.
    cbn [name annotation validate str_schema fst snd]. rewrite validate_str_run.
    cbn [fst snd]. rewrite Hi.
    rewrite (validate_field_passed kw (field "status" _ _) (VRef ls)) by exact Hst.
    cbn [name annotation validate model_schema fst snd].
    rewrite (validate_model_instance _ _ _ w Hs). cbn [fst snd].
    rewrite (validate_field_passed kw (field "history" _ _) (VRef lh)) by exact Hh.
    cbn [name annotation validate model_schema list_schema fst snd].
    rewrite Hlist. by run. }
  exists l, lh', (set_heap (<[l := OInst Task {[ "id" := VStr i; "status" := VRef ls;
                                               "history" := VRef lh' ]}]> (heap w1)) w1).
  assert (Hne : l ≠ lh').
  { intros ->. cbn [w1 heap set_heap] in Hl. by rewrite lookup_insert_eq in Hl. }
  assert (Hu : undisturbed w (set_heap (<[l := OInst Task
                  {[ "id" := VStr i; "status" := VRef ls; "history" := VRef lh' ]}]>
                (heap w1)) w1)).
  { etrans; [apply (undisturbed_insert w lh' (OList ms) Hlh')|].
    by apply (undisturbed_insert w1 l). }
  split; [exact Hnew|]. cbn [w1 heap set_heap] in *.
  split; [apply lookup_insert_eq|].
  split; [by rewrite lookup_insert_ne, lookup_insert_eq|].
  split; [by rewrite lookup_insert_ne in Hl|].
  split; [done|]. split; [congruence|].
  split; [by rewrite !dom_insert_L, (assoc_L (∪))|].
  exact Hu.
Qed.

(** X16: a field annotated with a model class, [Task.status] or
    [TaskSendParams.message], takes an instance of that class or a dict;
    anything else, an instance of another class included, raises
    ValidationError at that field. *)
Theorem model_field_rejects (c c' : Class) (n : string) (kw : gmap string Val)
    (x : Val) (w : World) :
  (c, n, c') ∈ model_typed_fields →
  kw !! n = Some x →
  allocated (heap w) x →
  is_instance (heap w) c' x = false →
  is_dict (heap w) x = false →
  fails_at (new c kw w).1 [Attr n].
Proof.
  intros Hc Hx Ha Hi Hd.
  assert (Hf : field n (model_schema c' (model_fields c')) Required ∈ model_fields c).
  { unfold model_typed_fields in Hc.
    repeat (apply elem_of_cons in Hc as [[= -> -> ->]|Hc]); [..|by apply elem_of_nil in Hc];
      cbn [model_fields]; unfold Task_fields, TaskSendParams_fields;
      repeat first [apply list_elem_of_here | apply list_elem_of_further]. }
  apply (field_fails_at c kw _ x [] w Hf Hx). intros w' [Hw' _ _ _ _].
  cbn [annotation validate model_schema].
  rewrite validate_model_rejects.
  - eexists. split; [done|]. apply list_elem_of_here.
  - by rewrite (is_instance_mono _ _ _ _ Hw' Ha).
  - by rewrite (is_dict_mono _ _ _ Hw' Ha).
Qed.

Lemma validate_model_dict_fails (c : Class) (fs : list FieldInfo) (r : loc)
    (d : gmap string Val) (w : World) loc :
  heap w !! r = Some (ODict d) →
  fails_at (BaseModel_init c fs d w).1 loc →
  fails_at (validate_model c fs (VRef r) w).1 loc.
Proof.
  intros Hr (es & Hes & Hin). unfold validate_model. rewrite run_bind.
  cbn [deref fst snd]. rewrite Hr, run_bind, run_ret, Hes. by exists es.
Qed.

Lemma validate_list_fails_at (item : Validator) (l : loc) (xs : list Val) (j : nat)
    (x : Val) (w : World) loc :
  (∀ v, grows (item v)) →
  heap w !! l = Some (OList xs) →
  xs !! j = Some x →
  (∀ w', extends w w' → fails_at (item x w').1 loc) →
  fails_at (validate_list item (VRef l) w).1 (Idx j :: loc).
Proof.
  intros Hg Hl Hj Hx. apply validate_list_fails with xs; [done|].
  by apply (validate_items_fails_at item xs 0 j x w loc).
Qed.

(** X17: an error deep inside the arguments is reported with the whole
    path to it: a Task whose [history] has at index [j] a dict whose
    [parts] has at index [k] a dict without [text] raises
    ValidationError at history, j, parts, k, text. *)
Theorem Task_error_path (kw : gmap string Val) (w : World) (lh lp rm rp : loc)
    (ms ps : list Val) (dm dp : gmap string Val) (j k : nat) :
  kw !! "history" = Some (VRef lh) → heap w !! lh = Some (OList ms) →
  ms !! j = Some (VRef rm) → heap w !! rm = Some (ODict dm) →
  dm !! "parts" = Some (VRef lp) → heap w !! lp = Some (OList ps) →
  ps !! k = Some (VRef rp) → heap w !! rp = Some (ODict dp) →
  dp !! "text" = None →
  fails_at (new Task kw w).1 [Attr "history"; Idx j; Attr "parts"; Idx k; Attr "text"].
Proof.
  intros Hh Hlh Hj Hrm Hparts Hlp Hk Hrp Htext.
  pose proof (model_fields_grow TextPart) as HgT.
  pose proof (model_fields_grow Message) as HgM.
  assert (HvT : ∀ v, grows (validate_model Part TextPart_fields v)).
  { intros v. by apply (model_schema_keeps extends _ extends_alloc Part TextPart_fields). }
  assert (HvM : ∀ v, grows (validate_model Message Message_fields v)).
  { intros v. by apply (model_schema_keeps extends _ extends_alloc Message Message_fields). }
  apply (field_fails_at Task kw
           (field "history" (list_schema (model_schema Message Message_fields)) Required)
           (VRef lh));
    [cbn [model_fields]; unfold Task_fields;
       repeat first [apply list_elem_of_here | apply list_elem_of_further] | exact Hh |].
  intros w1 Hw1. cbn [annotation validate list_schema model_schema].
  apply validate_list_fails_at with ms (VRef rm);
    [exact HvM | exact (lookup_weaken _ _ _ _ Hlh (extends_heap _ _ Hw1)) | exact Hj |].
  intros w2 Hw2. assert (Hw : extends w w2) by (by etrans).
  apply validate_model_dict_fails with dm;
    [exact (lookup_weaken _ _ _ _ Hrm (extends_heap _ _ Hw))|].
  apply (field_fails_at Message dm
           (field "parts" (list_schema (model_schema Part TextPart_fields)) Required)
           (VRef lp));
    [cbn [model_fields]; unfold Message_fields;
       repeat first [apply list_elem_of_here | apply list_elem_of_further] | exact Hparts |].
  intros w3 Hw3. assert (Hw' : extends w w3) by (by etrans).
  cbn [annotation validate list_schema model_schema].
  apply validate_list_fails_at with ps (VRef rp);
    [exact HvT | exact (lookup_weaken _ _ _ _ Hlp (extends_heap _ _ Hw')) | exact Hk |].
  intros w4 Hw4. assert (Hw'' : extends w w4) by (by etrans).
  apply validate_model_dict_fails with dp;
    [exact (lookup_weaken _ _ _ _ Hrp (extends_heap _ _ Hw''))|].
  apply BaseModel_init_fails,
    (validate_fields_fails dp TextPart_fields (field "text" str_schema Required));
    [apply list_elem_of_further, list_elem_of_here|].
  intros w5. rewrite validate_field_omitted by exact Htext.
  eexists. split; [done|]. apply list_elem_of_here.
Qed.


(** ** Parameters as they arrive *)

(** X18: TaskSendParams built from plain data, as request parameters
    arrive: with a string [id], a [message] given as the dict of a valid
    Message (its parts dicts in turn) and nothing else, the instance is
    constructed and its [message] is a new Message that reads as that
    data; [historyLength] and [metadata] are None. *)
Theorem TaskSendParams_message_from_dict (kw : gmap string Val) (w : World)
    (v vm : Val) (i : string) (m : Data.Message) :
  kw !! "id" = Some v → str_reading v = Some i →
  kw !! "message" = Some vm →
  dumped_Message (heap w) vm m → Data.valid_Message m →
  kw !! "sessionId" = None → kw !! "historyLength" = None → kw !! "metadata" = None →
  ∃ l w' lm,
    new TaskSendParams kw w = (Ok l, w') ∧
    getattr (heap w') l "id" = Some (VStr i) ∧
    getattr (heap w') l "message" = Some (VRef lm) ∧
    read_Message (heap w') (VRef lm) = Some m ∧
    heap w !! lm = None ∧
    getattr (heap w') l "historyLength" = Some VNone ∧
    getattr (heap w') l "metadata" = Some VNone.
Proof.
  intros Hid Hi Hmsg Hd Hv Hsid Hhl Hmd.
  pose proof (grows_uuid4_hex w) as Hw1. set (w1 := (uuid4_hex w).2) in *.
  pose proof (extends_heap _ _ Hw1) as Hh1.
  pose proof (dumped_Message_mono _ _ _ _ Hh1 Hd) as Hd1.
  destruct (validate_Message_dumped w1 vm m (conj Hd1 Hv)) as (y & w2 & Hval & Hw2 & Hread).
  destruct Hd1 as (ld & d & -> & Hld & _).
  destruct (validate_model_dict_fresh Message Message_fields ld _ w1 w2 y
              (model_fields_grow Message) Hld Hval) as (lm & -> & Hlm & _).
  destruct (BaseModel_init_ok TaskSendParams TaskSendParams_fields kw
              {[ "id" := VStr i; "sessionId" := (uuid4_hex w).1; "message" := VRef lm;
                 "historyLength" := VNone; "metadata" := VNone ]} w w2)
    as (l & Hnew & Hl).
  { unfold TaskSendParams_fields. rewrite 5!validate_fields_cons.
    rewrite (validate_field_passed kw (field "id" _ _) v) by exact Hid.
    cbn [name annotation validate str_schema fst snd]. rewrite validate_str_run.
    cbn [fst snd]. rewrite Hi.
    rewrite (validate_field_omitted kw (field "sessionId" _ _)) by exact Hsid.
    cbn [default fst snd]. fold w1.
    rewrite (validate_field_passed kw (field "message" _ _) (VRef ld)) by exact Hmsg.
    cbn [name annotation fst snd]. rewrite Hval. cbn [fst snd].
    rewrite (validate_field_omitted kw (field "historyLength" _ _)) by exact Hhl.
    cbn [default fst snd].
    rewrite (validate_field_omitted kw (field "metadata" _ _)) by exact Hmd.
    by run. }
  eexists l, _, lm. split; [exact Hnew|]. cbn [heap set_heap].
  rewrite !getattr_insert.
  split; [by simplify_map_eq|]. split; [by simplify_map_eq|].
  split; [|split; [|split; by simplify_map_eq]].
  - eapply read_Message_mono; [|exact Hread]. by apply insert_subseteq.
  - eapply lookup_weaken_None; [exact Hlm | exact Hh1].
Qed.


(** ** An instance where a list is expected *)

Lemma field_names_declared (c : Class) : field_names c = declared_fields c.
Proof. by destruct c. Qed.

Lemma alloc_all_spec (os : list Obj) (w : World) :
  Forall2 (λ l o, heap (alloc_all os w).2 !! l = Some o) (alloc_all os w).1 os ∧
  heap w ⊆ heap (alloc_all os w).2.
Proof.
  revert w. induction os as [|o os IH]; intros w; [by split; [constructor|]|].
  cbn [alloc_all]. rewrite !run_bind, run_ret. cbn [fst snd].
  destruct (IH (alloc o w).2) as [Hall Hsub].
  pose proof (extends_heap _ _ (extends_alloc o w)) as Hw.
  split; [|by etrans].
  constructor; [|exact Hall].
  eapply lookup_weaken; [apply alloc_lookup | exact Hsub].
Qed.

Lemma instance_items_tuples (c : Class) (attrs : gmap string Val) :
  (∀ n, n ∈ declared_fields c → is_Some (attrs !! n)) →
  length (instance_items c attrs) = length (declared_fields c) ∧
  Forall (λ o, ∃ ts, o = OTuple ts) (instance_items c attrs).
Proof.
  unfold instance_items. generalize (declared_fields c). intros ns.
  induction ns as [|n ns IH]; intros Hns; [by split; [|constructor]|].
  destruct (Hns n) as [v Hv]; [apply list_elem_of_here|].
  destruct IH as [Hlen Hall]; [intros m Hm; by apply Hns, list_elem_of_further|].
  cbn [omap list_omap]. rewrite Hv. cbn. split; [by rewrite Hlen|].
  constructor; [by eexists | exact Hall].
Qed.

Lemma Forall2_tuples (h : gmap loc Obj) (ls : list loc) (os : list Obj) :
  Forall2 (λ l o, h !! l = Some o) ls os →
  Forall (λ o, ∃ ts, o = OTuple ts) os →
  Forall (λ x, ∃ l ts, x = VRef l ∧ h !! l = Some (OTuple ts)) (VRef <$> ls).
Proof.
  intros Hall. induction Hall as [|l o ls os Ho Hall IH]; intros Htup; [constructor|].
  apply Forall_cons in Htup as [[ts ->] Htup]. cbn [fmap list_fmap].
  constructor; [by exists l, ts | by apply IH].
Qed.

(** A tuple is no keyword-argument dict and no instance: every item that
    is one fails, at its index, and nothing is created. *)
Lemma validate_items_tuples (c : Class) (fs : list FieldInfo) (xs : list Val)
    (i : nat) (w : World) :
  Forall (λ x, ∃ l ts, x = VRef l ∧ heap w !! l = Some (OTuple ts)) xs →
  validate_items (validate_model c fs) i xs w =
  (match xs with
   | [] => Ok []
   | _ => ValidationError ((λ j, [Idx j]) <$> seq i (length xs))
   end, w).
Proof.
  intros Hxs. revert i. induction Hxs as [|x xs (l & ts & -> & Hl) Hxs IH]; intros i; [done|].
  cbn [validate_items]. rewrite !run_bind.
  rewrite (validate_model_rejects c fs (VRef l) w) by (cbn; by rewrite Hl).
  cbn [fst snd]. rewrite IH, run_ret. by destruct xs.
Qed.

(** X19: an instance passed where a list is expected is iterated, field
    by field: a Message whose [parts] is an instance, a TextPart say,
    raises ValidationError with one error for each field of that
    instance, at parts 0, parts 1 and so on, none of the (name, value)
    pairs being a Part. *)
Theorem instance_passed_as_parts (kw : gmap string Val) (w : World) (r : string)
    (l : loc) (c : Class) (attrs : gmap string Val) :
  kw !! "role" = Some (VStr r) → r ∈ ["user"; "agent"] →
  kw !! "parts" = Some (VRef l) →
  heap w !! l = Some (OInst c attrs) →
  (∀ n, n ∈ declared_fields c → is_Some (attrs !! n)) →
  (new Message kw w).1 =
  ValidationError ((λ i, [Attr "parts"; Idx i]) <$> seq 0 (length (declared_fields c))).
Proof.
  intros Hrole Hr Hparts Hl Hattrs.
  destruct (instance_items_tuples c attrs Hattrs) as [Hlen Htup].
  destruct (alloc_all_spec (instance_items c attrs) w) as [Hall _].
  set (ls := (alloc_all (instance_items c attrs) w).1) in *.
  set (w1 := (alloc_all (instance_items c attrs) w).2) in *.
  assert (Hls : Forall (λ x, ∃ l ts, x = VRef l ∧ heap w1 !! l = Some (OTuple ts))
                  (VRef <$> ls)).
  { by apply (Forall2_tuples _ _ _ Hall). }
  assert (Hn : length (VRef <$> ls) = length (declared_fields c)).
  { by rewrite length_fmap, (Forall2_length _ _ _ Hall). }
  assert (Hlist : validate_list (validate_model Part TextPart_fields) (VRef l) w =
                  (ValidationError ((λ j, [Idx j]) <$> seq 0 (length (declared_fields c))),
                   w1)).
  { unfold validate_list. rewrite run_bind. cbn [deref fst snd]. rewrite Hl.
    rewrite !run_bind. fold ls w1. rewrite (validate_items_tuples _ _ _ 0 w1 Hls).
    cbn [fst snd]. rewrite Hn.
    destruct (VRef <$> ls) as [|x xs] eqn:E.
    - exfalso. cbn in Hn. by destruct c.
    - by rewrite run_ret. }
  unfold new, BaseModel_init. cbn [model_fields]. unfold Message_fields.
  rewrite run_bind, 2!validate_fields_cons.
  rewrite (validate_field_passed kw (field "role" _ _) (VStr r)) by exact Hrole.
  cbn [name annotation validate literal_schema fst snd]. rewrite validate_literal_run.
  cbn [fst snd is_literal]. rewrite (bool_decide_eq_true_2 _ Hr).
  rewrite (validate_field_passed kw (field "parts" _ _) (VRef l)) by exact Hparts.
  cbn [name annotation validate list_schema model_schema fst snd]. rewrite Hlist.
  cbn [fst snd at_loc validate_fields]. rewrite !run_ret. cbn [fst snd both].
  rewrite <- list_fmap_compose.
  destruct (seq 0 (length (declared_fields c))) eqn:E; [by destruct c|].
  by rewrite run_ret.
Qed.

End Models.

(** ** The properties at concrete inputs *)

(** The running example is constructed from nothing, bottom up, and reads
    back as expected: [status.state] is "submitted" and the text of the
    first part of the first message is "hello". *)
Example example_task_constructed :
  let prog : M (Result loc) :=
    rp ← new no_datetime_lax no_int_lax TextPart {[ "text" := VStr "hello" ]};
    match rp with
    | Ok lp =>
      lps ← alloc (OList [VRef lp]);
      rm ← new no_datetime_lax no_int_lax Message {[ "role" := VStr "user"; "parts" := VRef lps ]};
      match rm with
      | Ok lm =>
        rs ← new no_datetime_lax no_int_lax TaskStatus {[ "state" := VStr "submitted" ]};
        match rs with
        | Ok ls =>
          lh ← alloc (OList [VRef lm]);
          new no_datetime_lax no_int_lax Task
              {[ "id" := VStr "t1"; "status" := VRef ls; "history" := VRef lh ]}
        | ValidationError es => mret (ValidationError es)
        end
      | ValidationError es => mret (ValidationError es)
      end
    | ValidationError es => mret (ValidationError es)
    end in
  ∃ l, (prog world0).1 = Ok l ∧
       read_Task (heap (prog world0).2) (VRef l) = Some example_task.
Proof. exists 8%positive. split; by vm_compute. Qed.

Lemma Message_role_and_parts_witness :
  (∃ es, (new no_datetime_lax no_int_lax Message
              {[ "role" := VStr "system"; "parts" := VRef 2%positive ]} example_world).1
         = ValidationError es ∧ [Attr "role"] ∈ es) ∧
  (∃ lm w' lp ys,
     new no_datetime_lax no_int_lax Message
         {[ "role" := VStr "agent"; "parts" := VRef 2%positive ]} example_world = (Ok lm, w') ∧
     heap example_world !! lm = None ∧
     heap w' !! lm = Some (OInst Message {[ "role" := VStr "agent"; "parts" := VRef lp ]}) ∧
     heap w' !! lp = Some (OList ys) ∧
     Forall2 (Part_built (heap w')) [VRef 1%positive] ys).
Proof.
  destruct (Message_role_and_parts no_datetime_lax no_int_lax example_world) as (Ha & _ & _ & Hd).
  split.
  - apply Ha. rewrite lookup_insert_eq. intros H.
    apply elem_of_cons in H as [H|H]; [discriminate H|].
    apply elem_of_cons in H as [H|H]; [discriminate H|].
    by apply elem_of_nil in H.
  - apply (Hd _ "agent" 2%positive [VRef 1%positive]).
    + by vm_compute.
    + apply list_elem_of_further, list_elem_of_here.
    + by vm_compute.
    + by vm_compute.
    + constructor; [by vm_compute | constructor].
Defined.

Lemma TextPart_type_must_be_text_witness :
  ({[ "type" := VStr "image"; "text" := VStr "x" ]} : gmap string Val) !! "type"
    = Some (VStr "image") ∧
  VStr "image" ≠ VStr "text" ∧
  ∃ es, new no_datetime_lax no_int_lax TextPart {[ "type" := VStr "image"; "text" := VStr "x" ]} world0
        = (ValidationError es, world0) ∧ [Attr "type"] ∈ es.
Proof.
  split; [by vm_compute|]. split; [discriminate|].
  apply (TextPart_type_must_be_text no_datetime_lax no_int_lax _ (VStr "image"));
    [by vm_compute | discriminate].
Defined.

Lemma records_mutable_by_assignment_witness :
  heap example_world !! 1%positive
    = Some (OInst TextPart {[ "type" := VStr "text"; "text" := VStr "hello" ]}) ∧
  "type" ∈ field_names no_datetime_lax no_int_lax TextPart ∧
  ∃ w', setattr no_datetime_lax no_int_lax 1%positive "type" (VInt 7) example_world
          = (Some (), w') ∧
        getattr (heap w') 1%positive "type" = Some (VInt 7) ∧
        getattr (heap w') 1%positive "text" = Some (VStr "hello") ∧
        dom (heap w') = dom (heap example_world).
Proof.
  assert (H1 : heap example_world !! 1%positive
               = Some (OInst TextPart {[ "type" := VStr "text"; "text" := VStr "hello" ]}))
    by (by vm_compute).
  assert (H2 : "type" ∈ field_names no_datetime_lax no_int_lax TextPart)
    by apply list_elem_of_here.
  split; [exact H1|]. split; [exact H2|].
  destruct (records_mutable_by_assignment no_datetime_lax no_int_lax TextPart example_world
              1%positive _ "type" (VInt 7) H1 H2)
    as (_ & _ & _ & w' & Hset & _ & Hget & Hother & _ & _ & Hdom & _ & _).
  exists w'. split; [exact Hset|]. split; [exact Hget|]. split; [|exact Hdom].
  rewrite (Hother "text") by done. by vm_compute.
Defined.

(** C8 as stated fails: the TextPart of the example Task is assigned a
    new text.  The Task object, its history list and its Message are
    untouched and no object is created, yet the Task, which read as the
    example data, now reads as other data. *)
Lemma TextPart_text_reassigned :
  read_Task (heap example_world) (VRef 6%positive) = Some example_task ∧
  ∃ w', setattr no_datetime_lax no_int_lax 1%positive "text" (VStr "bye") example_world
          = (Some (), w') ∧
        dom (heap w') = dom (heap example_world) ∧
        heap w' !! 6%positive = heap example_world !! 6%positive ∧
        heap w' !! 1%positive ≠ heap example_world !! 1%positive ∧
        read_Task (heap w') (VRef 6%positive) = Some reassigned_task ∧
        reassigned_task ≠ example_task.
Proof.
  split; [by vm_compute|]. eexists.
  split; [by vm_compute|]. split; [by vm_compute|]. split; [by vm_compute|].
  split; [by vm_compute|]. split; [by vm_compute|]. discriminate.
Qed.

Lemma Task_round_trip_witness :
  read_Task (heap example_world) (VRef 6%positive) = Some example_task ∧
  Data.valid_Task example_task ∧
  ∃ ld kw w1 l' w2,
    model_dump no_datetime_lax no_int_lax Task 6%positive example_world = (Some (VRef ld), w1) ∧
    heap w1 !! ld = Some (ODict kw) ∧
    new no_datetime_lax no_int_lax Task kw w1 = (Ok l', w2) ∧
    read_Task (heap w2) (VRef l') = Some example_task ∧
    read_Task (heap w2) (VRef 6%positive) = Some example_task ∧
    l' ≠ 6%positive.
Proof.
  assert (Hv : Data.valid_Task example_task).
  { repeat constructor. }
  split; [by vm_compute|]. split; [exact Hv|].
  apply (Task_round_trip no_datetime_lax no_int_lax example_world 6%positive example_task);
    [by vm_compute | exact Hv].
Defined.

Lemma TaskSendParams_default_sessionId_witness :
  example_send_kwargs !! "sessionId" = None ∧
  new no_datetime_lax no_int_lax TaskSendParams example_send_kwargs example_world
    = (Ok 7%positive,
       (new no_datetime_lax no_int_lax TaskSendParams example_send_kwargs example_world).2) ∧
  new no_datetime_lax no_int_lax TaskSendParams example_send_kwargs
      (new no_datetime_lax no_int_lax TaskSendParams example_send_kwargs example_world).2
    = (Ok 8%positive,
       (new no_datetime_lax no_int_lax TaskSendParams example_send_kwargs
            (new no_datetime_lax no_int_lax TaskSendParams example_send_kwargs example_world).2).2) ∧
  ∃ s1 s2,
    s1 = "00000000000040008000000000000000" ∧
    s2 = "ffffffffffff4fffbfffffffffffffff" ∧
    getattr (heap (new no_datetime_lax no_int_lax TaskSendParams example_send_kwargs example_world).2)
            7%positive "sessionId" = Some (VStr s1) ∧
    getattr (heap (new no_datetime_lax no_int_lax TaskSendParams example_send_kwargs
                       (new no_datetime_lax no_int_lax TaskSendParams example_send_kwargs
                            example_world).2).2)
            8%positive "sessionId" = Some (VStr s2) ∧
    String.length s1 = 32%nat ∧ String.length s2 = 32%nat ∧ s1 ≠ s2.
Proof.
  set (kw := example_send_kwargs).
  set (w1 := (new no_datetime_lax no_int_lax TaskSendParams kw example_world).2).
  set (w2 := (new no_datetime_lax no_int_lax TaskSendParams kw w1).2).
  assert (H0 : kw !! "sessionId" = None) by (by vm_compute).
  assert (H1 : new no_datetime_lax no_int_lax TaskSendParams kw example_world = (Ok 7%positive, w1))
    by (by vm_compute).
  assert (H2 : new no_datetime_lax no_int_lax TaskSendParams kw w1 = (Ok 8%positive, w2))
    by (by vm_compute).
  destruct (TaskSendParams_default_sessionId no_datetime_lax no_int_lax kw kw example_world w1 w2
              7%positive 8%positive H0 H0 H1 H2)
    as (s1 & s2 & Hs1 & Hs2 & E1 & E2 & Hl1 & Hl2 & _).
  split; [exact H0|]. split; [exact H1|]. split; [exact H2|].
  exists s1, s2.
  assert (E1' : s1 = "00000000000040008000000000000000") by (rewrite E1; by vm_compute).
  assert (E2' : s2 = "ffffffffffff4fffbfffffffffffffff") by (rewrite E2; by vm_compute).
  split; [exact E1'|]. split; [exact E2'|]. split; [exact Hs1|]. split; [exact Hs2|].
  split; [exact Hl1|]. split; [exact Hl2|].
  rewrite E1', E2'. discriminate.
Defined.

(** C2 as stated fails: [state=b"ok"] is not a string, and the TaskStatus
    is constructed all the same, holding the string "ok". *)
Lemma TaskStatus_bytes_state_accepted :
  (∀ s, VBytes [x6f; x6b] ≠ VStr s) ∧
  ∃ l w',
    new no_datetime_lax no_int_lax TaskStatus {[ "state" := VBytes [x6f; x6b] ]} world0 = (Ok l, w') ∧
    getattr (heap w') l "state" = Some (VStr "ok").
Proof.
  split; [discriminate|]. eexists _, _. split; [by vm_compute|]. by vm_compute.
Qed.


(** C4 as stated fails: when the random source repeats itself, two
    TaskSendParams constructed one after the other without [sessionId]
    hold the same identifier. *)
Lemma TaskSendParams_sessionId_collision :
  ∃ l1 w1 l2 w2 s,
    example_send_kwargs !! "sessionId" = None ∧
    new no_datetime_lax no_int_lax TaskSendParams example_send_kwargs stuck_world = (Ok l1, w1) ∧
    new no_datetime_lax no_int_lax TaskSendParams example_send_kwargs w1 = (Ok l2, w2) ∧
    l1 ≠ l2 ∧
    getattr (heap w1) l1 "sessionId" = Some (VStr s) ∧
    getattr (heap w2) l2 "sessionId" = Some (VStr s).
Proof.
  eexists _, _, _, _, _.
  split; [by vm_compute|]. split; [by vm_compute|]. split; [by vm_compute|].
  split; [discriminate|]. split; by vm_compute.
Qed.

Lemma TaskStatus_default_timestamps_witness :
  ∃ l1 w1 l2 w2,
    new no_datetime_lax no_int_lax TaskStatus {[ "state" := VStr "submitted" ]} world0 = (Ok l1, w1) ∧
    new no_datetime_lax no_int_lax TaskStatus {[ "state" := VStr "working" ]} w1 = (Ok l2, w2) ∧
    getattr (heap w2) l1 "timestamp" = Some (VDatetime 0%Z) ∧
    getattr (heap w2) l2 "timestamp" = Some (VDatetime 1%Z) ∧
    (clock world0 (clock_reads world0) ≤ clock world0 (clock_reads w1))%Z.
Proof.
  destruct (TaskStatus_default_timestamps no_datetime_lax no_int_lax "submitted" "working" world0)
    as (l1 & w1 & Hnew1 & _ & Hr1 & Hnext).
  destruct (Hnext w1) as (l2 & w2 & Hnew2 & Ht2 & _ & _ & Ht1 & Hle); [reflexivity|].
  exists l1, w1, l2, w2. split; [exact Hnew1|]. split; [exact Hnew2|].
  rewrite Hr1 in Ht2. split; [exact Ht1|]. split; [exact Ht2|].
  apply Hle. intros i j Hij. cbn. lia.
Defined.

(** C9 as stated fails: with a wall clock that is set back between two
    readings, the TaskStatus constructed second carries the smaller
    timestamp. *)
Lemma TaskStatus_timestamps_decrease :
  ∃ l1 w1 l2 w2,
    new no_datetime_lax no_int_lax TaskStatus {[ "state" := VStr "submitted" ]} backward_world
      = (Ok l1, w1) ∧
    new no_datetime_lax no_int_lax TaskStatus {[ "state" := VStr "working" ]} w1 = (Ok l2, w2) ∧
    getattr (heap w2) l1 "timestamp" = Some (VDatetime 100%Z) ∧
    getattr (heap w2) l2 "timestamp" = Some (VDatetime 99%Z) ∧
    (99 < 100)%Z.
Proof.
  eexists _, _, _, _.
  split; [by vm_compute|]. split; [by vm_compute|].
  split; [by vm_compute|]. split; [by vm_compute|]. done.
Qed.


(** ** The further properties at concrete inputs *)

Lemma required_field_missing_witness :
  "status" ∈ required_fields no_datetime_lax no_int_lax Task ∧
  only_id !! "status" = None ∧
  fails_at (new no_datetime_lax no_int_lax Task only_id world0).1 [Attr "status"].
Proof.
  assert (H1 : "status" ∈ required_fields no_datetime_lax no_int_lax Task).
  { apply list_elem_of_further, list_elem_of_here. }
  assert (H2 : only_id !! "status" = None) by (by vm_compute).
  split; [exact H1|]. split; [exact H2|].
  apply (required_field_missing no_datetime_lax no_int_lax Task only_id "status" world0 H1 H2).
Defined.

Lemma undeclared_arguments_ignored_witness :
  (∀ n, n ∈ field_names no_datetime_lax no_int_lax TextPart → text_and_colour !! n = only_text !! n) ∧
  new no_datetime_lax no_int_lax TextPart text_and_colour world0
  = new no_datetime_lax no_int_lax TextPart only_text world0.
Proof.
  assert (H : ∀ n, n ∈ field_names no_datetime_lax no_int_lax TextPart →
                   text_and_colour !! n = only_text !! n).
  { intros n Hn. unfold field_names in Hn. cbn in Hn.
    repeat (apply elem_of_cons in Hn as [->|Hn]); [..|by apply elem_of_nil in Hn];
      by vm_compute. }
  split; [exact H|].
  apply (undeclared_arguments_ignored no_datetime_lax no_int_lax TextPart _ _ world0 H).
Defined.

Lemma instance_has_declared_fields_witness :
  new no_datetime_lax no_int_lax TaskStatus {[ "state" := VStr "working" ]} world0
    = (Ok 1%positive,
       (new no_datetime_lax no_int_lax TaskStatus {[ "state" := VStr "working" ]} world0).2) ∧
  ∃ attrs,
    heap (new no_datetime_lax no_int_lax TaskStatus {[ "state" := VStr "working" ]} world0).2
      !! 1%positive = Some (OInst TaskStatus attrs) ∧
    dom attrs = list_to_set (field_names no_datetime_lax no_int_lax TaskStatus).
Proof.
  assert (H : new no_datetime_lax no_int_lax TaskStatus {[ "state" := VStr "working" ]} world0
              = (Ok 1%positive,
                 (new no_datetime_lax no_int_lax TaskStatus {[ "state" := VStr "working" ]} world0).2))
    by (by vm_compute).
  split; [exact H|].
  destruct (instance_has_declared_fields no_datetime_lax no_int_lax TaskStatus _ _ _ _ H)
    as (_ & _ & attrs & Hl & Hdom & _).
  exists attrs. split; [exact Hl | exact Hdom].
Defined.

Lemma TaskStatus_explicit_timestamp_witness :
  state_and_timestamp !! "state" = Some (VStr "working") ∧
  str_reading (VStr "working") = Some "working" ∧
  state_and_timestamp !! "timestamp" = Some (VDatetime 42%Z) ∧
  ∃ l, new no_datetime_lax no_int_lax TaskStatus state_and_timestamp world0 =
         (Ok l, set_heap (<[l := OInst TaskStatus
                                  {[ "state" := VStr "working";
                                     "timestamp" := VDatetime 42%Z ]}]>
                            (heap world0)) world0) ∧
       heap world0 !! l = None.
Proof.
  assert (H1 : state_and_timestamp !! "state" = Some (VStr "working")) by (by vm_compute).
  assert (H3 : state_and_timestamp !! "timestamp" = Some (VDatetime 42%Z))
    by (by vm_compute).
  split; [exact H1|]. split; [reflexivity|]. split; [exact H3|].
  destruct (TaskStatus_explicit_timestamp no_datetime_lax no_int_lax state_and_timestamp
              (VStr "working") "working" world0 H1 eq_refl) as [Hok _].
  exact (Hok 42%Z H3).
Defined.

Lemma TaskSendParams_explicit_sessionId_witness :
  send_with_sessionId !! "sessionId" = Some (VStr "s-1") ∧
  new no_datetime_lax no_int_lax TaskSendParams send_with_sessionId example_world
    = (Ok 7%positive,
       (new no_datetime_lax no_int_lax TaskSendParams send_with_sessionId example_world).2) ∧
  ∃ s, str_reading (VStr "s-1") = Some s ∧
       getattr (heap (new no_datetime_lax no_int_lax TaskSendParams send_with_sessionId
                          example_world).2)
               7%positive "sessionId" = Some (VStr s) ∧
       entropy_drawn (new no_datetime_lax no_int_lax TaskSendParams send_with_sessionId
                          example_world).2 = entropy_drawn example_world.
Proof.
  assert (H1 : send_with_sessionId !! "sessionId" = Some (VStr "s-1")) by (by vm_compute).
  assert (H2 : new no_datetime_lax no_int_lax TaskSendParams send_with_sessionId example_world
               = (Ok 7%positive,
                  (new no_datetime_lax no_int_lax TaskSendParams send_with_sessionId
                       example_world).2)) by (by vm_compute).
  split; [exact H1|]. split; [exact H2|].
  destruct (TaskSendParams_explicit_sessionId no_datetime_lax no_int_lax _ _ _ _ _ H1 H2)
    as (s & Hs & Hget & Hdrawn & _).
  exists s. split; [exact Hs|]. split; [exact Hget | exact Hdrawn].
Defined.

Lemma TaskSendParams_sessionId_marks_witness :
  example_send_kwargs !! "sessionId" = None ∧
  new no_datetime_lax no_int_lax TaskSendParams example_send_kwargs example_world
    = (Ok 7%positive,
       (new no_datetime_lax no_int_lax TaskSendParams example_send_kwargs example_world).2) ∧
  ∃ s c,
    getattr (heap (new no_datetime_lax no_int_lax TaskSendParams example_send_kwargs
                       example_world).2)
            7%positive "sessionId" = Some (VStr s) ∧
    String.get 12 s = Some "4"%char ∧
    String.get 16 s = Some c ∧
    c ∈ ["8"; "9"; "a"; "b"]%char.
Proof.
  assert (H1 : example_send_kwargs !! "sessionId" = None) by (by vm_compute).
  assert (H2 : new no_datetime_lax no_int_lax TaskSendParams example_send_kwargs example_world
               = (Ok 7%positive,
                  (new no_datetime_lax no_int_lax TaskSendParams example_send_kwargs
                       example_world).2)) by (by vm_compute).
  split; [exact H1|]. split; [exact H2|].
  apply (TaskSendParams_sessionId_marks no_datetime_lax no_int_lax _ _ _ _ H1 H2).
Defined.

Lemma TextPart_round_trip_witness :
  read_TextPart (heap example_world) (VRef 1%positive)
    = Some (Data.Build_TextPart "text" "hello") ∧
  Data.valid_TextPart (Data.Build_TextPart "text" "hello") ∧
  ∃ ld w1 l' w2,
    model_dump no_datetime_lax no_int_lax TextPart 1%positive example_world = (Some (VRef ld), w1) ∧
    model_validate no_datetime_lax no_int_lax TextPart (VRef ld) w1 = (Ok (VRef l'), w2) ∧
    read_TextPart (heap w2) (VRef l') = Some (Data.Build_TextPart "text" "hello") ∧
    read_TextPart (heap w2) (VRef 1%positive) = Some (Data.Build_TextPart "text" "hello") ∧
    l' ≠ 1%positive ∧
    undisturbed example_world w2.
Proof.
  split; [by vm_compute|]. split; [reflexivity|].
  apply (TextPart_round_trip no_datetime_lax no_int_lax example_world 1%positive
           (Data.Build_TextPart "text" "hello")); [by vm_compute | reflexivity].
Defined.

Lemma Message_round_trip_witness :
  read_Message (heap example_world) (VRef 3%positive) = Some example_message ∧
  Data.valid_Message example_message ∧
  ∃ ld w1 l' w2,
    model_dump no_datetime_lax no_int_lax Message 3%positive example_world = (Some (VRef ld), w1) ∧
    model_validate no_datetime_lax no_int_lax Message (VRef ld) w1 = (Ok (VRef l'), w2) ∧
    read_Message (heap w2) (VRef l') = Some example_message ∧
    read_Message (heap w2) (VRef 3%positive) = Some example_message ∧
    l' ≠ 3%positive ∧
    undisturbed example_world w2.
Proof.
  assert (Hv : Data.valid_Message example_message).
  { split; [apply list_elem_of_here | repeat constructor]. }
  split; [by vm_compute|]. split; [exact Hv|].
  apply (Message_round_trip no_datetime_lax no_int_lax example_world 3%positive example_message);
    [by vm_compute | exact Hv].
Defined.

Lemma TaskStatus_round_trip_witness :
  read_TaskStatus (heap example_world) (VRef 4%positive)
    = Some (Data.Build_TaskStatus "submitted" 0%Z) ∧
  ∃ ld w1 l' w2,
    model_dump no_datetime_lax no_int_lax TaskStatus 4%positive example_world
      = (Some (VRef ld), w1) ∧
    model_validate no_datetime_lax no_int_lax TaskStatus (VRef ld) w1 = (Ok (VRef l'), w2) ∧
    read_TaskStatus (heap w2) (VRef l') = Some (Data.Build_TaskStatus "submitted" 0%Z) ∧
    read_TaskStatus (heap w2) (VRef 4%positive)
      = Some (Data.Build_TaskStatus "submitted" 0%Z) ∧
    l' ≠ 4%positive ∧
    clock_reads w2 = clock_reads example_world.
Proof.
  split; [by vm_compute|].
  apply (TaskStatus_round_trip no_datetime_lax no_int_lax example_world 4%positive
           (Data.Build_TaskStatus "submitted" 0%Z)); by vm_compute.
Defined.

Lemma omitted_field_takes_default_witness :
  ("historyLength", VNone) ∈ default_values no_datetime_lax no_int_lax TaskQueryParams ∧
  only_id !! "historyLength" = None ∧
  new no_datetime_lax no_int_lax TaskQueryParams only_id world0
    = (Ok 1%positive, (new no_datetime_lax no_int_lax TaskQueryParams only_id world0).2) ∧
  getattr (heap (new no_datetime_lax no_int_lax TaskQueryParams only_id world0).2)
          1%positive "historyLength" = Some VNone.
Proof.
  assert (H1 : ("historyLength", VNone) ∈ default_values no_datetime_lax no_int_lax TaskQueryParams).
  { apply list_elem_of_further, list_elem_of_here. }
  assert (H2 : only_id !! "historyLength" = None) by (by vm_compute).
  assert (H3 : new no_datetime_lax no_int_lax TaskQueryParams only_id world0
               = (Ok 1%positive, (new no_datetime_lax no_int_lax TaskQueryParams only_id world0).2))
    by (by vm_compute).
  split; [exact H1|]. split; [exact H2|]. split; [exact H3|].
  apply (omitted_field_takes_default no_datetime_lax no_int_lax _ _ _ _ _ _ _ H1 H2 H3).
Defined.

Lemma no_arguments_all_required_reported_witness :
  (∀ n, n ∈ field_names no_datetime_lax no_int_lax Task → (∅ : gmap string Val) !! n = None) ∧
  (new no_datetime_lax no_int_lax Task ∅ world0).1
  = ValidationError [[Attr "id"]; [Attr "status"]; [Attr "history"]].
Proof.
  assert (H : ∀ n, n ∈ field_names no_datetime_lax no_int_lax Task →
                   (∅ : gmap string Val) !! n = None)
    by (intros n _; apply lookup_empty).
  split; [exact H|].
  apply (no_arguments_all_required_reported no_datetime_lax no_int_lax Task ∅ world0 H).
Defined.

Lemma metadata_copied_witness :
  TaskIdParams ∈ [TaskIdParams; TaskQueryParams; TaskSendParams] ∧
  id_and_metadata !! "metadata" = Some (VRef 4%positive) ∧
  allocated (heap request_world) (VRef 4%positive) ∧
  new no_datetime_lax no_int_lax TaskIdParams id_and_metadata request_world
    = (Ok 10%positive,
       (new no_datetime_lax no_int_lax TaskIdParams id_and_metadata request_world).2) ∧
  ∃ r',
    getattr (heap (new no_datetime_lax no_int_lax TaskIdParams id_and_metadata request_world).2)
            10%positive "metadata" = Some (VRef r') ∧
    heap request_world !! r' = None ∧
    heap (new no_datetime_lax no_int_lax TaskIdParams id_and_metadata request_world).2 !! r'
      = Some (ODict {[ "trace" := VStr "abc" ]}) ∧
    heap (new no_datetime_lax no_int_lax TaskIdParams id_and_metadata request_world).2 !! 4%positive
      = Some (ODict {[ "trace" := VStr "abc" ]}).
Proof.
  assert (H1 : TaskIdParams ∈ [TaskIdParams; TaskQueryParams; TaskSendParams])
    by apply list_elem_of_here.
  assert (H2 : id_and_metadata !! "metadata" = Some (VRef 4%positive)) by (by vm_compute).
  assert (H3 : allocated (heap request_world) (VRef 4%positive)).
  { exists (ODict {[ "trace" := VStr "abc" ]}). by vm_compute. }
  assert (H4 : new no_datetime_lax no_int_lax TaskIdParams id_and_metadata request_world
               = (Ok 10%positive,
                  (new no_datetime_lax no_int_lax TaskIdParams id_and_metadata request_world).2))
    by (by vm_compute).
  split; [exact H1|]. split; [exact H2|]. split; [exact H3|]. split; [exact H4|].
  destruct (metadata_copied no_datetime_lax no_int_lax TaskIdParams id_and_metadata (VRef 4%positive)
              request_world H1 H2 H3) as (_ & Hcopy & _).
  apply (Hcopy 4%positive {[ "trace" := VStr "abc" ]} 10%positive _ eq_refl);
    [by vm_compute | exact H4].
Defined.

Lemma Task_holds_its_arguments_witness :
  task_of_instances !! "id" = Some (VStr "t2") ∧
  task_of_instances !! "status" = Some (VRef 4%positive) ∧
  is_instance (heap example_world) TaskStatus (VRef 4%positive) = true ∧
  task_of_instances !! "history" = Some (VRef 5%positive) ∧
  heap example_world !! 5%positive = Some (OList [VRef 3%positive]) ∧
  Forall (λ m, is_instance (heap example_world) Message m = true) [VRef 3%positive] ∧
  ∃ l lh' w',
    new no_datetime_lax no_int_lax Task task_of_instances example_world = (Ok l, w') ∧
    heap w' !! l = Some (OInst Task {[ "id" := VStr "t2"; "status" := VRef 4%positive;
                                       "history" := VRef lh' ]}) ∧
    heap w' !! lh' = Some (OList [VRef 3%positive]) ∧
    heap example_world !! l = None ∧ heap example_world !! lh' = None ∧
    lh' ≠ 5%positive ∧
    dom (heap w') = {[ l; lh' ]} ∪ dom (heap example_world) ∧
    undisturbed example_world w'.
Proof.
  assert (H1 : task_of_instances !! "id" = Some (VStr "t2")) by (by vm_compute).
  assert (H2 : task_of_instances !! "status" = Some (VRef 4%positive)) by (by vm_compute).
  assert (H3 : is_instance (heap example_world) TaskStatus (VRef 4%positive) = true)
    by (by vm_compute).
  assert (H4 : task_of_instances !! "history" = Some (VRef 5%positive)) by (by vm_compute).
  assert (H5 : heap example_world !! 5%positive = Some (OList [VRef 3%positive]))
    by (by vm_compute).
  assert (H6 : Forall (λ m, is_instance (heap example_world) Message m = true)
                 [VRef 3%positive]).
  { constructor; [by vm_compute | constructor]. }
  split; [exact H1|]. split; [exact H2|]. split; [exact H3|]. split; [exact H4|].
  split; [exact H5|]. split; [exact H6|].
  apply (Task_holds_its_arguments no_datetime_lax no_int_lax task_of_instances example_world
           (VStr "t2") "t2" 4%positive 5%positive [VRef 3%positive]
           H1 eq_refl H2 H3 H4 H5 H6).
Defined.

Lemma model_field_rejects_witness :
  (Task, "status", TaskStatus) ∈ model_typed_fields ∧
  task_with_message_as_status !! "status" = Some (VRef 3%positive) ∧
  allocated (heap example_world) (VRef 3%positive) ∧
  is_instance (heap example_world) TaskStatus (VRef 3%positive) = false ∧
  is_dict (heap example_world) (VRef 3%positive) = false ∧
  fails_at (new no_datetime_lax no_int_lax Task task_with_message_as_status example_world).1
           [Attr "status"].
Proof.
  assert (H1 : (Task, "status", TaskStatus) ∈ model_typed_fields)
    by apply list_elem_of_here.
  assert (H2 : task_with_message_as_status !! "status" = Some (VRef 3%positive))
    by (by vm_compute).
  assert (H3 : allocated (heap example_world) (VRef 3%positive)).
  { exists (OInst Message {[ "role" := VStr "user"; "parts" := VRef 2%positive ]}).
    by vm_compute. }
  assert (H4 : is_instance (heap example_world) TaskStatus (VRef 3%positive) = false)
    by (by vm_compute).
  assert (H5 : is_dict (heap example_world) (VRef 3%positive) = false) by (by vm_compute).
  split; [exact H1|]. split; [exact H2|]. split; [exact H3|]. split; [exact H4|].
  split; [exact H5|].
  apply (model_field_rejects no_datetime_lax no_int_lax Task TaskStatus "status"
           task_with_message_as_status (VRef 3%positive) example_world H1 H2 H3 H4 H5).
Defined.

Lemma Task_error_path_witness :
  task_with_bad_history !! "history" = Some (VRef 8%positive) ∧
  heap request_world !! 8%positive = Some (OList [VRef 3%positive; VRef 7%positive]) ∧
  heap request_world !! 7%positive
    = Some (ODict {[ "role" := VStr "agent"; "parts" := VRef 6%positive ]}) ∧
  heap request_world !! 6%positive = Some (OList [VRef 1%positive; VRef 5%positive]) ∧
  heap request_world !! 5%positive = Some (ODict ∅) ∧
  fails_at (new no_datetime_lax no_int_lax Task task_with_bad_history request_world).1
           [Attr "history"; Idx 1; Attr "parts"; Idx 1; Attr "text"].
Proof.
  assert (H1 : task_with_bad_history !! "history" = Some (VRef 8%positive))
    by (by vm_compute).
  assert (H2 : heap request_world !! 8%positive
               = Some (OList [VRef 3%positive; VRef 7%positive])) by (by vm_compute).
  assert (H3 : heap request_world !! 7%positive
               = Some (ODict {[ "role" := VStr "agent"; "parts" := VRef 6%positive ]}))
    by (by vm_compute).
  assert (H4 : heap request_world !! 6%positive
               = Some (OList [VRef 1%positive; VRef 5%positive])) by (by vm_compute).
  assert (H5 : heap request_world !! 5%positive = Some (ODict ∅)) by (by vm_compute).
  split; [exact H1|]. split; [exact H2|]. split; [exact H3|]. split; [exact H4|].
  split; [exact H5|].
  apply (Task_error_path no_datetime_lax no_int_lax task_with_bad_history request_world
           8%positive 6%positive 7%positive 5%positive
           [VRef 3%positive; VRef 7%positive] [VRef 1%positive; VRef 5%positive]
           {[ "role" := VStr "agent"; "parts" := VRef 6%positive ]} ∅ 1 1
           H1 H2 eq_refl H3); [by vm_compute | exact H4 | reflexivity | exact H5 | done].
Defined.

Lemma TaskSendParams_message_from_dict_witness :
  example_send_kwargs !! "id" = Some (VStr "t1") ∧
  example_send_kwargs !! "message" = Some (VRef 3%positive) ∧
  dumped_Message (heap request_world) (VRef 3%positive) example_message ∧
  Data.valid_Message example_message ∧
  ∃ l w' lm,
    new no_datetime_lax no_int_lax TaskSendParams example_send_kwargs request_world = (Ok l, w') ∧
    getattr (heap w') l "id" = Some (VStr "t1") ∧
    getattr (heap w') l "message" = Some (VRef lm) ∧
    read_Message (heap w') (VRef lm) = Some example_message ∧
    heap request_world !! lm = None ∧
    getattr (heap w') l "historyLength" = Some VNone ∧
    getattr (heap w') l "metadata" = Some VNone.
Proof.
  assert (H1 : example_send_kwargs !! "id" = Some (VStr "t1")) by (by vm_compute).
  assert (H2 : example_send_kwargs !! "message" = Some (VRef 3%positive))
    by (by vm_compute).
  assert (H3 : dumped_Message (heap request_world) (VRef 3%positive) example_message).
  { exists 3%positive, {[ "role" := VStr "user"; "parts" := VRef 2%positive ]}.
    split; [done|]. split; [by vm_compute|].
    exists (VRef 2%positive). split; [done|].
    exists 2%positive, [VRef 1%positive]. split; [done|]. split; [by vm_compute|].
    constructor; [|constructor]. exists 1%positive. split; [done | by vm_compute]. }
  assert (H4 : Data.valid_Message example_message).
  { split; [apply list_elem_of_here | repeat constructor]. }
  split; [exact H1|]. split; [exact H2|]. split; [exact H3|]. split; [exact H4|].
  apply (TaskSendParams_message_from_dict no_datetime_lax no_int_lax example_send_kwargs
           request_world (VStr "t1") (VRef 3%positive) "t1" example_message
           H1 eq_refl H2 H3 H4); by vm_compute.
Defined.


Lemma instance_passed_as_parts_witness :
  message_with_part_as_parts !! "role" = Some (VStr "user") ∧
  message_with_part_as_parts !! "parts" = Some (VRef 1%positive) ∧
  heap example_world !! 1%positive
    = Some (OInst TextPart {[ "type" := VStr "text"; "text" := VStr "hello" ]}) ∧
  (new no_datetime_lax no_int_lax Message message_with_part_as_parts example_world).1
  = ValidationError [[Attr "parts"; Idx 0]; [Attr "parts"; Idx 1]].
Proof.
  assert (H1 : message_with_part_as_parts !! "role" = Some (VStr "user"))
    by (by vm_compute).
  assert (H2 : message_with_part_as_parts !! "parts" = Some (VRef 1%positive))
    by (by vm_compute).
  assert (H3 : heap example_world !! 1%positive
               = Some (OInst TextPart {[ "type" := VStr "text"; "text" := VStr "hello" ]}))
    by (by vm_compute).
  split; [exact H1|]. split; [exact H2|]. split; [exact H3|].
  apply (instance_passed_as_parts no_datetime_lax no_int_lax message_with_part_as_parts
           example_world "user" 1%positive TextPart _ H1 (list_elem_of_here _ _) H2 H3).
  intros n Hn. cbn in Hn.
  repeat (apply elem_of_cons in Hn as [->|Hn]); [..|by apply elem_of_nil in Hn];
    eexists; by vm_compute.
Defined.
